(** * The auction engine of ecom-uv

    A shallow embedding of the auction model (models/Auction.js), of the
    role guard (middleware/roleMiddleware.js) and of the auction routes
    (routes/auctions.js), and the properties of the auction state machine
    proved over it; then the same for the order model (models/Order.js)
    and the order routes.

    Conventions of the embedding.
    - A JavaScript [Date] is its [getTime()] value: an integer number of
      milliseconds, in [Z].  Mongoose stores valid dates only.
    - A JavaScript [Number] is a binary64 floating-point number.  The
      prices a document stores and a request carries are finite ones, and
      each is written as the rational it equals, in [Q]: comparing two of
      them is comparing the rationals.  The arithmetic the routes perform
      on prices (one product and one sum, for the minimum next bid) is
      rounded as binary64 rounds it; its result is a [double], which may be
      infinite.  Counts (viewCount, stock, quantity) are integers, in [Z],
      of the range in which binary64 is exact.
    - An [ObjectId] is the string [toString()] yields; the routes compare
      ids through it.
    - [save()] of a stored document is assumed to succeed; what it does to
      the document is the [pre('save')] hook.  The bookkeeping stamps
      [createdAt] and [updatedAt], which nothing reads, are left out of
      the record.
    - Each [new Date()] a handler evaluates is an explicit argument, so a
      handler that reads the clock several times takes several instants.
    - A route is the chain of its middleware, in the order of the route's
      array, and then the handler function, which starts with the result of
      the checks declared with express-validator.  The chain is modelled
      from the point where [authMiddleware] has let the request through:
      the requester it attached to the request is an argument, with the
      role its token carries, as is the document [findById] found. *)

From Stdlib Require Import ZArith QArith List Sorted Permutation String Bool Lia.
From Stdlib Require Import SpecFloat PrimFloat FloatOps.
Import ListNotations.

Open Scope Z_scope.

(** ** Data model (models/Auction.js) *)

Definition ObjectId := string.
Definition Date := Z.

Inductive Status : Set :=
  | Pending | Upcoming | Active | Ended | Sold | Expired | Cancelled.

Definition Status_eqb (s t : Status) : bool :=
  match s, t with
  | Pending, Pending | Upcoming, Upcoming | Active, Active | Ended, Ended
  | Sold, Sold | Expired, Expired | Cancelled, Cancelled => true
  | _, _ => false
  end.

(** BidSchema *)
Record Bid : Set := mkBid {
  user : ObjectId;
  amount : Q;
  timestamp : Date
}.

(** AuctionSchema *)
Record Auction : Set := mkAuction {
  product : ObjectId;
  seller : ObjectId;
  startTime : Date;
  endTime : Date;
  startingBid : Q;
  currentHighestBid : Q;
  currentHighestBidder : option ObjectId;
  bids : list Bid;
  status : Status;
  winner : option ObjectId;
  reservePrice : option Q;
  buyNowPrice : option Q;
  viewCount : Z
}.

(** Field assignments [this.f = v]. *)
Definition set_startTime (v : Date) (a : Auction) : Auction :=
  mkAuction (product a) (seller a) v (endTime a) (startingBid a)
    (currentHighestBid a) (currentHighestBidder a) (bids a) (status a)
    (winner a) (reservePrice a) (buyNowPrice a) (viewCount a).

Definition set_endTime (v : Date) (a : Auction) : Auction :=
  mkAuction (product a) (seller a) (startTime a) v (startingBid a)
    (currentHighestBid a) (currentHighestBidder a) (bids a) (status a)
    (winner a) (reservePrice a) (buyNowPrice a) (viewCount a).

Definition set_currentHighestBid (v : Q) (a : Auction) : Auction :=
  mkAuction (product a) (seller a) (startTime a) (endTime a) (startingBid a)
    v (currentHighestBidder a) (bids a) (status a)
    (winner a) (reservePrice a) (buyNowPrice a) (viewCount a).

Definition set_currentHighestBidder (v : option ObjectId) (a : Auction) : Auction :=
  mkAuction (product a) (seller a) (startTime a) (endTime a) (startingBid a)
    (currentHighestBid a) v (bids a) (status a)
    (winner a) (reservePrice a) (buyNowPrice a) (viewCount a).

Definition set_bids (v : list Bid) (a : Auction) : Auction :=
  mkAuction (product a) (seller a) (startTime a) (endTime a) (startingBid a)
    (currentHighestBid a) (currentHighestBidder a) v (status a)
    (winner a) (reservePrice a) (buyNowPrice a) (viewCount a).

Definition set_status (v : Status) (a : Auction) : Auction :=
  mkAuction (product a) (seller a) (startTime a) (endTime a) (startingBid a)
    (currentHighestBid a) (currentHighestBidder a) (bids a) v
    (winner a) (reservePrice a) (buyNowPrice a) (viewCount a).

Definition set_winner (v : option ObjectId) (a : Auction) : Auction :=
  mkAuction (product a) (seller a) (startTime a) (endTime a) (startingBid a)
    (currentHighestBid a) (currentHighestBidder a) (bids a) (status a)
    v (reservePrice a) (buyNowPrice a) (viewCount a).

Definition set_reservePrice (v : option Q) (a : Auction) : Auction :=
  mkAuction (product a) (seller a) (startTime a) (endTime a) (startingBid a)
    (currentHighestBid a) (currentHighestBidder a) (bids a) (status a)
    (winner a) v (buyNowPrice a) (viewCount a).

Definition set_buyNowPrice (v : option Q) (a : Auction) : Auction :=
  mkAuction (product a) (seller a) (startTime a) (endTime a) (startingBid a)
    (currentHighestBid a) (currentHighestBidder a) (bids a) (status a)
    (winner a) (reservePrice a) v (viewCount a).

Definition set_viewCount (v : Z) (a : Auction) : Auction :=
  mkAuction (product a) (seller a) (startTime a) (endTime a) (startingBid a)
    (currentHighestBid a) (currentHighestBidder a) (bids a) (status a)
    (winner a) (reservePrice a) (buyNowPrice a) v.

(** ** JavaScript operators on the values above *)

(** [x < y] on finite numbers. *)
Definition Qltb (x y : Q) : bool := negb (Qle_bool y x).

(** A Number as the arithmetic operators produce it: a binary64 value, in
    the Standard Library's specification of IEEE 754. *)
Definition double : Set := spec_float.

(** The double nearest to a rational, ties to even: the double itself when
    the rational is one, and what a decimal literal of the source reads
    as.  The rational is divided out to a multiple of 2^-1074, the least
    positive double, and rounded from there. *)
Definition toDouble (q : Q) : double :=
  let q := Qred q in
  let n := Qnum q in
  let d := Zpos (Qden q) in
  let (m, r) := Z.div_eucl (Z.shiftl (Z.abs n) 1074) d in
  let l := if r =? 0 then loc_Exact else loc_Inexact (2 * r ?= d) in
  binary_round_aux 53 1024 (n <? 0) m (-1074) l.

(** [x + y], [x * y] and [x < y] on Numbers. *)
Definition jsAdd (x y : double) : double := SFadd 53 1024 x y.
Definition jsMul (x y : double) : double := SFmul 53 1024 x y.
Definition jsLt (x y : double) : bool := SFltb x y.

(** The rational a finite double equals. *)
Definition valueOf (x : double) : option Q :=
  match x with
  | S754_zero _ => Some 0%Q
  | S754_finite s m e =>
      let n := if s then Zneg m else Zpos m in
      Some match e with
           | Zneg k => n # (2 ^ k)
           | _ => (n * 2 ^ e) # 1
           end
  | S754_infinity _ | S754_nan => None
  end.

(** A rational as a Number holds it. *)
Definition nearest (q : Q) : Q :=
  match valueOf (toDouble q) with
  | Some r => r
  | None => q
  end.

(** Truthiness of a number: zero is falsy. *)
Definition truthy (x : Q) : bool := negb (Qeq_bool x 0).

(** Truthiness of an optional number field: [undefined] and zero are falsy. *)
Definition truthyOpt (o : option Q) : bool :=
  match o with
  | Some x => truthy x
  | None => false
  end.

(** [o || 0] on an optional number field. *)
Definition orZero (o : option Q) : Q :=
  match o with
  | Some x => if truthy x then x else 0%Q
  | None => 0%Q
  end.

(** Truthiness of a nullable reference: an ObjectId is an object. *)
Definition isSet {A : Type} (o : option A) : bool :=
  match o with
  | Some _ => true
  | None => false
  end.

(** ** The model's methods *)

(** The final states updateAuctionStatus leaves alone. *)
Definition isFinal (s : Status) : bool :=
  match s with
  | Cancelled | Sold | Expired => true
  | _ => false
  end.

(** AuctionSchema.methods.updateAuctionStatus; [now] is its [new Date()]. *)
Definition updateAuctionStatus (now : Date) (a : Auction) : Auction :=
  if isFinal (status a) then a
  else if now <? startTime a then set_status Upcoming a
  else if (now >=? startTime a) && (now <? endTime a) then set_status Active a
  else if now >=? endTime a then
    if isSet (currentHighestBidder a)
       && Qle_bool (orZero (reservePrice a)) (currentHighestBid a)
    then set_status Ended a
    else set_status Expired a
  else a.

(** AuctionSchema.pre('save'): the repair of currentHighestBid. *)
Definition preSave (a : Auction) : Auction :=
  if Qltb (currentHighestBid a) (startingBid a) && (List.length (bids a) =? 0)%nat
  then set_currentHighestBid (startingBid a) a
  else a.

(** AuctionSchema.statics.findActiveAndUpdateStatus: the query, then the loop
    body applied to every document found.  [db] is the collection; the
    query and the loop are run at the one instant [now]. *)
Definition sweepQuery (now : Date) (a : Auction) : bool :=
  (Status_eqb (status a) Upcoming || Status_eqb (status a) Active)
  && (endTime a <=? now).

Definition sweepOne (now : Date) (a : Auction) : Auction :=
  let a1 := updateAuctionStatus now a in
  let a2 :=
    if Status_eqb (status a1) Ended && isSet (currentHighestBidder a1)
    then set_winner (currentHighestBidder a1) a1
    else a1 in
  preSave a2.

Definition findActiveAndUpdateStatus (now : Date) (db : list Auction) : list Auction :=
  map (fun a => if sweepQuery now a then sweepOne now a else a) db.

(** ** Requests and replies (routes/auctions.js) *)

Module Role.

Inductive t : Set := buyer | seller | admin.

Definition eqb (r s : t) : bool :=
  match r, s with
  | buyer, buyer | seller, seller | admin, admin => true
  | _, _ => false
  end.

End Role.

(** [req.user], as the authentication middleware attaches it: the [user]
    object of the token, which is signed with the id and the role of a
    stored user. *)
Record ReqUser : Set := mkReqUser {
  user_id : ObjectId;
  role : Role.t
}.

(** middleware/roleMiddleware.js: [authorizeRole(roles)] lets the request
    through when the requester's role is one of [roles], a single role
    standing for the list of it.  Its first test, for a request without a
    user or a role, does not fire after authMiddleware. *)
Definition authorizeRole (roles : list Role.t) (u : ReqUser) : bool :=
  existsb (Role.eqb (role u)) roles.

(** What a handler sends back: the bodies of the [res.json] and [res.send]
    calls of the auction routes. *)
Inductive Payload : Set :=
  | AccessDenied             (* 'Access denied. You do not have the required role.' *)
  | AuctionJson              (* the auction document *)
  | ValidationErrors         (* { errors: errors.array() } *)
  | ProductNotFound          (* 'Product not found' *)
  | NotYourProduct           (* 'You can only create auctions for your own products.' *)
  | AlreadyInAuction         (* 'This product is already in an active or upcoming auction.' *)
  | OutOfStock               (* 'Product is out of stock and cannot be auctioned.' *)
  | ServerError              (* 'Server Error' *)
  | NotActive (s : Status)   (* 'Auction is not active. Current status: ...' *)
  | OwnAuction               (* 'You cannot bid on your own auction.' *)
  | BidNotHigher (current : Q)
                             (* 'Your bid must be higher than the current bid of ...' *)
  | BidBelowMinimum (least : double)
                             (* 'Your bid is not high enough. Minimum next bid is ...' *)
  | UpdateNotAuthorized      (* 'User not authorized to update this auction.' *)
  | CriticalFieldsAfterBids  (* 'Cannot change starting bid, product, or reserve
                                price after bids have been placed.' *)
  | TimingWithBids           (* 'Cannot change timing or starting bid for an active
                                auction with bids. ...' *)
  | CancelNotAuthorized      (* 'User not authorized to cancel this auction.' *)
  | CannotCancel (s : Status)
                             (* 'Cannot cancel auction with status: ...' *)
  | CancelActiveWithBids     (* 'Cannot cancel an active auction with bids. Contact
                                admin if necessary.' *)
  | CancelledOk              (* 'Auction cancelled successfully' *)
  | ProcessNotAuthorized     (* 'Not authorized to process this auction.' *)
  | NotEnded (s : Status)    (* 'Auction cannot be processed. Status: ... It must
                                be Ended.' *)
  | NoWinner                 (* 'Auction ended with no bids or no winner.' *)
  | ReserveNotMet (highest reserve : Q)
                             (* 'Auction reserve price not met. Highest bid: ...,
                                Reserve: ...' *)
  | WinnerProcessed (winnerId : option ObjectId) (winningBid : Q).
                             (* 'Auction winner processed (placeholder). ...' *)

Record Reply : Set := mkReply {
  httpStatus : Z;
  payload : Payload
}.

(** The outcome of a request on a stored auction: the reply, and the
    document as the request leaves it in the collection. *)
Record Outcome : Set := mkOutcome {
  reply : Reply;
  saved : Auction
}.

(** ** The routes *)

(** updateAuctionStatusMiddleware: refresh the status and save. *)
Definition updateAuctionStatusMiddleware (now : Date) (a : Auction) : Auction :=
  preSave (updateAuctionStatus now a).

(** *** POST api/auctions *)

(** The product document, as far as the route reads it. *)
Record Product : Set := mkProduct {
  productSeller : ObjectId;
  stock : Q
}.

Record CreateBody : Set := mkCreateBody {
  cProduct : ObjectId;
  cStartTime : Date;
  cEndTime : Date;
  cStartingBid : Q;
  cReservePrice : option Q;
  cBuyNowPrice : option Q
}.

Definition optAll (p : Q -> bool) (o : option Q) : bool :=
  match o with
  | Some x => p x
  | None => true
  end.

(** The express-validator chain of the route. *)
Definition createChecks (b : CreateBody) : bool :=
  negb (String.eqb (cProduct b) EmptyString)
  && negb (cEndTime b <=? cStartTime b)
  && Qltb 0 (cStartingBid b)
  && optAll (Qle_bool 0) (cReservePrice b)
  && optAll (Qltb 0) (cBuyNowPrice b).

(** What [save()] of a new document enforces: the schema's [min]
    validators and the unique index on [product]. *)
Definition insertAccepted (db : list Auction) (a : Auction) : bool :=
  Qle_bool (1 # 100) (startingBid a)
  && optAll (Qle_bool 0) (reservePrice a)
  && optAll (Qle_bool 0) (buyNowPrice a)
  && negb (existsb (fun x => String.eqb (product x) (product a)) db).

(** [Auction.findOne({ product, status: { $in: [Upcoming, Active, Pending] } })] *)
Definition existingAuction (db : list Auction) (productId : ObjectId) : bool :=
  existsb (fun x =>
    String.eqb (product x) productId
    && (Status_eqb (status x) Upcoming || Status_eqb (status x) Active
        || Status_eqb (status x) Pending)) db.

(** The handler.  [found] is [Product.findById(productId)], [db] the auction
    collection; [tc] is the clock read by the constructor call, [tr] the one
    read by updateAuctionStatus. *)
Definition createHandler (tc tr : Date) (u : ReqUser) (b : CreateBody)
    (found : option Product) (db : list Auction) : Reply * option Auction :=
  if negb (createChecks b) then (mkReply 400 ValidationErrors, None)
  else match found with
  | None => (mkReply 404 ProductNotFound, None)
  | Some p =>
    if negb (Role.eqb (role u) Role.admin)
       && negb (String.eqb (productSeller p) (user_id u))
    then (mkReply 403 NotYourProduct, None)
    else if existingAuction db (cProduct b)
    then (mkReply 400 AlreadyInAuction, None)
    else if Qltb (stock p) 1
    then (mkReply 400 OutOfStock, None)
    else
      let newAuction :=
        mkAuction (cProduct b) (productSeller p) (cStartTime b) (cEndTime b)
          (cStartingBid b) (cStartingBid b) None [] 
          (if cStartTime b <=? tc then Active else Upcoming)
          None (cReservePrice b) (cBuyNowPrice b) 0 in
      let newAuction := updateAuctionStatus tr newAuction in
      if insertAccepted db newAuction
      then (mkReply 201 AuctionJson, Some (preSave newAuction))
      else (mkReply 500 ServerError, None)
  end.

(** The route: [authorizeRole(['seller', 'admin'])], then the handler. *)
Definition createAuction (tc tr : Date) (u : ReqUser) (b : CreateBody)
    (found : option Product) (db : list Auction) : Reply * option Auction :=
  if negb (authorizeRole [Role.seller; Role.admin] u)
  then (mkReply 403 AccessDenied, None)
  else createHandler tc tr u b found db.

(** Each route on a stored auction runs its handler function on the
    document updateAuctionStatusMiddleware attached to the request; [tr] is
    the clock that middleware reads. *)

(** *** GET api/auctions/:id *)
Definition getHandler (auction : Auction) : Outcome :=
  let auction := set_viewCount (viewCount auction + 1) auction in
  mkOutcome (mkReply 200 AuctionJson) (preSave auction).

Definition getAuction (tr : Date) (a0 : Auction) : Outcome :=
  getHandler (updateAuctionStatusMiddleware tr a0).

(** *** POST api/auctions/:id/bids *)

(** The express-validator chain of the route: [amount] is a float > 0. *)
Definition bidChecks (amt : Q) : bool := Qltb 0 amt.

Definition fiveMinutes : Z := 5 * 60 * 1000.

(** The handler.  [ts] is the clock stamped on the bid, [now] the one read
    for the anti-sniping extension. *)
Definition bidHandler (ts now : Date) (u : ReqUser) (amt : Q)
    (auction : Auction) : Outcome :=
  if negb (bidChecks amt) then mkOutcome (mkReply 400 ValidationErrors) auction
  else if negb (Status_eqb (status auction) Active)
  then mkOutcome (mkReply 400 (NotActive (status auction))) auction
  else if String.eqb (seller auction) (user_id u)
  then mkOutcome (mkReply 403 OwnAuction) auction
  else
    let minNextBid :=
      jsAdd (toDouble (currentHighestBid auction))
        (jsMul (toDouble (startingBid auction)) (toDouble (1 # 100))) in
    if Qle_bool amt (currentHighestBid auction)
    then mkOutcome (mkReply 400 (BidNotHigher (currentHighestBid auction))) auction
    else if jsLt (toDouble amt) minNextBid && (0 <? List.length (bids auction))%nat
    then mkOutcome (mkReply 400 (BidBelowMinimum minNextBid)) auction
    else
      let newBid := mkBid (user_id u) amt ts in
      let auction := set_bids (bids auction ++ [newBid]) auction in
      let auction := set_currentHighestBid (amount newBid) auction in
      let auction := set_currentHighestBidder (Some (user newBid)) auction in
      let timeLeft := endTime auction - now in
      let auction :=
        if timeLeft <? fiveMinutes
        then set_endTime (now + fiveMinutes) auction
        else auction in
      mkOutcome (mkReply 200 AuctionJson) (preSave auction).

Definition placeBid (tr ts now : Date) (u : ReqUser) (amt : Q)
    (a0 : Auction) : Outcome :=
  bidHandler ts now u amt (updateAuctionStatusMiddleware tr a0).

(** *** PUT api/auctions/:id *)

(** [req.body] of an update.  The two fields the handler only tests for
    truthiness are kept as that truth value. *)
Record Updates : Set := mkUpdates {
  uStartTime : option Date;
  uEndTime : option Date;
  uReservePrice : option Q;
  uBuyNowPrice : option Q;
  uStartingBid : bool;
  uProduct : bool
}.

(** The express-validator chain of the route; the custom check on endTime
    compares it with the body's startTime or else the stored one. *)
Definition updateChecks (auction : Auction) (x : Updates) : bool :=
  match uEndTime x with
  | Some e =>
      let s := match uStartTime x with Some s => s | None => startTime auction end in
      negb (e <=? s)
  | None => true
  end
  && optAll (Qle_bool 0) (uReservePrice x)
  && optAll (Qltb 0) (uBuyNowPrice x).

Definition applyUpdates (x : Updates) (auction : Auction) : Auction :=
  let auction :=
    match uStartTime x with Some s => set_startTime s auction | None => auction end in
  let auction :=
    match uEndTime x with Some e => set_endTime e auction | None => auction end in
  let auction :=
    match uReservePrice x with
    | Some r => set_reservePrice (Some r) auction
    | None => auction
    end in
  match uBuyNowPrice x with
  | Some b => set_buyNowPrice (Some b) auction
  | None => auction
  end.

(** The handler.  [now] is the clock read by the handler's own
    updateAuctionStatus. *)
Definition updateHandler (now : Date) (u : ReqUser) (x : Updates)
    (auction : Auction) : Outcome :=
  if negb (updateChecks auction x)
  then mkOutcome (mkReply 400 ValidationErrors) auction
  else if negb (String.eqb (seller auction) (user_id u))
          && negb (Role.eqb (role u) Role.admin)
  then mkOutcome (mkReply 403 UpdateNotAuthorized) auction
  else if (0 <? List.length (bids auction))%nat
          && (uStartingBid x || uProduct x || truthyOpt (uReservePrice x))
  then mkOutcome (mkReply 400 CriticalFieldsAfterBids) auction
  else if negb (Status_eqb (status auction) Upcoming)
          && (isSet (uStartTime x) || isSet (uEndTime x) || uStartingBid x)
          && (0 <? List.length (bids auction))%nat
  then mkOutcome (mkReply 400 TimingWithBids) auction
  else
    let auction := applyUpdates x auction in
    let auction := updateAuctionStatus now auction in
    mkOutcome (mkReply 200 AuctionJson) (preSave auction).

Definition updateAuction (tr now : Date) (u : ReqUser) (x : Updates)
    (a0 : Auction) : Outcome :=
  updateHandler now u x (updateAuctionStatusMiddleware tr a0).

(** *** DELETE api/auctions/:id *)
Definition cancelHandler (u : ReqUser) (auction : Auction) : Outcome :=
  if negb (String.eqb (seller auction) (user_id u))
     && negb (Role.eqb (role u) Role.admin)
  then mkOutcome (mkReply 403 CancelNotAuthorized) auction
  else if Status_eqb (status auction) Ended || Status_eqb (status auction) Sold
          || Status_eqb (status auction) Expired
  then mkOutcome (mkReply 400 (CannotCancel (status auction))) auction
  else if Status_eqb (status auction) Active
          && (0 <? List.length (bids auction))%nat
          && negb (Role.eqb (role u) Role.admin)
  then mkOutcome (mkReply 400 CancelActiveWithBids) auction
  else
    let auction := set_status Cancelled auction in
    mkOutcome (mkReply 200 CancelledOk) (preSave auction).

Definition cancelAuction (tr : Date) (u : ReqUser) (a0 : Auction) : Outcome :=
  cancelHandler u (updateAuctionStatusMiddleware tr a0).

(** *** POST api/auctions/:id/process-winner *)
Definition processWinnerHandler (u : ReqUser) (auction : Auction) : Outcome :=
  if negb (String.eqb (seller auction) (user_id u))
     && negb (Role.eqb (role u) Role.admin)
  then mkOutcome (mkReply 403 ProcessNotAuthorized) auction
  else if negb (Status_eqb (status auction) Ended)
  then mkOutcome (mkReply 400 (NotEnded (status auction))) auction
  else if negb (isSet (currentHighestBidder auction))
  then mkOutcome (mkReply 400 NoWinner) auction
  else if truthyOpt (reservePrice auction)
          && match reservePrice auction with
             | Some r => Qltb (currentHighestBid auction) r
             | None => false
             end
  then
    let auction := set_status Expired auction in
    mkOutcome
      (mkReply 400 (ReserveNotMet (currentHighestBid auction) (orZero (reservePrice auction))))
      (preSave auction)
  else
    let auction := set_winner (currentHighestBidder auction) auction in
    let auction := set_status Sold auction in
    mkOutcome
      (mkReply 200 (WinnerProcessed (winner auction) (currentHighestBid auction)))
      (preSave auction).

(** The route: [authorizeRole(['admin', 'seller'])] comes before
    updateAuctionStatusMiddleware, so a requester it refuses leaves the
    stored document as it was. *)
Definition processWinner (tr : Date) (u : ReqUser) (a0 : Auction) : Outcome :=
  if negb (authorizeRole [Role.admin; Role.seller] u)
  then mkOutcome (mkReply 403 AccessDenied) a0
  else processWinnerHandler u (updateAuctionStatusMiddleware tr a0).

(** ** The error classes of the specification

    The specification names the rejections NotFound, Forbidden, Conflict,
    InvalidArgument, InvalidState and PreconditionFailed.  The routes
    answer 404 for the first, 403 for the second, and 400 for the others,
    which the message tells apart: a malformed or too low value is an
    InvalidArgument, an operation the current status or bid history rules
    out is an InvalidState. *)
Inductive ErrorKind : Set :=
  | NotFound | Forbidden | Conflict | InvalidArgument | InvalidState
  | PreconditionFailed | Internal.

Definition errorKind (r : Reply) : option ErrorKind :=
  if httpStatus r =? 404 then Some NotFound
  else if httpStatus r =? 403 then Some Forbidden
  else if httpStatus r =? 500 then Some Internal
  else if httpStatus r =? 400 then
    match payload r with
    | ValidationErrors | BidNotHigher _ | BidBelowMinimum _ => Some InvalidArgument
    | AlreadyInAuction | OutOfStock => Some Conflict
    | ReserveNotMet _ _ => Some PreconditionFailed
    | NotActive _ | CriticalFieldsAfterBids | TimingWithBids | CannotCancel _
    | CancelActiveWithBids | NotEnded _ | NoWinner => Some InvalidState
    | _ => None
    end
  else None.

(** ** Operations as data

    One request, or one run of a model method, on a stored auction.  [Sweep]
    is what findActiveAndUpdateStatus does to one document of the
    collection. *)
Inductive Op : Set :=
  | Refresh (now : Date)
  | Get (tr : Date)
  | PlaceBid (tr ts now : Date) (u : ReqUser) (amt : Q)
  | Update (tr now : Date) (u : ReqUser) (x : Updates)
  | Cancel (tr : Date) (u : ReqUser)
  | Settle (tr : Date) (u : ReqUser)
  | Sweep (now : Date).

Definition apply (op : Op) (a : Auction) : Outcome :=
  match op with
  | Refresh now => mkOutcome (mkReply 200 AuctionJson) (updateAuctionStatus now a)
  | Get tr => getAuction tr a
  | PlaceBid tr ts now u amt => placeBid tr ts now u amt a
  | Update tr now u x => updateAuction tr now u x a
  | Cancel tr u => cancelAuction tr u a
  | Settle tr u => processWinner tr u a
  | Sweep now =>
      mkOutcome (mkReply 200 AuctionJson)
        (if sweepQuery now a then sweepOne now a else a)
  end.

(** The document after a sequence of operations, oldest first. *)
Definition run (ops : list Op) (a : Auction) : Auction :=
  fold_left (fun acc op => saved (apply op acc)) ops a.

(** Operations other than settlement and the sweep. *)
Definition leavesWinner (op : Op) : bool :=
  match op with
  | Settle _ _ | Sweep _ => false
  | _ => true
  end.

(** The reserve of the specification: 0 when the field is absent. *)
Definition reserveOrZero (a : Auction) : Q :=
  match reservePrice a with
  | Some r => r
  | None => 0%Q
  end.

(** The amount the invariant of the specification compares
    currentHighestBid with: that of the last bid, or else startingBid. *)
Definition lastAmount (a : Auction) : Q :=
  last (map amount (bids a)) (startingBid a).

Definition highestBidInv (a : Auction) : Prop :=
  currentHighestBid a = lastAmount a.

(** The document an accepted bid leaves, from the document [m] the
    middleware produced. *)
Definition recordBid (ts now : Date) (u : ReqUser) (amt : Q) (m : Auction) : Auction :=
  set_endTime
    (if endTime m - now <? fiveMinutes then now + fiveMinutes else endTime m)
    (set_currentHighestBidder (Some (user_id u))
       (set_currentHighestBid amt
          (set_bids (bids m ++ [mkBid (user_id u) amt ts]) m))).

(** The handler's [minNextBid], and its test of the amount against it. *)
Definition minNextBid (m : Auction) : double :=
  jsAdd (toDouble (currentHighestBid m))
    (jsMul (toDouble (startingBid m)) (toDouble (1 # 100))).

Definition belowMinimum (amt : Q) (m : Auction) : bool :=
  jsLt (toDouble amt) (minNextBid m).

(** [b] has the bid log, starting bid and highest bid of [a]. *)
Definition sameBidding (a b : Auction) : Prop :=
  startingBid b = startingBid a
  /\ bids b = bids a
  /\ currentHighestBid b = currentHighestBid a.

(** The status updateAuctionStatus gives from endTime on. *)
Definition endedOrExpired (a : Auction) : Status :=
  if isSet (currentHighestBidder a)
     && Qle_bool (orZero (reservePrice a)) (currentHighestBid a)
  then Ended else Expired.

(** Sample documents the statements below are instantiated at: an auction
    of product [p1] by seller [s1], open from instant 1000 for one hour,
    starting at 100. *)
Definition hour : Z := 60 * 60 * 1000.

Definition fresh : Auction :=
  mkAuction "p1"%string "s1"%string 1000 (1000 + hour) 100 100 None [] Upcoming
    None None None 0.

Definition alice : ReqUser := mkReqUser "u1"%string Role.buyer.
Definition bob : ReqUser := mkReqUser "u2"%string Role.buyer.
Definition owner : ReqUser := mkReqUser "s1"%string Role.seller.
Definition root : ReqUser := mkReqUser "r0"%string Role.admin.

(** The seller [s1] once an admin has given the account the role of a
    buyer. *)
Definition demoted : ReqUser := mkReqUser "s1"%string Role.buyer.

(** The statuses the cancel handler refuses outright. *)
Definition cancelClosed (s : Status) : bool :=
  Status_eqb s Ended || Status_eqb s Sold || Status_eqb s Expired.

(** The reserve test of the process-winner handler. *)
Definition reserveUnmet (m : Auction) : bool :=
  truthyOpt (reservePrice m)
  && match reservePrice m with
     | Some r => Qltb (currentHighestBid m) r
     | None => false
     end.

(** The reserve is met, in the words of the specification: there is none,
    or the highest bid reaches it. *)
Definition reserveMet (a : Auction) : Prop :=
  match reservePrice a with
  | Some r => (r <= currentHighestBid a)%Q
  | None => True
  end.

(** Sample documents: [fresh] with a reserve of 100, and the same after a
    bid of 150 by [alice] at instant 2000. *)
Definition reserved : Auction := set_reservePrice (Some 100%Q) fresh.

Definition bidOn : Auction :=
  Eval vm_compute in saved (placeBid 2000 2000 2000 alice 150 reserved).

(** An auction starting at 50 with a reserve of 100 and one bid of 80 by
    [alice], still stored as Active. *)
Definition lowBid : Auction :=
  mkAuction "p2"%string "s1"%string 1000 (1000 + hour) 50 80
    (Some (user_id alice)) [mkBid (user_id alice) 80 2000] Active
    None (Some 100%Q) None 0.

(** An auction of [s1] starting at 1, and the same after a bid of 1.12 by
    [alice] at instant 2000. *)
Definition small : Auction :=
  mkAuction "p3"%string "s1"%string 1000 (1000 + hour) 1 1 None [] Upcoming
    None None None 0.

Definition smallBid : Auction :=
  Eval vm_compute in
  saved (placeBid 2000 2000 2000 alice (nearest (112 # 100)) small).

(** A creation request whose endTime, 5000, is after its startTime, 1000. *)
Definition pastBody : CreateBody :=
  mkCreateBody "p1"%string 1000 5000 100 None None.

(** The highest bidder the bid log determines: the author of the last bid,
    or none. *)
Definition bidderInv (a : Auction) : Prop :=
  currentHighestBidder a = last (map (fun b => Some (user b)) (bids a)) None.

(** The reads of an auction among the operations. *)
Definition isGet (op : Op) : bool :=
  match op with
  | Get _ => true
  | _ => false
  end.

(** *** GET api/auctions/:id/bids *)

(** The comparator of the bid history, [(a, b) => b.timestamp - a.timestamp]. *)
Definition newestFirst (a b : Bid) : Z := timestamp b - timestamp a.

(** [Array.prototype.sort] with a comparator is a stable sort: the list it
    yields is the one obtained by inserting each element, last to first,
    before the first element it need not follow. *)
Fixpoint insertSorted (compare : Bid -> Bid -> Z) (x : Bid) (l : list Bid) : list Bid :=
  match l with
  | [] => [x]
  | y :: l' =>
      if compare x y <=? 0 then x :: y :: l'
      else y :: insertSorted compare x l'
  end.

Definition arraySort (compare : Bid -> Bid -> Z) (l : list Bid) : list Bid :=
  fold_right (insertSorted compare) [] l.

(** The handler answers with the sorted log; it sorts the array of the
    document in memory and does not save it, so the stored document is the
    middleware's. *)
Definition getBids (tr : Date) (a0 : Auction) : list Bid * Auction :=
  let auction := updateAuctionStatusMiddleware tr a0 in
  (arraySort newestFirst (bids auction), auction).

(** [x] is not older than [y]. *)
Definition notOlder (x y : Bid) : Prop := timestamp y <= timestamp x.

(** The updates among the operations. *)
Definition isUpdate (op : Op) : bool :=
  match op with
  | Update _ _ _ _ => true
  | _ => false
  end.

(** ** Orders (models/Order.js and the order routes)

    Conventions, besides those above.
    - Quantities and stocks are integers, in [Z]: the order and product
      routes admit integers only ([isInt]).
    - The ids in a request are well-formed ObjectIds; a malformed one makes
      [findById] throw.
    - The four prices of an order are roundings of floating-point numbers
      ([toFixed]) and are left out of the record, with the bookkeeping
      stamps. *)

Module Catalog.

(** The product document, as far as the order routes read and write it. *)
Record ProductDoc : Set := mkProductDoc {
  _id : ObjectId;
  name : string;
  images : list string;
  price : Q;
  seller : ObjectId;
  stock : Z
}.

Definition db : Set := list ProductDoc.

(** [Product.findById(id)] *)
Definition findById (id : ObjectId) (products : db) : option ProductDoc :=
  find (fun p => String.eqb (_id p) id) products.

(** [Product.findByIdAndUpdate(id, { $inc: { stock: d } })] *)
Fixpoint incStock (id : ObjectId) (d : Z) (products : db) : db :=
  match products with
  | [] => []
  | p :: rest =>
      if String.eqb (_id p) id
      then mkProductDoc (_id p) (name p) (images p) (price p) (seller p) (stock p + d)
           :: rest
      else p :: incStock id d rest
  end.

End Catalog.

Module Order.

(** The enum of [sellerWiseStatus.status]. *)
Inductive PartStatus : Set :=
  | PartPending | PartProcessing | PartShipped | PartDelivered | PartCancelled.

(** The enum of [orderStatus]. *)
Inductive Status : Set :=
  | Pending | Processing | Shipped | Delivered | Cancelled | PaymentFailed.

Definition PartStatus_eqb (s t : PartStatus) : bool :=
  match s, t with
  | PartPending, PartPending | PartProcessing, PartProcessing
  | PartShipped, PartShipped | PartDelivered, PartDelivered
  | PartCancelled, PartCancelled => true
  | _, _ => false
  end.

Definition Status_eqb (s t : Status) : bool :=
  match s, t with
  | Pending, Pending | Processing, Processing | Shipped, Shipped
  | Delivered, Delivered | Cancelled, Cancelled
  | PaymentFailed, PaymentFailed => true
  | _, _ => false
  end.

(** OrderItemSchema *)
Record Item : Set := mkItem {
  product : ObjectId;
  name : string;
  image : option string;
  price : Q;
  quantity : Z
}.

(** An element of [sellerWiseStatus]; [_id] is the id Mongoose gives the
    subdocument. *)
Record Part : Set := mkPart {
  _id : ObjectId;
  sellerId : ObjectId;
  status : PartStatus
}.

Record Address : Set := mkAddress {
  address : string;
  city : string;
  postalCode : string;
  country : string
}.

(** [update_time] is a string of the request or else a clock reading. *)
Inductive UpdateTime : Set :=
  | Text (s : string)
  | Millis (t : Date).

Record PaymentResult : Set := mkPaymentResult {
  id : string;
  paymentStatus : string;
  update_time : UpdateTime;
  email_address : option string
}.

(** OrderSchema *)
Record t : Set := mkOrder {
  user : ObjectId;
  orderItems : list Item;
  shippingAddress : Address;
  paymentMethod : string;
  paymentResult : option PaymentResult;
  orderStatus : Status;
  sellerWiseStatus : list Part;
  isPaid : bool;
  paidAt : option Date;
  isDelivered : bool;
  deliveredAt : option Date
}.

(** *** POST api/orders *)

Record ReqItem : Set := mkReqItem {
  reqProduct : ObjectId;
  reqQuantity : Z
}.

Record Body : Set := mkBody {
  reqItems : list ReqItem;
  reqAddress : Address;
  reqPaymentMethod : string
}.

Definition nonEmpty (s : string) : bool := negb (String.eqb s EmptyString).

(** The express-validator chain of the route. *)
Definition orderChecks (b : Body) : bool :=
  (1 <=? List.length (reqItems b))%nat
  && forallb (fun i => nonEmpty (reqProduct i)) (reqItems b)
  && forallb (fun i => 0 <? reqQuantity i) (reqItems b)
  && nonEmpty (address (reqAddress b))
  && nonEmpty (city (reqAddress b))
  && nonEmpty (postalCode (reqAddress b))
  && nonEmpty (country (reqAddress b))
  && nonEmpty (reqPaymentMethod b).

(** An order item with the seller of its product, as the handler builds it
    from the catalogue. *)
Record Detailed : Set := mkDetailed {
  item : Item;
  seller : ObjectId
}.

(** The body of the [orderItems.map] callback; [None] when it throws. *)
Definition detail (products : Catalog.db) (i : ReqItem) : option Detailed :=
  match Catalog.findById (reqProduct i) products with
  | None => None
  | Some p =>
      if Catalog.stock p <? reqQuantity i then None
      else Some (mkDetailed
                   (mkItem (Catalog._id p) (Catalog.name p)
                      (match Catalog.images p with
                       | first :: _ => Some first
                       | [] => None
                       end)
                      (Catalog.price p) (reqQuantity i))
                   (Catalog.seller p))
  end.

(** [Promise.all] of the callbacks: every one must succeed. *)
Fixpoint detailAll (products : Catalog.db) (l : list ReqItem) : option (list Detailed) :=
  match l with
  | [] => Some []
  | i :: rest =>
      match detail products i, detailAll products rest with
      | Some d, Some ds => Some (d :: ds)
      | _, _ => None
      end
  end.

(** The sellers of [sellerWiseStatusMap], in the order the map received
    them: a seller is entered the first time an item of theirs is met. *)
Definition sellersOf (ds : list Detailed) : list ObjectId :=
  fold_left
    (fun seen d => if existsb (String.eqb (seller d)) seen then seen
                   else seen ++ [seller d])
    ds [].

(** The stock updates: one [$inc] by item. *)
Definition takeStock (ds : list Detailed) (products : Catalog.db) : Catalog.db :=
  fold_left
    (fun db d => Catalog.incStock (product (item d)) (- quantity (item d)) db)
    ds products.

Inductive Payload : Set :=
  | AccessDenied           (* 'Access denied. You do not have the required role.' *)
  | OrderJson              (* the order document *)
  | ValidationErrors       (* { errors: errors.array() } *)
  | NoOrderItems           (* 'No order items' *)
  | ItemRefused            (* 'Product with ID ... not found.' or
                              'Not enough stock for ...' *)
  | OrderNotFound          (* 'Order not found' *)
  | ViewNotAuthorized      (* 'User not authorized to view this order' *)
  | PartNotFound           (* 'Seller status entry not found for this order.' *)
  | PartNotAuthorized      (* 'User not authorized to update this part of the
                              order.' *)
  | ServerError.           (* 'Server Error' *)

Record Reply : Set := mkReply {
  httpStatus : Z;
  payload : Payload
}.

(** The handler.  [newId k] is the id Mongoose gives the k-th element of
    sellerWiseStatus.  The result is the reply, the order saved if any, and
    the catalogue as the request leaves it. *)
Definition createOrder (u : ReqUser) (b : Body) (newId : nat -> ObjectId)
    (products : Catalog.db) : Reply * option t * Catalog.db :=
  if negb (orderChecks b) then (mkReply 400 ValidationErrors, None, products)
  else if (List.length (reqItems b) =? 0)%nat
  then (mkReply 400 NoOrderItems, None, products)
  else match detailAll products (reqItems b) with
  | None => (mkReply 400 ItemRefused, None, products)
  | Some detailedOrderItems =>
      let parts :=
        map (fun ks => mkPart (newId (fst ks)) (snd ks) PartPending)
          (combine (seq 0 (List.length (sellersOf detailedOrderItems)))
             (sellersOf detailedOrderItems)) in
      let newOrder :=
        mkOrder (user_id u) (map item detailedOrderItems) (reqAddress b)
          (reqPaymentMethod b) None Pending parts false None false None in
      (mkReply 201 OrderJson, Some newOrder, takeStock detailedOrderItems products)
  end.

(** *** GET api/orders/:id *)

(** [order.sellerWiseStatus.some(sws => sws.sellerId._id.toString() === id)]
    on the populated order: [None] when it throws, on an entry whose seller
    is no longer a user. *)
Fixpoint someSeller (known : ObjectId -> bool) (uid : ObjectId) (l : list Part)
    : option bool :=
  match l with
  | [] => Some false
  | sws :: rest =>
      if negb (known (sellerId sws)) then None
      else if String.eqb (sellerId sws) uid then Some true
      else someSeller known uid rest
  end.

(** The handler; [known] tells the ids of the users collection, which
    [populate] looks up. *)
Definition getOrder (known : ObjectId -> bool) (u : ReqUser) (order : t) : Reply :=
  if negb (known (user order)) then mkReply 500 ServerError
  else
    let isOwner := String.eqb (user order) (user_id u) in
    let isAdmin := Role.eqb (role u) Role.admin in
    match someSeller known (user_id u) (sellerWiseStatus order) with
    | None => mkReply 500 ServerError
    | Some isSellerInOrder =>
        if negb isOwner && negb isAdmin && negb isSellerInOrder
        then mkReply 401 ViewNotAuthorized
        else mkReply 200 OrderJson
    end.

(** *** PUT api/orders/:id/pay *)

Record PayBody : Set := mkPayBody {
  paymentId : option string;
  payStatus : option string;
  payUpdateTime : option string;
  payer_email : option string
}.

(** A string of the body that is present and not empty. *)
Definition given (o : option string) : option string :=
  match o with
  | Some s => if nonEmpty s then Some s else None
  | None => None
  end.

Definition orElse (o : option string) (d : string) : string :=
  match given o with
  | Some s => s
  | None => d
  end.

(** The handler; [now] is the clock read for paidAt, [now'] the one read for
    update_time.  [order.user] is not populated here, so it has no email. *)
Definition payHandler (now now' : Date) (b : PayBody) (order : t) : Reply * t :=
  let result :=
    mkPaymentResult
      (orElse (paymentId b) "sample_payment_id")
      (orElse (payStatus b) "COMPLETED")
      (match given (payUpdateTime b) with Some s => Text s | None => Millis now' end)
      (given (payer_email b)) in
  let newStatus :=
    if Status_eqb (orderStatus order) Pending
       || Status_eqb (orderStatus order) PaymentFailed
    then Processing else orderStatus order in
  (mkReply 200 OrderJson,
   mkOrder (user order) (orderItems order) (shippingAddress order)
     (paymentMethod order) (Some result) newStatus (sellerWiseStatus order)
     true (Some now) (isDelivered order) (deliveredAt order)).

(** The route: [authorizeRole(['admin', 'seller'])], then the handler. *)
Definition payOrder (now now' : Date) (u : ReqUser) (b : PayBody) (order : t)
    : Reply * t :=
  if negb (authorizeRole [Role.admin; Role.seller] u)
  then (mkReply 403 AccessDenied, order)
  else payHandler now now' b order.

(** *** PUT api/orders/:id/deliver *)
Definition deliverHandler (now : Date) (order : t) : Reply * t :=
  (mkReply 200 OrderJson,
   mkOrder (user order) (orderItems order) (shippingAddress order)
     (paymentMethod order) (paymentResult order) Delivered
     (sellerWiseStatus order) (isPaid order) (paidAt order) true (Some now)).

(** The route: [authorizeRole('admin')], then the handler. *)
Definition deliverOrder (now : Date) (u : ReqUser) (order : t) : Reply * t :=
  if negb (authorizeRole [Role.admin] u)
  then (mkReply 403 AccessDenied, order)
  else deliverHandler now order.

(** *** PUT api/orders/:orderId/seller/:sellerInOrderStatusId/status *)

(** [sellerStatusEntry.status = status] on the entry [sellerWiseStatus.id]
    found: the first one with the id. *)
Fixpoint setPart (partId : ObjectId) (s : PartStatus) (l : list Part) : list Part :=
  match l with
  | [] => []
  | sws :: rest =>
      if String.eqb (_id sws) partId
      then mkPart (_id sws) (sellerId sws) s :: rest
      else sws :: setPart partId s rest
  end.

Definition every (s : PartStatus) (l : list Part) : bool :=
  forallb (fun sws => PartStatus_eqb (status sws) s) l.

Definition some (s : PartStatus) (l : list Part) : bool :=
  existsb (fun sws => PartStatus_eqb (status sws) s) l.

(** The handler; [newStatus] is [None] for a status outside the five the
    validation admits; [now] is the clock read for deliveredAt. *)
Definition partStatusHandler (now : Date) (u : ReqUser) (partId : ObjectId)
    (newStatus : option PartStatus) (order : t) : Reply * t :=
  match newStatus with
  | None => (mkReply 400 ValidationErrors, order)
  | Some s =>
    match find (fun sws => String.eqb (_id sws) partId) (sellerWiseStatus order) with
    | None => (mkReply 404 PartNotFound, order)
    | Some sellerStatusEntry =>
      if negb (Role.eqb (role u) Role.admin)
         && negb (String.eqb (sellerId sellerStatusEntry) (user_id u))
      then (mkReply 403 PartNotAuthorized, order)
      else
        let parts := setPart partId s (sellerWiseStatus order) in
        let allDelivered := every PartDelivered parts in
        let anyCancelled := some PartCancelled parts in
        let withStatus (st : Status) (delivered : bool) (at_ : option Date) :=
          mkOrder (user order) (orderItems order) (shippingAddress order)
            (paymentMethod order) (paymentResult order) st parts
            (isPaid order) (paidAt order) delivered at_ in
        let order' :=
          if allDelivered then withStatus Delivered true (Some now)
          else if anyCancelled then
            if every PartCancelled parts
            then withStatus Cancelled (isDelivered order) (deliveredAt order)
            else withStatus Processing (isDelivered order) (deliveredAt order)
          else if every PartShipped parts
          then withStatus Shipped (isDelivered order) (deliveredAt order)
          else if some PartProcessing parts || some PartShipped parts
          then withStatus Processing (isDelivered order) (deliveredAt order)
          else withStatus (orderStatus order) (isDelivered order) (deliveredAt order) in
        (mkReply 200 OrderJson, order')
    end
  end.

(** The route: [authorizeRole(['seller', 'admin'])], then the handler. *)
Definition updatePartStatus (now : Date) (u : ReqUser) (partId : ObjectId)
    (newStatus : option PartStatus) (order : t) : Reply * t :=
  if negb (authorizeRole [Role.seller; Role.admin] u)
  then (mkReply 403 AccessDenied, order)
  else partStatusHandler now u partId newStatus order.

(** *** The order routes as data *)
Inductive Op : Set :=
  | Pay (now now' : Date) (u : ReqUser) (b : PayBody)
  | Deliver (now : Date) (u : ReqUser)
  | SetPart (now : Date) (u : ReqUser) (partId : ObjectId) (s : option PartStatus).

Definition apply (op : Op) (order : t) : Reply * t :=
  match op with
  | Pay now now' u b => payOrder now now' u b order
  | Deliver now u => deliverOrder now u order
  | SetPart now u partId s => updatePartStatus now u partId s order
  end.

Definition run (ops : list Op) (order : t) : t :=
  fold_left (fun acc op => snd (apply op acc)) ops order.

End Order.

(** The quantity of product [id] a list of requested items asks for. *)
Definition ordered (id : ObjectId) (l : list Order.ReqItem) : Z :=
  fold_right
    (fun i acc => if String.eqb (Order.reqProduct i) id
                  then Order.reqQuantity i + acc else acc)
    0 l.

(** The request item is in the catalogue with enough stock. *)
Definition available (products : Catalog.db) (i : Order.ReqItem) : Prop :=
  exists p, Catalog.findById (Order.reqProduct i) products = Some p
            /\ Order.reqQuantity i <= Catalog.stock p.

(** Sample catalogue and order bodies. *)
Definition lamp : Catalog.ProductDoc :=
  Catalog.mkProductDoc "p1"%string "lamp"%string [] 20 "s1"%string 3.

Definition desk : Catalog.ProductDoc :=
  Catalog.mkProductDoc "p2"%string "desk"%string ["desk.png"%string] 120 "s2"%string 1.

Definition home : Order.Address :=
  Order.mkAddress "1 Main St"%string "Springfield"%string "12345"%string "US"%string.

Definition basket : Order.Body :=
  Order.mkBody [Order.mkReqItem "p1"%string 2; Order.mkReqItem "p2"%string 1]
    home "card"%string.

(** Ids for the parts of a new order. *)
Definition partIds (k : nat) : ObjectId :=
  match k with
  | O => "e0"%string
  | S O => "e1"%string
  | _ => "e2"%string
  end.

(** The quantity of product [id] among detailed items. *)
Definition taken (id : ObjectId) (ds : list Order.Detailed) : Z :=
  fold_right
    (fun d acc => if String.eqb (Order.product (Order.item d)) id
                  then Order.quantity (Order.item d) + acc else acc)
    0 ds.

(** [q] is [p] with stock [z]. *)
Definition restocked (p q : Catalog.ProductDoc) (z : Z) : Prop :=
  Catalog._id q = Catalog._id p /\ Catalog.name q = Catalog.name p
  /\ Catalog.images q = Catalog.images p /\ Catalog.price q = Catalog.price p
  /\ Catalog.seller q = Catalog.seller p /\ Catalog.stock q = z.

(** The sample catalogue after the sample order. *)
Definition afterBasket : Catalog.db :=
  [Catalog.mkProductDoc "p1"%string "lamp"%string [] 20 "s1"%string 1;
   Catalog.mkProductDoc "p2"%string "desk"%string ["desk.png"%string] 120
     "s2"%string 0].

(** Sample detailed items, and an order body naming the lamp twice. *)
Definition twoLamps : Order.Detailed :=
  Order.mkDetailed (Order.mkItem "p1"%string "lamp"%string None 20 2) "s1"%string.

Definition oneLamp : Order.Detailed :=
  Order.mkDetailed (Order.mkItem "p1"%string "lamp"%string None 20 1) "s1"%string.

Definition oneDesk : Order.Detailed :=
  Order.mkDetailed (Order.mkItem "p2"%string "desk"%string None 120 1) "s2"%string.

Definition lampsTwice : Order.Body :=
  Order.mkBody [Order.mkReqItem "p1"%string 3; Order.mkReqItem "p1"%string 2]
    home "card"%string.

(** A stored order of [alice] with one part, of seller [s1], and the users
    collection it refers to. *)
Definition lampOrder : Order.t :=
  Order.mkOrder "u1"%string [Order.mkItem "p1"%string "lamp"%string None 20 2]
    home "card"%string None Order.Pending
    [Order.mkPart "e0"%string "s1"%string Order.PartPending]
    false None false None.

Definition users (x : ObjectId) : bool :=
  existsb (String.eqb x) ["u1"%string; "u2"%string; "s1"%string; "r0"%string].

(** The overall status the status route derives when an order has a single
    part, from the status given to the part and the overall status before. *)
Definition followPart (s : Order.PartStatus) (before : Order.Status) : Order.Status :=
  match s with
  | Order.PartPending => before
  | Order.PartProcessing => Order.Processing
  | Order.PartShipped => Order.Shipped
  | Order.PartDelivered => Order.Delivered
  | Order.PartCancelled => Order.Cancelled
  end.

(** An order whose status is Delivered has the delivered flag. *)
Definition deliveredFlagged (o : Order.t) : Prop :=
  Order.orderStatus o = Order.Delivered -> Order.isDelivered o = true.

(** The buyer and the sellers of [lampOrder] are users. *)
Definition known_users_of_lampOrder : Prop :=
  users (Order.user lampOrder) = true
  /\ Forall (fun sws => users (Order.sellerId sws) = true)
       (Order.sellerWiseStatus lampOrder).

(** * Properties *)

(** ** The model at work on the sample documents *)

Example refresh_before_start : status (updateAuctionStatus 0 fresh) = Upcoming.
Proof. reflexivity. Qed.

Example refresh_while_open : status (updateAuctionStatus 2000 fresh) = Active.
Proof. reflexivity. Qed.

Example refresh_at_end_without_bids :
  status (updateAuctionStatus (1000 + hour) fresh) = Expired.
Proof. reflexivity. Qed.

Example refresh_at_end_reserve_met :
  status (updateAuctionStatus (1000 + hour) bidOn) = Ended.
Proof. reflexivity. Qed.

Example refresh_at_end_reserve_unmet :
  status (updateAuctionStatus (1000 + hour) lowBid) = Expired
  /\ reply (processWinner (1000 + hour) owner lowBid) = mkReply 400 (NotEnded Expired).
Proof. split; reflexivity. Qed.

Example bid_of_the_starting_bid :
  reply (placeBid 2000 2000 2000 alice 100 fresh) = mkReply 400 (BidNotHigher 100).
Proof. reflexivity. Qed.

Example bid_below_the_increment :
  reply (placeBid 3000 3000 3000 bob (203 # 2)
           (saved (placeBid 2000 2000 2000 alice 101 fresh)))
  = mkReply 400 (BidBelowMinimum (toDouble 102)).
Proof. vm_compute. reflexivity. Qed.

Example settle_by_a_buyer :
  processWinner (1000 + 2 * hour) alice bidOn
  = mkOutcome (mkReply 403 AccessDenied) bidOn.
Proof. reflexivity. Qed.

Example create_by_a_buyer :
  createAuction 0 0 demoted pastBody (Some (mkProduct (user_id demoted) 3)) []
  = (mkReply 403 AccessDenied, None).
Proof. reflexivity. Qed.

(** The doubles of the embedding are those of the machine: the literals,
    sums and products below are read and computed by the prover's own
    binary64, down to the subnormal numbers and up to the overflow. *)
#[warnings="-inexact-float"]
Example literal_one_hundredth : toDouble (1 # 100) = Prim2SF 0.01%float.
Proof. vm_compute. reflexivity. Qed.

#[warnings="-inexact-float"]
Example doubles_of_the_machine :
  toDouble (1 # 10) = Prim2SF 0.1%float
  /\ toDouble (3 # 10) = Prim2SF 0.3%float
  /\ toDouble (12345678 # 1000) = Prim2SF 12345.678%float
  /\ toDouble (1 # 3) = Prim2SF (1 / 3)%float
  /\ toDouble (- (7 # 3)) = Prim2SF (- (7 / 3))%float
  /\ toDouble (inject_Z (10 ^ 23)) = Prim2SF 1e23%float
  /\ toDouble (5 # 10 ^ 324) = Prim2SF 5e-324%float
  /\ toDouble (inject_Z (10 ^ 309)) = Prim2SF infinity
  /\ jsAdd (toDouble (1 # 10)) (toDouble (2 # 10)) = Prim2SF (0.1 + 0.2)%float
  /\ jsAdd (toDouble (1 # 10)) (toDouble (2 # 10)) = toDouble (30000000000000004 # 10 ^ 17)
  /\ jsMul (toDouble (inject_Z (10 ^ 308))) (toDouble 10) = Prim2SF (1e308 * 10)%float
  /\ jsMul (toDouble (1 # 10 ^ 320)) (toDouble (1 # 100))
     = Prim2SF (1e-320 * 0.01)%float
  /\ jsLt (toDouble (3 # 10)) (jsAdd (toDouble (1 # 10)) (toDouble (2 # 10)))
     = (0.3 <? 0.1 + 0.2)%float.
Proof. vm_compute. repeat split. Qed.

#[warnings="-inexact-float"]
Example minNextBid_after_112 :
  minNextBid smallBid = Prim2SF (1.12 + 1 * 0.01)%float
  /\ minNextBid smallBid = toDouble (11300000000000001 # 10000000000000000)
  /\ toDouble (113 # 100) = Prim2SF 1.13%float
  /\ jsLt (toDouble (113 # 100)) (minNextBid smallBid) = true.
Proof. vm_compute. repeat split. Qed.

#[warnings="-inexact-float"]
Example minNextBid_after_101 :
  minNextBid (saved (placeBid 2000 2000 2000 alice 101 fresh))
  = Prim2SF (101 + 100 * 0.01)%float
  /\ valueOf (minNextBid (saved (placeBid 2000 2000 2000 alice 101 fresh)))
     = Some (nearest 102).
Proof. vm_compute. repeat split. Qed.

Example seller_bids_on_own_auction :
  reply (placeBid 2000 2000 2000 owner 500 fresh) = mkReply 403 OwnAuction.
Proof. reflexivity. Qed.

Example admin_cancels_active_auction_with_bids :
  reply (cancelAuction 3000 root bidOn) = mkReply 200 CancelledOk
  /\ status (saved (cancelAuction 3000 root bidOn)) = Cancelled.
Proof. split; reflexivity. Qed.

Example stranger_cannot_cancel :
  reply (cancelAuction 3000 bob bidOn) = mkReply 403 CancelNotAuthorized.
Proof. reflexivity. Qed.

Example settle_after_end :
  saved (processWinner (1000 + 2 * hour) owner bidOn)
  = set_status Sold (set_winner (Some (user_id alice)) bidOn).
Proof. reflexivity. Qed.


(** ** Booleans of the embedding against their propositions *)

Lemma Qltb_lt (x y : Q) : Qltb x y = true <-> (x < y)%Q.
Proof.
  unfold Qltb. rewrite negb_true_iff, <- not_true_iff_false, Qle_bool_iff.
  split; [apply Qnot_le_lt | apply Qlt_not_le].
Qed.

Lemma Qltb_ge (x y : Q) : Qltb x y = false <-> (y <= x)%Q.
Proof.
  unfold Qltb. rewrite negb_false_iff. apply Qle_bool_iff.
Qed.

Lemma Qle_bool_gt (x y : Q) : Qle_bool x y = false <-> (y < x)%Q.
Proof.
  rewrite <- not_true_iff_false, Qle_bool_iff.
  split; [apply Qnot_le_lt | apply Qlt_not_le].
Qed.

Lemma truthy_false (x : Q) : truthy x = false <-> (x == 0)%Q.
Proof.
  unfold truthy. rewrite negb_false_iff. apply Qeq_bool_iff.
Qed.

Lemma Status_eqb_eq (s t : Status) : Status_eqb s t = true <-> s = t.
Proof. destruct s, t; simpl; split; intro H; try reflexivity; discriminate H. Qed.

Lemma Status_eqb_neq (s t : Status) : Status_eqb s t = false <-> s <> t.
Proof.
  rewrite <- not_true_iff_false, Status_eqb_eq. reflexivity.
Qed.

Lemma isSet_true {A : Type} (o : option A) : isSet o = true <-> o <> None.
Proof. destruct o; simpl; split; intro H; congruence. Qed.

Lemma length_pos_iff {A : Type} (l : list A) :
  (0 <? List.length l)%nat = true <-> l <> [].
Proof.
  destruct l as [|x l]; cbn; split; intro H.
  - discriminate H.
  - exfalso. apply H. reflexivity.
  - discriminate.
  - reflexivity.
Qed.

(** The reserve the code compares with and the reserve of the specification
    are the same number. *)
Lemma orZero_reserveOrZero (a : Auction) :
  (orZero (reservePrice a) == reserveOrZero a)%Q.
Proof.
  unfold orZero, reserveOrZero. destruct (reservePrice a) as [r|]; [|reflexivity].
  destruct (truthy r) eqn:E; [reflexivity|].
  apply truthy_false in E. symmetry. exact E.
Qed.

Lemma reserve_test (a : Auction) :
  Qle_bool (orZero (reservePrice a)) (currentHighestBid a) = true
  <-> (reserveOrZero a <= currentHighestBid a)%Q.
Proof.
  rewrite Qle_bool_iff, orZero_reserveOrZero. reflexivity.
Qed.

(** ** updateAuctionStatus *)

Lemma updateAuctionStatus_final (now : Date) (a : Auction) :
  isFinal (status a) = true -> updateAuctionStatus now a = a.
Proof. intro H. unfold updateAuctionStatus. rewrite H. reflexivity. Qed.

Lemma updateAuctionStatus_cases (now : Date) (a : Auction) :
  isFinal (status a) = false ->
  updateAuctionStatus now a =
    set_status
      (if now <? startTime a then Upcoming
       else if now <? endTime a then Active
       else endedOrExpired a) a.
Proof.
  intro H. unfold updateAuctionStatus, endedOrExpired. rewrite H.
  destruct (Z.ltb_spec now (startTime a)) as [Hs|Hs]; [reflexivity|].
  replace (now >=? startTime a) with true by (symmetry; apply Z.geb_le; lia).
  simpl. destruct (Z.ltb_spec now (endTime a)) as [He|He]; [reflexivity|].
  replace (now >=? endTime a) with true by (symmetry; apply Z.geb_le; lia).
  destruct (isSet _ && _); reflexivity.
Qed.

(** C1: updateAuctionStatus follows the case split of refreshStatus for every
    auction and every instant: a final status (Cancelled, Sold, Expired)
    leaves the document as it is; otherwise the status becomes Upcoming
    before startTime, Active from startTime up to endTime, and from endTime
    on Ended when there is a highest bidder and the highest bid reaches the
    reserve (0 when absent), Expired when not; nothing but the status
    changes. *)
Theorem C1_refreshStatus_case_split (now : Date) (a : Auction) :
  (isFinal (status a) = true -> updateAuctionStatus now a = a)
  /\ (isFinal (status a) = false ->
      (now < startTime a -> updateAuctionStatus now a = set_status Upcoming a)
      /\ (startTime a <= now < endTime a ->
          updateAuctionStatus now a = set_status Active a)
      /\ (startTime a <= now -> endTime a <= now ->
          (currentHighestBidder a <> None
           /\ (reserveOrZero a <= currentHighestBid a)%Q ->
           updateAuctionStatus now a = set_status Ended a)
          /\ (~ (currentHighestBidder a <> None
                 /\ (reserveOrZero a <= currentHighestBid a)%Q) ->
              updateAuctionStatus now a = set_status Expired a))).
Proof.
  split; [apply updateAuctionStatus_final|].
  intro Hf. rewrite (updateAuctionStatus_cases now a Hf).
  split; [|split; [|intros Hs He; split]].
  - intro H. apply Z.ltb_lt in H. rewrite H. reflexivity.
  - intros [Hs He]. apply Z.ltb_ge in Hs. apply Z.ltb_lt in He.
    rewrite Hs, He. reflexivity.
  - intros [Hb Hr]. apply Z.ltb_ge in Hs, He. rewrite Hs, He.
    unfold endedOrExpired.
    apply isSet_true in Hb. apply reserve_test in Hr. rewrite Hb, Hr. reflexivity.
  - intro Hn. apply Z.ltb_ge in Hs, He. rewrite Hs, He.
    unfold endedOrExpired.
    destruct (isSet (currentHighestBidder a)) eqn:Eb; [|reflexivity].
    destruct (Qle_bool _ _) eqn:Er; [|reflexivity].
    exfalso. apply Hn. split; [apply isSet_true, Eb | apply reserve_test, Er].
Qed.

Lemma C1_refreshStatus_case_split_witness :
  isFinal (status bidOn) = false
  /\ endTime bidOn <= 1000 + hour
  /\ updateAuctionStatus (1000 + hour) bidOn = set_status Ended bidOn.
Proof.
  split; [reflexivity|]. split; [vm_compute; discriminate|].
  destruct (C1_refreshStatus_case_split (1000 + hour) bidOn) as (_ & H).
  destruct (H eq_refl) as (_ & _ & H3).
  destruct H3 as (He & _); [discriminate | discriminate |].
  apply He. split; [discriminate | vm_compute; discriminate].
Defined.

(** updateAuctionStatus writes the status and nothing else. *)
Lemma updateAuctionStatus_frame (now : Date) (a : Auction) :
  updateAuctionStatus now a = set_status (status (updateAuctionStatus now a)) a.
Proof.
  destruct (isFinal (status a)) eqn:Hf.
  - rewrite (updateAuctionStatus_final now a Hf). destruct a; reflexivity.
  - rewrite (updateAuctionStatus_cases now a Hf). reflexivity.
Qed.

(** C7: an auction whose status is Cancelled, Sold or Expired keeps it, with
    every other field, through any sequence of updateAuctionStatus calls at
    any instants. *)
Theorem C7_terminal_monotonic (a : Auction) (times : list Date) :
  isFinal (status a) = true ->
  fold_left (fun acc now => updateAuctionStatus now acc) times a = a
  /\ status (fold_left (fun acc now => updateAuctionStatus now acc) times a)
     = status a.
Proof.
  intro Hf.
  assert (E : fold_left (fun acc now => updateAuctionStatus now acc) times a = a).
  { induction times as [|t times IH]; simpl.
    - reflexivity.
    - rewrite (updateAuctionStatus_final t a Hf). exact IH. }
  rewrite E. split; reflexivity.
Qed.

Lemma C7_terminal_monotonic_witness :
  isFinal (status (set_status Cancelled fresh)) = true
  /\ status
       (fold_left (fun acc now => updateAuctionStatus now acc)
          [0; 2000; 1000 + hour; 1000 + 2 * hour] (set_status Cancelled fresh))
     = Cancelled.
Proof.
  split; [reflexivity|].
  apply (C7_terminal_monotonic (set_status Cancelled fresh)
           [0; 2000; 1000 + hour; 1000 + 2 * hour]).
  reflexivity.
Defined.

(** ** The save hook and the middleware *)

Lemma preSave_frame (a : Auction) :
  preSave a = set_currentHighestBid (currentHighestBid (preSave a)) a.
Proof.
  unfold preSave. destruct (_ && _); destruct a; reflexivity.
Qed.

Lemma preSave_status (a : Auction) : status (preSave a) = status a.
Proof. rewrite preSave_frame. reflexivity. Qed.

Lemma preSave_bids (a : Auction) : bids (preSave a) = bids a.
Proof. rewrite preSave_frame. reflexivity. Qed.

Lemma preSave_winner (a : Auction) : winner (preSave a) = winner a.
Proof. rewrite preSave_frame. reflexivity. Qed.

Lemma preSave_endTime (a : Auction) : endTime (preSave a) = endTime a.
Proof. rewrite preSave_frame. reflexivity. Qed.

Lemma preSave_startingBid (a : Auction) : startingBid (preSave a) = startingBid a.
Proof. rewrite preSave_frame. reflexivity. Qed.

(** The hook can only raise currentHighestBid. *)
Lemma preSave_raises (a : Auction) :
  (currentHighestBid a <= currentHighestBid (preSave a))%Q.
Proof.
  unfold preSave.
  destruct (Qltb (currentHighestBid a) (startingBid a)) eqn:E; simpl.
  - destruct (List.length (bids a) =? 0)%nat; simpl.
    + apply Qlt_le_weak, Qltb_lt, E.
    + apply Qle_refl.
  - apply Qle_refl.
Qed.

(** With a bid on record the hook does nothing. *)
Lemma preSave_with_bids (a : Auction) : bids a <> [] -> preSave a = a.
Proof.
  intro H. unfold preSave.
  destruct (bids a) as [|b l]; [congruence|].
  simpl. rewrite andb_false_r. reflexivity.
Qed.

(** Under the invariant the hook does nothing. *)
Lemma preSave_inv (a : Auction) : highestBidInv a -> preSave a = a.
Proof.
  unfold highestBidInv, lastAmount. intro H.
  destruct (bids a) as [|b l] eqn:Eb.
  - unfold preSave. simpl in H. rewrite H.
    replace (Qltb (startingBid a) (startingBid a)) with false; [reflexivity|].
    symmetry. apply Qltb_ge, Qle_refl.
  - apply preSave_with_bids. rewrite Eb. discriminate.
Qed.

(** The invariant reads three fields only. *)
Lemma highestBidInv_ext (a b : Auction) :
  currentHighestBid b = currentHighestBid a ->
  bids b = bids a ->
  startingBid b = startingBid a ->
  highestBidInv a -> highestBidInv b.
Proof.
  unfold highestBidInv, lastAmount. intros -> -> ->. exact (fun H => H).
Qed.

Lemma highestBidInv_refresh (now : Date) (a : Auction) :
  highestBidInv a -> highestBidInv (updateAuctionStatus now a).
Proof.
  rewrite updateAuctionStatus_frame. apply highestBidInv_ext; reflexivity.
Qed.

Lemma middleware_inv (now : Date) (a : Auction) :
  highestBidInv a ->
  updateAuctionStatusMiddleware now a = updateAuctionStatus now a.
Proof.
  intro H. apply preSave_inv, highestBidInv_refresh, H.
Qed.

Lemma middleware_status (now : Date) (a : Auction) :
  status (updateAuctionStatusMiddleware now a) = status (updateAuctionStatus now a).
Proof. apply preSave_status. Qed.

(** What the middleware leaves in place. *)
Lemma middleware_frame (now : Date) (a : Auction) :
  updateAuctionStatusMiddleware now a =
    set_currentHighestBid (currentHighestBid (updateAuctionStatusMiddleware now a))
      (set_status (status (updateAuctionStatus now a)) a).
Proof.
  unfold updateAuctionStatusMiddleware at 1.
  rewrite preSave_frame. rewrite updateAuctionStatus_frame at 2. reflexivity.
Qed.

(** Saving twice is saving once. *)
Lemma preSave_idem (a : Auction) : preSave (preSave a) = preSave a.
Proof.
  unfold preSave at 2 3.
  destruct (Qltb (currentHighestBid a) (startingBid a)
            && (List.length (bids a) =? 0)%nat) eqn:E.
  - unfold preSave. cbn.
    replace (Qltb (startingBid a) (startingBid a)) with false; [reflexivity|].
    symmetry. apply Qltb_ge, Qle_refl.
  - unfold preSave. rewrite E. reflexivity.
Qed.

(** ** What the middleware keeps *)

Section Middleware.

Variables (now : Date) (a : Auction).

Lemma middleware_seller : seller (updateAuctionStatusMiddleware now a) = seller a.
Proof. rewrite middleware_frame. reflexivity. Qed.

Lemma middleware_startTime :
  startTime (updateAuctionStatusMiddleware now a) = startTime a.
Proof. rewrite middleware_frame. reflexivity. Qed.

Lemma middleware_endTime : endTime (updateAuctionStatusMiddleware now a) = endTime a.
Proof. rewrite middleware_frame. reflexivity. Qed.

Lemma middleware_startingBid :
  startingBid (updateAuctionStatusMiddleware now a) = startingBid a.
Proof. rewrite middleware_frame. reflexivity. Qed.

Lemma middleware_bids : bids (updateAuctionStatusMiddleware now a) = bids a.
Proof. rewrite middleware_frame. reflexivity. Qed.

Lemma middleware_bidder :
  currentHighestBidder (updateAuctionStatusMiddleware now a) = currentHighestBidder a.
Proof. rewrite middleware_frame. reflexivity. Qed.

Lemma middleware_winner : winner (updateAuctionStatusMiddleware now a) = winner a.
Proof. rewrite middleware_frame. reflexivity. Qed.

Lemma middleware_reservePrice :
  reservePrice (updateAuctionStatusMiddleware now a) = reservePrice a.
Proof. rewrite middleware_frame. reflexivity. Qed.

Lemma middleware_with_bids :
  bids a <> [] ->
  updateAuctionStatusMiddleware now a = updateAuctionStatus now a.
Proof.
  intro H. apply preSave_with_bids.
  rewrite updateAuctionStatus_frame. exact H.
Qed.

Lemma middleware_raises :
  (currentHighestBid a <= currentHighestBid (updateAuctionStatusMiddleware now a))%Q.
Proof.
  unfold updateAuctionStatusMiddleware.
  eapply Qle_trans; [|apply preSave_raises].
  rewrite updateAuctionStatus_frame. apply Qle_refl.
Qed.

End Middleware.

Lemma sameBidding_saved (a b : Auction) :
  highestBidInv a -> sameBidding a b -> sameBidding a (preSave b).
Proof.
  intros Hinv (Hs & Hb & Hc).
  rewrite preSave_inv; [repeat split; assumption|].
  apply (highestBidInv_ext a b); assumption.
Qed.

Lemma sameBidding_refresh (now : Date) (a : Auction) :
  sameBidding a (updateAuctionStatus now a).
Proof. rewrite updateAuctionStatus_frame. repeat split. Qed.

Lemma sameBidding_middleware (now : Date) (a : Auction) :
  highestBidInv a -> sameBidding a (updateAuctionStatusMiddleware now a).
Proof.
  intro H. apply sameBidding_saved; [exact H | apply sameBidding_refresh].
Qed.

(** ** POST api/auctions/:id/bids, check by check *)

Section PlaceBid.

Variables (tr ts now : Date) (u : ReqUser) (amt : Q) (a : Auction).

Let m := updateAuctionStatusMiddleware tr a.

Lemma placeBid_invalid :
  ~ (0 < amt)%Q ->
  placeBid tr ts now u amt a = mkOutcome (mkReply 400 ValidationErrors) m.
Proof.
  intro H. unfold placeBid, bidHandler, bidChecks.
  destruct (Qltb 0 amt) eqn:E; [|reflexivity].
  apply Qltb_lt in E. contradiction.
Qed.

Lemma placeBid_not_active :
  (0 < amt)%Q -> status m <> Active ->
  placeBid tr ts now u amt a = mkOutcome (mkReply 400 (NotActive (status m))) m.
Proof.
  intros H0 H1. unfold placeBid, bidHandler, bidChecks.
  apply Qltb_lt in H0. apply Status_eqb_neq in H1.
  fold m. rewrite H0, H1. reflexivity.
Qed.

Lemma placeBid_own_auction :
  (0 < amt)%Q -> status m = Active -> seller m = user_id u ->
  placeBid tr ts now u amt a = mkOutcome (mkReply 403 OwnAuction) m.
Proof.
  intros H0 H1 H2. unfold placeBid, bidHandler, bidChecks.
  apply Qltb_lt in H0. apply Status_eqb_eq in H1. apply String.eqb_eq in H2.
  fold m. rewrite H0, H1, H2. reflexivity.
Qed.

Lemma placeBid_not_higher :
  (0 < amt)%Q -> status m = Active -> seller m <> user_id u ->
  ~ (currentHighestBid m < amt)%Q ->
  placeBid tr ts now u amt a =
    mkOutcome (mkReply 400 (BidNotHigher (currentHighestBid m))) m.
Proof.
  intros H0 H1 H2 H3. unfold placeBid, bidHandler, bidChecks.
  apply Qltb_lt in H0. apply Status_eqb_eq in H1. apply String.eqb_neq in H2.
  apply Qnot_lt_le, Qle_bool_iff in H3.
  fold m. rewrite H0, H1, H2, H3. reflexivity.
Qed.

Lemma placeBid_below_minimum :
  (0 < amt)%Q -> status m = Active -> seller m <> user_id u ->
  (currentHighestBid m < amt)%Q ->
  bids m <> [] -> belowMinimum amt m = true ->
  placeBid tr ts now u amt a =
    mkOutcome (mkReply 400 (BidBelowMinimum (minNextBid m))) m.
Proof.
  intros H0 H1 H2 H3 H4 H5. unfold placeBid, bidHandler, bidChecks.
  apply Qltb_lt in H0. apply Status_eqb_eq in H1. apply String.eqb_neq in H2.
  apply Qle_bool_gt in H3. apply length_pos_iff in H4.
  unfold belowMinimum in H5. unfold minNextBid in H5 |- *.
  fold m. rewrite H0, H1, H2, H3, H4, H5. reflexivity.
Qed.

Lemma placeBid_accepted :
  (0 < amt)%Q -> status m = Active -> seller m <> user_id u ->
  (currentHighestBid m < amt)%Q ->
  (bids m <> [] -> belowMinimum amt m = false) ->
  placeBid tr ts now u amt a =
    mkOutcome (mkReply 200 AuctionJson) (recordBid ts now u amt m).
Proof.
  intros H0 H1 H2 H3 H4. unfold placeBid, bidHandler, bidChecks.
  apply Qltb_lt in H0. apply Status_eqb_eq in H1. apply String.eqb_neq in H2.
  apply Qle_bool_gt in H3.
  fold m. rewrite H0, H1, H2, H3. simpl negb. cbv iota.
  fold (minNextBid m). fold (belowMinimum amt m).
  assert (E : belowMinimum amt m && (0 <? List.length (bids m))%nat = false).
  { destruct (0 <? List.length (bids m))%nat eqn:El.
    - rewrite andb_true_r. apply H4, length_pos_iff, El.
    - apply andb_false_r. }
  rewrite E. cbv zeta. f_equal.
  rewrite preSave_with_bids.
  - unfold recordBid.
    cbn [endTime set_currentHighestBidder set_currentHighestBid set_bids user amount].
    destruct (endTime m - now <? fiveMinutes); [reflexivity|].
    destruct m; reflexivity.
  - destruct (_ <? _); cbn; intro C; apply app_eq_nil in C; destruct C; discriminate.
Qed.

End PlaceBid.

(** C3 as the specification states it fails: the route examines the
    validation result before anything else, so a non-positive amount on an
    auction that is not Active is answered with the validation errors, an
    InvalidArgument, and not with the InvalidState of the status check. *)
Lemma C3_validation_precedes_status :
  status (updateAuctionStatusMiddleware 0 fresh) = Upcoming
  /\ reply (placeBid 0 0 0 alice 0 fresh) = mkReply 400 ValidationErrors
  /\ errorKind (reply (placeBid 0 0 0 alice 0 fresh)) = Some InvalidArgument
  /\ errorKind (reply (placeBid 0 0 0 alice 0 fresh)) <> Some InvalidState.
Proof.
  repeat split. discriminate.
Qed.

(** Two rationals that are equal as numbers read as the same double. *)
Lemma toDouble_Qeq (q r : Q) : (q == r)%Q -> toDouble q = toDouble r.
Proof.
  intro H. unfold toDouble. rewrite (Qred_complete q r H). reflexivity.
Qed.

(** C3, amended: placeBid answers with the first check that fails, in this
    order: (0) the amount must be a positive number, else the validation
    errors (InvalidArgument); (1) the status after the refresh must be
    Active, else InvalidState; (2) the bidder must not be the seller, else
    Forbidden; (3) the amount must exceed currentHighestBid, else
    InvalidArgument; (4) with bids on record the amount must not be below
    the minimum next bid, which is currentHighestBid + startingBid * 0.01
    as binary64 arithmetic computes it, else InvalidArgument; a rejected
    request leaves the refreshed document, and a request passing all five is
    accepted.  With startingBid 100 and no bids a bid of 100 is rejected, one
    of 101 is accepted, and a following bid of 101.5 is rejected, the
    minimum next bid being 102.  With startingBid 1 and a bid of 1.12 on
    record a bid of 1.13 is rejected: the minimum next bid is
    1.1300000000000001, the double next above 1.13. *)
Theorem C3_placeBid_first_failing_check
    (tr ts now : Date) (u : ReqUser) (amt : Q) (a : Auction) :
  let m := updateAuctionStatusMiddleware tr a in
  let o := placeBid tr ts now u amt a in
  (~ (0 < amt)%Q ->
     errorKind (reply o) = Some InvalidArgument
     /\ payload (reply o) = ValidationErrors /\ saved o = m)
  /\ ((0 < amt)%Q -> status m <> Active ->
      errorKind (reply o) = Some InvalidState /\ saved o = m)
  /\ ((0 < amt)%Q -> status m = Active -> seller m = user_id u ->
      errorKind (reply o) = Some Forbidden /\ saved o = m)
  /\ ((0 < amt)%Q -> status m = Active -> seller m <> user_id u ->
      ~ (currentHighestBid m < amt)%Q ->
      errorKind (reply o) = Some InvalidArgument /\ saved o = m)
  /\ ((0 < amt)%Q -> status m = Active -> seller m <> user_id u ->
      (currentHighestBid m < amt)%Q ->
      bids m <> [] ->
      jsLt (toDouble amt)
        (jsAdd (toDouble (currentHighestBid m))
           (jsMul (toDouble (startingBid m)) (toDouble (1 # 100)))) = true ->
      errorKind (reply o) = Some InvalidArgument
      /\ payload (reply o) = BidBelowMinimum (minNextBid m) /\ saved o = m)
  /\ ((0 < amt)%Q -> status m = Active -> seller m <> user_id u ->
      (currentHighestBid m < amt)%Q ->
      (bids m <> [] ->
       jsLt (toDouble amt)
         (jsAdd (toDouble (currentHighestBid m))
            (jsMul (toDouble (startingBid m)) (toDouble (1 # 100)))) = false) ->
      httpStatus (reply o) = 200 /\ errorKind (reply o) = None)
  /\ (forall (tr' ts' now' : Date) (u' : ReqUser),
      status m = Active -> seller m <> user_id u -> seller m <> user_id u' ->
      highestBidInv a -> bids a = [] -> (startingBid a == 100)%Q ->
      let first := placeBid tr ts now u 101 a in
      let second := placeBid tr' ts' now' u' (203 # 2) (saved first) in
      errorKind (reply (placeBid tr ts now u 100 a)) = Some InvalidArgument
      /\ httpStatus (reply first) = 200
      /\ (status (updateAuctionStatusMiddleware tr' (saved first)) = Active ->
          errorKind (reply second) = Some InvalidArgument
          /\ payload (reply second) = BidBelowMinimum (toDouble 102)))
  /\ (status smallBid = Active
      /\ map amount (bids smallBid) = [nearest (112 # 100)]
      /\ startingBid smallBid = 1%Q
      /\ reply (placeBid 3000 3000 3000 bob (nearest (113 # 100)) smallBid)
         = mkReply 400
             (BidBelowMinimum
                (toDouble (11300000000000001 # 10000000000000000)))).
Proof.
  intros m o. subst o.
  split; [|split; [|split; [|split; [|split; [|split; [|split]]]]]].
  - intro H. rewrite (placeBid_invalid tr ts now u amt a H). repeat split.
  - intros H0 H1. rewrite (placeBid_not_active tr ts now u amt a H0 H1).
    repeat split.
  - intros H0 H1 H2. rewrite (placeBid_own_auction tr ts now u amt a H0 H1 H2).
    repeat split.
  - intros H0 H1 H2 H3.
    rewrite (placeBid_not_higher tr ts now u amt a H0 H1 H2 H3). repeat split.
  - intros H0 H1 H2 H3 H4 H5.
    rewrite (placeBid_below_minimum tr ts now u amt a H0 H1 H2 H3 H4 H5).
    repeat split.
  - intros H0 H1 H2 H3 H4.
    rewrite (placeBid_accepted tr ts now u amt a H0 H1 H2 H3 H4).
    repeat split.
  - intros tr' ts' now' u' Hact Hu Hu' Hinv Hnil H100 first second.
    destruct (sameBidding_middleware tr a Hinv) as (Hs & Hb & Hc). fold m in Hs, Hb, Hc.
    assert (Hm0 : bids m = []) by (rewrite Hb; exact Hnil).
    assert (Hc100 : (currentHighestBid m == 100)%Q).
    { rewrite Hc, Hinv. unfold lastAmount. rewrite Hnil. exact H100. }
    assert (E1 : first = mkOutcome (mkReply 200 AuctionJson) (recordBid ts now u 101 m)).
    { apply placeBid_accepted; fold m; try assumption.
      - reflexivity.
      - rewrite Hc100. reflexivity.
      - intro C. contradiction. }
    split; [|split].
    + rewrite (placeBid_not_higher tr ts now u 100 a); fold m; try assumption.
      * reflexivity.
      * reflexivity.
      * rewrite Hc100. apply Qlt_irrefl.
    + rewrite E1. reflexivity.
    + intro Hact'. subst second. rewrite E1 in Hact' |- *. cbn [saved] in Hact' |- *.
      set (r := recordBid ts now u 101 m) in *.
      assert (Hr : bids r <> []).
      { unfold r, recordBid. cbn. rewrite Hm0. discriminate. }
      assert (Em : updateAuctionStatusMiddleware tr' r = updateAuctionStatus tr' r)
        by (apply middleware_with_bids, Hr).
      assert (Hmn : minNextBid (updateAuctionStatusMiddleware tr' r) = toDouble 102).
      { unfold minNextBid. rewrite Em, updateAuctionStatus_frame.
        unfold r, recordBid.
        cbn [currentHighestBid startingBid set_status set_endTime
             set_currentHighestBidder set_currentHighestBid set_bids].
        rewrite Hs, (toDouble_Qeq _ 100 H100). vm_compute. reflexivity. }
      rewrite (placeBid_below_minimum tr' ts' now' u' (203 # 2) r).
      * rewrite Hmn. split; reflexivity.
      * reflexivity.
      * exact Hact'.
      * rewrite middleware_seller. unfold r, recordBid. cbn. exact Hu'.
      * rewrite Em, updateAuctionStatus_frame. unfold r, recordBid. cbn. reflexivity.
      * rewrite middleware_bids. exact Hr.
      * unfold belowMinimum. rewrite Hmn. vm_compute. reflexivity.
  - vm_compute. repeat split.
Qed.

Lemma C3_placeBid_first_failing_check_witness :
  errorKind (reply (placeBid 2000 2000 2000 alice 100 fresh)) = Some InvalidArgument
  /\ httpStatus (reply (placeBid 2000 2000 2000 alice 101 fresh)) = 200
  /\ payload
       (reply (placeBid 3000 3000 3000 bob (203 # 2)
                 (saved (placeBid 2000 2000 2000 alice 101 fresh))))
     = BidBelowMinimum (toDouble 102).
Proof.
  destruct (C3_placeBid_first_failing_check 2000 2000 2000 alice 101 fresh)
    as (_ & _ & _ & _ & _ & _ & H & _).
  assert (Hact : status (updateAuctionStatusMiddleware 2000 fresh) = Active)
    by reflexivity.
  assert (Hu : seller (updateAuctionStatusMiddleware 2000 fresh) <> user_id alice)
    by (vm_compute; discriminate).
  assert (Hu' : seller (updateAuctionStatusMiddleware 2000 fresh) <> user_id bob)
    by (vm_compute; discriminate).
  assert (Hinv : highestBidInv fresh) by reflexivity.
  assert (H100 : (startingBid fresh == 100)%Q) by reflexivity.
  destruct (H 3000 3000 3000 bob Hact Hu Hu' Hinv eq_refl H100) as (H1 & H2 & H3).
  split; [exact H1|]. split; [exact H2|].
  apply H3. vm_compute. reflexivity.
Defined.

(** A bid answered 200 passed every check and left [recordBid]. *)
Lemma placeBid_accepted_inv
    (tr ts now : Date) (u : ReqUser) (amt : Q) (a : Auction) :
  httpStatus (reply (placeBid tr ts now u amt a)) = 200 ->
  let m := updateAuctionStatusMiddleware tr a in
  (0 < amt)%Q /\ status m = Active /\ seller m <> user_id u
  /\ (currentHighestBid m < amt)%Q
  /\ (bids m <> [] -> belowMinimum amt m = false)
  /\ placeBid tr ts now u amt a =
       mkOutcome (mkReply 200 AuctionJson) (recordBid ts now u amt m).
Proof.
  intros H m.
  destruct (Qlt_le_dec 0 amt) as [H0|H0].
  2: { rewrite placeBid_invalid in H by (apply Qle_not_lt, H0). discriminate H. }
  destruct (Status_eqb (status m) Active) eqn:H1.
  2: { apply Status_eqb_neq in H1.
       rewrite (placeBid_not_active tr ts now u amt a H0 H1) in H. discriminate H. }
  apply Status_eqb_eq in H1.
  destruct (string_dec (seller m) (user_id u)) as [H2|H2].
  { rewrite (placeBid_own_auction tr ts now u amt a H0 H1 H2) in H. discriminate H. }
  destruct (Qlt_le_dec (currentHighestBid m) amt) as [H3|H3].
  2: { apply Qle_not_lt in H3.
       rewrite (placeBid_not_higher tr ts now u amt a H0 H1 H2 H3) in H.
       discriminate H. }
  assert (H4 : bids m <> [] -> belowMinimum amt m = false).
  { intro Hb. destruct (belowMinimum amt m) eqn:H5; [|reflexivity].
    rewrite (placeBid_below_minimum tr ts now u amt a H0 H1 H2 H3 Hb H5) in H.
    discriminate H. }
  repeat split; try assumption.
  apply placeBid_accepted; assumption.
Qed.

Lemma recordBid_endTime (ts now : Date) (u : ReqUser) (amt : Q) (m : Auction) :
  endTime (recordBid ts now u amt m) =
    if endTime m - now <? fiveMinutes then now + fiveMinutes else endTime m.
Proof. reflexivity. Qed.

(** C4: a bid that is accepted with less than five minutes left, measured at
    the instant [now] the handler reads for it, moves endTime to [now] plus
    five minutes; with five minutes or more left endTime stays.  So a bid
    two minutes before endTime ends the auction five minutes after the bid,
    one ten minutes before changes nothing, and a later late bid moves
    endTime to five minutes after its own instant, whatever the earlier
    bids did. *)
Theorem C4_anti_sniping
    (tr ts now : Date) (u : ReqUser) (amt : Q) (a : Auction) :
  httpStatus (reply (placeBid tr ts now u amt a)) = 200 ->
  let a' := saved (placeBid tr ts now u amt a) in
  (endTime a - now < 5 * 60 * 1000 -> endTime a' = now + 5 * 60 * 1000)
  /\ (endTime a - now >= 5 * 60 * 1000 -> endTime a' = endTime a)
  /\ (now = endTime a - 2 * 60 * 1000 -> endTime a' = now + 5 * 60 * 1000)
  /\ (now = endTime a - 10 * 60 * 1000 -> endTime a' = endTime a)
  /\ (forall (tr2 ts2 now2 : Date) (u2 : ReqUser) (amt2 : Q),
      httpStatus (reply (placeBid tr2 ts2 now2 u2 amt2 a')) = 200 ->
      endTime a' - now2 < 5 * 60 * 1000 ->
      endTime (saved (placeBid tr2 ts2 now2 u2 amt2 a')) = now2 + 5 * 60 * 1000).
Proof.
  assert (step : forall tr ts now u amt a,
            httpStatus (reply (placeBid tr ts now u amt a)) = 200 ->
            endTime (saved (placeBid tr ts now u amt a)) =
              if endTime a - now <? fiveMinutes then now + fiveMinutes
              else endTime a).
  { clear. intros tr ts now u amt a H.
    destruct (placeBid_accepted_inv tr ts now u amt a H) as (_ & _ & _ & _ & _ & E).
    rewrite E. cbn [saved]. rewrite recordBid_endTime, middleware_endTime.
    reflexivity. }
  intros H a'. subst a'. rewrite (step tr ts now u amt a H).
  change fiveMinutes with (5 * 60 * 1000).
  repeat split.
  - intro L. apply Z.ltb_lt in L. rewrite L. reflexivity.
  - intro L. destruct (Z.ltb_spec (endTime a - now) (5 * 60 * 1000)); [lia|reflexivity].
  - intro L. destruct (Z.ltb_spec (endTime a - now) (5 * 60 * 1000)); [reflexivity|lia].
  - intro L. destruct (Z.ltb_spec (endTime a - now) (5 * 60 * 1000)); [lia|reflexivity].
  - intros tr2 ts2 now2 u2 amt2 H2 L.
    rewrite (step tr2 ts2 now2 u2 amt2 _ H2).
    rewrite (step tr ts now u amt a H).
    change fiveMinutes with (5 * 60 * 1000).
    apply Z.ltb_lt in L. rewrite L. reflexivity.
Qed.

Lemma C4_anti_sniping_witness :
  httpStatus
    (reply (placeBid 2000 2000 (1000 + hour - 2 * 60 * 1000) alice 101 fresh)) = 200
  /\ endTime
       (saved (placeBid 2000 2000 (1000 + hour - 2 * 60 * 1000) alice 101 fresh))
     = 1000 + hour + 3 * 60 * 1000.
Proof.
  split; [reflexivity|].
  destruct (C4_anti_sniping 2000 2000 (1000 + hour - 2 * 60 * 1000) alice 101 fresh
              eq_refl) as (_ & _ & E & _).
  rewrite E; reflexivity.
Defined.

(** ** One operation on the bid log *)

Lemma sameBidding_inv (a b : Auction) :
  highestBidInv a -> sameBidding a b -> highestBidInv b.
Proof.
  intros H (Hs & Hb & Hc). apply (highestBidInv_ext a b); assumption.
Qed.

Lemma sameBidding_trans (a b c : Auction) :
  sameBidding a b -> sameBidding b c -> sameBidding a c.
Proof.
  intros (H1 & H2 & H3) (H4 & H5 & H6). repeat split; congruence.
Qed.

(** A handler that answers from the middleware's document, or saves one
    with the same bidding fields, keeps them. *)
Ltac quiet m Hm Hinv :=
  repeat match goal with
  | |- context [if ?c then _ else _] => destruct c
  end;
  cbn [saved];
  first [ exact Hm
        | apply sameBidding_saved; [exact Hinv|];
          destruct Hm as (?Hs & ?Hb & ?Hc); repeat split; assumption ].

Lemma getAuction_bidding (tr : Date) (a : Auction) :
  highestBidInv a -> sameBidding a (saved (getAuction tr a)).
Proof.
  intro Hinv. pose proof (sameBidding_middleware tr a Hinv) as Hm.
  unfold getAuction, getHandler. set (m := updateAuctionStatusMiddleware tr a) in *.
  quiet m Hm Hinv.
Qed.

Lemma cancelAuction_bidding (tr : Date) (u : ReqUser) (a : Auction) :
  highestBidInv a -> sameBidding a (saved (cancelAuction tr u a)).
Proof.
  intro Hinv. pose proof (sameBidding_middleware tr a Hinv) as Hm.
  unfold cancelAuction, cancelHandler. set (m := updateAuctionStatusMiddleware tr a) in *.
  quiet m Hm Hinv.
Qed.

Lemma processWinner_bidding (tr : Date) (u : ReqUser) (a : Auction) :
  highestBidInv a -> sameBidding a (saved (processWinner tr u a)).
Proof.
  intro Hinv. pose proof (sameBidding_middleware tr a Hinv) as Hm.
  unfold processWinner.
  destruct (negb (authorizeRole [Role.admin; Role.seller] u)); [repeat split|].
  unfold processWinnerHandler. set (m := updateAuctionStatusMiddleware tr a) in *.
  quiet m Hm Hinv.
Qed.

Lemma applyUpdates_bidding (x : Updates) (m : Auction) :
  sameBidding m (applyUpdates x m).
Proof.
  unfold applyUpdates.
  destruct (uStartTime x), (uEndTime x), (uReservePrice x), (uBuyNowPrice x);
    repeat split.
Qed.

Lemma updateAuction_bidding (tr now : Date) (u : ReqUser) (x : Updates) (a : Auction) :
  highestBidInv a -> sameBidding a (saved (updateAuction tr now u x a)).
Proof.
  intro Hinv. pose proof (sameBidding_middleware tr a Hinv) as Hm.
  unfold updateAuction, updateHandler. set (m := updateAuctionStatusMiddleware tr a) in *.
  repeat match goal with
  | |- context [if ?c then _ else _] => destruct c
  end; cbn [saved]; try exact Hm.
  apply sameBidding_saved; [exact Hinv|].
  eapply sameBidding_trans; [exact Hm|].
  eapply sameBidding_trans; [apply applyUpdates_bidding | apply sameBidding_refresh].
Qed.

Lemma sweepOne_bidding (now : Date) (a : Auction) :
  highestBidInv a -> sameBidding a (sweepOne now a).
Proof.
  intro Hinv. unfold sweepOne. cbv zeta.
  apply sameBidding_saved; [exact Hinv|].
  pose proof (sameBidding_refresh now a) as Hm.
  destruct (_ && _); [|exact Hm].
  destruct Hm as (Hs & Hb & Hc). repeat split; assumption.
Qed.

(** A bid that is not answered 200 leaves the middleware's document. *)
Lemma placeBid_rejected_saved
    (tr ts now : Date) (u : ReqUser) (amt : Q) (a : Auction) :
  httpStatus (reply (placeBid tr ts now u amt a)) <> 200 ->
  saved (placeBid tr ts now u amt a) = updateAuctionStatusMiddleware tr a.
Proof.
  unfold placeBid, bidHandler. set (m := updateAuctionStatusMiddleware tr a).
  repeat match goal with
  | |- context [if ?c then _ else _] => destruct c
  end; cbn; intro H; try reflexivity; exfalso; apply H; reflexivity.
Qed.

(** An operation either leaves the bid log, the starting bid and the
    highest bid alone, or it is a bid that was accepted: one bid is appended,
    above the highest bid so far, and becomes the highest bid. *)
Lemma apply_bid_log (op : Op) (a : Auction) :
  highestBidInv a ->
  sameBidding a (saved (apply op a))
  \/ (exists b,
        startingBid (saved (apply op a)) = startingBid a
        /\ bids (saved (apply op a)) = bids a ++ [b]
        /\ currentHighestBid (saved (apply op a)) = amount b
        /\ (currentHighestBid a < amount b)%Q).
Proof.
  intro Hinv.
  destruct op as [now|tr|tr ts now u amt|tr now u x|tr u|tr u|now]; cbn [apply saved].
  - left. apply sameBidding_refresh.
  - left. apply getAuction_bidding, Hinv.
  - destruct (sameBidding_middleware tr a Hinv) as (Hs & Hb & Hc).
    destruct (Z.eq_dec (httpStatus (reply (placeBid tr ts now u amt a))) 200) as [E|E].
    + right. exists (mkBid (user_id u) amt ts).
      destruct (placeBid_accepted_inv tr ts now u amt a E) as (_ & _ & _ & Hlt & _ & Eo).
      rewrite Eo. cbn [saved]. unfold recordBid. cbn.
      rewrite Hs, Hb. rewrite Hc in Hlt. repeat split. exact Hlt.
    + left. rewrite (placeBid_rejected_saved tr ts now u amt a E).
      repeat split; assumption.
  - left. apply updateAuction_bidding, Hinv.
  - left. apply cancelAuction_bidding, Hinv.
  - left. apply processWinner_bidding, Hinv.
  - left. destruct (sweepQuery now a); [apply sweepOne_bidding, Hinv | repeat split].
Qed.

Lemma apply_inv (op : Op) (a : Auction) :
  highestBidInv a -> highestBidInv (saved (apply op a)).
Proof.
  intro Hinv. destruct (apply_bid_log op a Hinv) as [H|(b & Hs & Hb & Hc & _)].
  - apply (sameBidding_inv a); assumption.
  - unfold highestBidInv, lastAmount. rewrite Hc, Hb, map_app. cbn [map].
    rewrite last_last.
    reflexivity.
Qed.


(** ** Runs of operations *)

Lemma last_cons_default {A : Type} (x d : A) (l : list A) :
  last (x :: l) d = last l x.
Proof.
  revert x d. induction l as [|y l IH]; intros x d; [reflexivity|].
  change (last (x :: y :: l) d) with (last (y :: l) d).
  rewrite (IH y d), (IH y x). reflexivity.
Qed.

Lemma createAuction_fields
    (tc tr : Date) (u : ReqUser) (b : CreateBody) (found : option Product)
    (db : list Auction) (r : Reply) (a : Auction) :
  createAuction tc tr u b found db = (r, Some a) ->
  bids a = [] /\ currentHighestBid a = startingBid a
  /\ startingBid a = cStartingBid b /\ winner a = None.
Proof.
  unfold createAuction, createHandler.
  destruct (negb (authorizeRole [Role.seller; Role.admin] u)); [discriminate|].
  destruct (negb (createChecks b)); [discriminate|].
  destruct found as [p|]; [|discriminate].
  destruct (_ && _); [discriminate|].
  destruct (existingAuction _ _); [discriminate|].
  destruct (Qltb _ _); [discriminate|].
  cbv zeta. destruct (insertAccepted _ _); [|discriminate].
  intro H. injection H as _ <-.
  rewrite preSave_inv.
  - rewrite updateAuctionStatus_frame. repeat split.
  - rewrite updateAuctionStatus_frame. reflexivity.
Qed.

(** Along a run from a document satisfying the invariant, the bids appended
    have strictly increasing amounts, all above the highest bid at the
    start, and the highest bid at the end is the last of them. *)
Lemma run_bid_log (ops : list Op) (a : Auction) :
  highestBidInv a ->
  exists new,
    bids (run ops a) = bids a ++ new
    /\ StronglySorted Qlt (currentHighestBid a :: map amount new)
    /\ currentHighestBid (run ops a) = last (map amount new) (currentHighestBid a)
    /\ highestBidInv (run ops a).
Proof.
  revert a. induction ops as [|op ops IH]; intros a Hinv.
  - exists []. cbn. rewrite app_nil_r. repeat split; try assumption.
    constructor; constructor.
  - change (run (op :: ops) a) with (run ops (saved (apply op a))).
    pose proof (apply_inv op a Hinv) as Hinv1.
    destruct (IH _ Hinv1) as (new & Hb & Hs & Hc & Hi).
    destruct (apply_bid_log op a Hinv) as [(_ & Eb & Ec)|(b & _ & Eb & Ec & Hlt)].
    + exists new. rewrite Hb, Hc, Eb, Ec. rewrite Ec in Hs. repeat split; assumption.
    + exists (b :: new). rewrite Hb, Hc, Eb, Ec. rewrite Ec in Hs.
      rewrite <- app_assoc. cbn [app map]. rewrite last_cons_default.
      repeat split; try assumption.
      constructor; [exact Hs|].
      constructor; [exact Hlt|].
      apply StronglySorted_inv in Hs. destruct Hs as [_ Hall].
      eapply Forall_impl; [|exact Hall].
      intros q Hq. eapply Qlt_trans; eassumption.
Qed.

(** C6: currentHighestBid is the amount of the last bid on record, or
    startingBid when there is none: create establishes it and every
    operation on a stored auction keeps it.  So along any sequence of
    operations the amounts of the bids that were accepted increase strictly,
    and currentHighestBid is the amount of the last of them. *)
Theorem C6_highest_bid_invariant :
  (forall tc tr u b found db r a,
      createAuction tc tr u b found db = (r, Some a) -> highestBidInv a)
  /\ (forall op a, highestBidInv a -> highestBidInv (saved (apply op a)))
  /\ (forall tr ts now u amt a,
        httpStatus (reply (placeBid tr ts now u amt a)) = 200 ->
        bids (saved (placeBid tr ts now u amt a)) = bids a ++ [mkBid (user_id u) amt ts]
        /\ currentHighestBid (saved (placeBid tr ts now u amt a)) = amt
        /\ (currentHighestBid a < amt)%Q)
  /\ (forall ops a,
        highestBidInv a ->
        exists new,
          bids (run ops a) = bids a ++ new
          /\ StronglySorted Qlt (currentHighestBid a :: map amount new)
          /\ currentHighestBid (run ops a)
             = last (map amount new) (currentHighestBid a)).
Proof.
  split; [|split; [|split]].
  - intros tc tr u b found db r a H.
    destruct (createAuction_fields tc tr u b found db r a H) as (Hb & Hc & _).
    unfold highestBidInv, lastAmount. rewrite Hb, Hc. reflexivity.
  - exact apply_inv.
  - intros tr ts now u amt a H.
    destruct (placeBid_accepted_inv tr ts now u amt a H) as (_ & _ & _ & Hlt & _ & E).
    rewrite E. cbn [saved]. unfold recordBid. cbn.
    rewrite middleware_bids. repeat split.
    eapply Qle_lt_trans; [apply middleware_raises | exact Hlt].
  - intros ops a Hinv.
    destruct (run_bid_log ops a Hinv) as (new & Hb & Hs & Hc & _).
    exists new. repeat split; assumption.
Qed.

Lemma C6_highest_bid_invariant_witness :
  httpStatus (reply (placeBid 2000 2000 2000 alice 150 reserved)) = 200
  /\ currentHighestBid bidOn = 150%Q
  /\ (currentHighestBid reserved < currentHighestBid bidOn)%Q.
Proof.
  split; [reflexivity|].
  destruct C6_highest_bid_invariant as (_ & _ & H & _).
  destruct (H 2000 2000 2000 alice 150%Q reserved eq_refl) as (_ & Hc & Hlt).
  split; [exact Hc | exact Hlt].
Defined.

(** ** The end of an auction and its settlement *)

(** A status of Ended after updateAuctionStatus was set by its last branch:
    there is a highest bidder and the highest bid reaches the reserve. *)
Lemma updateAuctionStatus_ended (now : Date) (a : Auction) :
  status (updateAuctionStatus now a) = Ended ->
  endTime a <= now
  /\ currentHighestBidder a <> None
  /\ (reserveOrZero a <= currentHighestBid a)%Q.
Proof.
  destruct (isFinal (status a)) eqn:Hf.
  - rewrite (updateAuctionStatus_final now a Hf). intro H. rewrite H in Hf.
    discriminate Hf.
  - rewrite (updateAuctionStatus_cases now a Hf). cbn [status set_status].
    destruct (Z.ltb_spec now (startTime a)); [discriminate|].
    destruct (Z.ltb_spec now (endTime a)); [discriminate|].
    unfold endedOrExpired.
    destruct (isSet (currentHighestBidder a)) eqn:Eb; [|discriminate].
    destruct (Qle_bool _ _) eqn:Er; [|discriminate].
    intros _. split; [assumption|]. split; [apply isSet_true, Eb | apply reserve_test, Er].
Qed.

Lemma middleware_ended (now : Date) (a : Auction) :
  let m := updateAuctionStatusMiddleware now a in
  status m = Ended ->
  currentHighestBidder m <> None /\ (reserveOrZero m <= currentHighestBid m)%Q.
Proof.
  intros m H. subst m. rewrite middleware_status in H.
  destruct (updateAuctionStatus_ended now a H) as (_ & Hb & Hr).
  rewrite middleware_bidder. split; [exact Hb|].
  unfold reserveOrZero in *. rewrite middleware_reservePrice.
  eapply Qle_trans; [exact Hr | apply middleware_raises].
Qed.

Lemma reserveUnmet_false (m : Auction) :
  (reserveOrZero m <= currentHighestBid m)%Q -> reserveUnmet m = false.
Proof.
  unfold reserveUnmet, reserveOrZero. destruct (reservePrice m) as [r|]; [|reflexivity].
  intro H. apply Qltb_ge in H. rewrite H. apply andb_false_r.
Qed.

Section ProcessWinner.

Variables (u : ReqUser) (m : Auction).

Hypothesis authorized : seller m = user_id u \/ role u = Role.admin.

Lemma authorized_test :
  negb (String.eqb (seller m) (user_id u)) && negb (Role.eqb (role u) Role.admin)
  = false.
Proof.
  destruct authorized as [H|H].
  - apply String.eqb_eq in H. rewrite H. reflexivity.
  - rewrite H. apply andb_false_r.
Qed.

Lemma processWinner_not_ended :
  status m <> Ended ->
  processWinnerHandler u m = mkOutcome (mkReply 400 (NotEnded (status m))) m.
Proof.
  intro H. unfold processWinnerHandler. rewrite authorized_test.
  apply Status_eqb_neq in H. rewrite H. reflexivity.
Qed.

Lemma processWinner_no_bidder :
  status m = Ended -> currentHighestBidder m = None ->
  processWinnerHandler u m = mkOutcome (mkReply 400 NoWinner) m.
Proof.
  intros H H1. unfold processWinnerHandler. rewrite authorized_test.
  apply Status_eqb_eq in H. rewrite H, H1. reflexivity.
Qed.

Lemma processWinner_reserve_unmet :
  status m = Ended -> currentHighestBidder m <> None -> reserveUnmet m = true ->
  processWinnerHandler u m =
    mkOutcome
      (mkReply 400 (ReserveNotMet (currentHighestBid m) (orZero (reservePrice m))))
      (preSave (set_status Expired m)).
Proof.
  intros H H1 H2. unfold processWinnerHandler. rewrite authorized_test.
  apply Status_eqb_eq in H. apply isSet_true in H1. unfold reserveUnmet in H2.
  rewrite H, H1, H2. reflexivity.
Qed.

Lemma processWinner_sold :
  status m = Ended -> currentHighestBidder m <> None -> reserveUnmet m = false ->
  processWinnerHandler u m =
    mkOutcome
      (mkReply 200 (WinnerProcessed (currentHighestBidder m) (currentHighestBid m)))
      (preSave (set_status Sold (set_winner (currentHighestBidder m) m))).
Proof.
  intros H H1 H2. unfold processWinnerHandler. rewrite authorized_test.
  apply Status_eqb_eq in H. apply isSet_true in H1. unfold reserveUnmet in H2.
  rewrite H, H1, H2. reflexivity.
Qed.

End ProcessWinner.

(** A document that has the bidding fields of a saved one is left alone by
    the save hook. *)
Lemma preSave_settled (b m0 : Auction) :
  currentHighestBid b = currentHighestBid (preSave m0) ->
  startingBid b = startingBid m0 ->
  bids b = bids m0 ->
  preSave b = b.
Proof.
  intros Hc Hs Hb. unfold preSave at 1. rewrite Hc, Hs, Hb.
  unfold preSave.
  destruct (Qltb (currentHighestBid m0) (startingBid m0)
            && (List.length (bids m0) =? 0)%nat) eqn:E.
  - cbn. replace (Qltb (startingBid m0) (startingBid m0)) with false; [reflexivity|].
    symmetry. apply Qltb_ge, Qle_refl.
  - rewrite E. reflexivity.
Qed.

Lemma preSave_after_middleware (now : Date) (a b : Auction) :
  sameBidding (updateAuctionStatusMiddleware now a) b -> preSave b = b.
Proof.
  intros (Hs & Hb & Hc).
  apply (preSave_settled b (updateAuctionStatus now a)).
  - exact Hc.
  - rewrite Hs. apply preSave_startingBid.
  - rewrite Hb. apply preSave_bids.
Qed.

Lemma reserveMet_of_reached (m : Auction) :
  (reserveOrZero m <= currentHighestBid m)%Q -> reserveMet m.
Proof.
  unfold reserveOrZero, reserveMet. destruct (reservePrice m); [exact (fun H => H)|].
  intros _. exact I.
Qed.

(** With a highest bid that is not negative, the handler's reserve test is
    the negation of [reserveMet]. *)
Lemma reserveUnmet_iff (m : Auction) :
  (0 <= currentHighestBid m)%Q ->
  reserveUnmet m = true <-> ~ reserveMet m.
Proof.
  intro Hpos. unfold reserveUnmet, reserveMet, truthyOpt.
  destruct (reservePrice m) as [r|].
  - destruct (truthy r) eqn:Et; cbn [andb].
    + rewrite Qltb_lt. split; [apply Qlt_not_le | apply Qnot_le_lt].
    + apply truthy_false in Et. split; [discriminate|].
      intro H. exfalso. apply H. rewrite Et. exact Hpos.
  - split; [discriminate|]. intro H. exfalso. apply H. exact I.
Qed.

(** ** The role guard *)

Lemma authorizeRole_seller_admin (u : ReqUser) :
  authorizeRole [Role.seller; Role.admin] u = negb (Role.eqb (role u) Role.buyer).
Proof. unfold authorizeRole. destruct (role u); reflexivity. Qed.

Lemma authorizeRole_admin_seller (u : ReqUser) :
  authorizeRole [Role.admin; Role.seller] u = negb (Role.eqb (role u) Role.buyer).
Proof. unfold authorizeRole. destruct (role u); reflexivity. Qed.

(** A buyer who asks for a settlement is refused before the refresh. *)
Lemma processWinner_refused (tr : Date) (u : ReqUser) (a : Auction) :
  role u = Role.buyer ->
  processWinner tr u a = mkOutcome (mkReply 403 AccessDenied) a.
Proof.
  intro H. unfold processWinner. rewrite authorizeRole_admin_seller, H.
  reflexivity.
Qed.

(** A seller or an admin reaches the handler, on the refreshed document. *)
Lemma processWinner_let_through (tr : Date) (u : ReqUser) (a : Auction) :
  role u <> Role.buyer ->
  processWinner tr u a = processWinnerHandler u (updateAuctionStatusMiddleware tr a).
Proof.
  intro H. unfold processWinner. rewrite authorizeRole_admin_seller.
  destruct (role u); try reflexivity. contradiction H. reflexivity.
Qed.

(** C5 as the specification states it fails: the route lets the roles admin
    and seller through, and no other.  The seller of [bidOn], asking with
    the role of a buyer an hour after the end, when the refresh would find
    the auction Ended with [alice] as highest bidder and the reserve met,
    is answered 403 by the role guard, which comes before the refresh: the
    stored auction stays as it was, Active and without a winner. *)
Lemma C5_seller_without_the_role_is_refused :
  seller bidOn = user_id demoted
  /\ status (updateAuctionStatusMiddleware (1000 + 2 * hour) bidOn) = Ended
  /\ currentHighestBidder (updateAuctionStatusMiddleware (1000 + 2 * hour) bidOn)
     = Some (user_id alice)
  /\ reserveMet (updateAuctionStatusMiddleware (1000 + 2 * hour) bidOn)
  /\ reply (processWinner (1000 + 2 * hour) demoted bidOn)
     = mkReply 403 AccessDenied
  /\ errorKind (reply (processWinner (1000 + 2 * hour) demoted bidOn))
     = Some Forbidden
  /\ saved (processWinner (1000 + 2 * hour) demoted bidOn) = bidOn
  /\ status bidOn = Active
  /\ winner bidOn = None.
Proof.
  repeat split. vm_compute. discriminate.
Qed.

(** C5, amended: when an admin, or the seller of the auction holding the
    role of a seller, asks for settlement and the status after the refresh
    is Ended with a highest bidder, the winner becomes that bidder and the
    status Sold if the reserve is met (none, or reached by the highest
    bid), and otherwise the auction becomes Expired and the request fails
    with PreconditionFailed; when the status after the refresh is not
    Ended, or there is no highest bidder, the request fails with
    InvalidState and the document stays as refreshed.  The same split holds
    of the handler on any document with a non-negative highest bid,
    refreshed or not.  A requester whose role is buyer, the seller of the
    auction or not, is refused with Forbidden before the refresh, and the
    stored document stays as it was. *)
Theorem C5_settle (tr : Date) (u : ReqUser) (a : Auction) :
  let m := updateAuctionStatusMiddleware tr a in
  let o := processWinner tr u a in
  ((role u = Role.seller /\ seller a = user_id u) \/ role u = Role.admin ->
   (status m = Ended -> currentHighestBidder m <> None ->
      (reserveMet m ->
         httpStatus (reply o) = 200
         /\ saved o = set_status Sold (set_winner (currentHighestBidder m) m))
      /\ (~ reserveMet m ->
          errorKind (reply o) = Some PreconditionFailed
          /\ status (saved o) = Expired))
   /\ (status m <> Ended \/ currentHighestBidder m = None ->
       errorKind (reply o) = Some InvalidState /\ saved o = m))
  /\ (forall d : Auction,
      seller d = user_id u \/ role u = Role.admin ->
      status d = Ended -> currentHighestBidder d <> None ->
      (0 <= currentHighestBid d)%Q ->
      (reserveMet d ->
         httpStatus (reply (processWinnerHandler u d)) = 200
         /\ saved (processWinnerHandler u d)
            = preSave (set_status Sold (set_winner (currentHighestBidder d) d)))
      /\ (~ reserveMet d ->
          errorKind (reply (processWinnerHandler u d)) = Some PreconditionFailed
          /\ saved (processWinnerHandler u d) = preSave (set_status Expired d)))
  /\ (role u = Role.buyer ->
      reply o = mkReply 403 AccessDenied
      /\ errorKind (reply o) = Some Forbidden /\ saved o = a).
Proof.
  intros m o. subst o. split; [|split].
  - intro Hrole.
    assert (Hauth' : seller m = user_id u \/ role u = Role.admin).
    { unfold m. rewrite middleware_seller.
      destruct Hrole as [(_ & H)|H]; [left | right]; exact H. }
    rewrite processWinner_let_through.
    2: { destruct Hrole as [(H & _)|H]; rewrite H; discriminate. }
    fold m. split.
    + intros He Hb.
      destruct (middleware_ended tr a He) as (_ & Hr). fold m in Hr.
      split.
      * intros _.
        rewrite (processWinner_sold u m Hauth' He Hb (reserveUnmet_false m Hr)).
        cbn [reply saved httpStatus]. split; [reflexivity|].
        apply (preSave_after_middleware tr a). repeat split.
      * intro Hn. exfalso. apply Hn, reserveMet_of_reached, Hr.
    + intros [Hne|Hnb].
      * rewrite (processWinner_not_ended u m Hauth' Hne). split; reflexivity.
      * destruct (Status_eqb (status m) Ended) eqn:E.
        -- apply Status_eqb_eq in E.
           rewrite (processWinner_no_bidder u m Hauth' E Hnb). split; reflexivity.
        -- apply Status_eqb_neq in E.
           rewrite (processWinner_not_ended u m Hauth' E). split; reflexivity.
  - intros d Hd He Hb Hpos. split.
    + intro Hm. rewrite (processWinner_sold u d Hd He Hb).
      * split; reflexivity.
      * destruct (reserveUnmet d) eqn:E; [|reflexivity].
        apply (reserveUnmet_iff d Hpos) in E. contradiction.
    + intro Hn. apply (reserveUnmet_iff d Hpos) in Hn.
      rewrite (processWinner_reserve_unmet u d Hd He Hb Hn). split; reflexivity.
  - intro H. rewrite (processWinner_refused tr u a H). repeat split.
Qed.

Lemma C5_settle_witness :
  ((role owner = Role.seller /\ seller bidOn = user_id owner)
   \/ role owner = Role.admin)
  /\ status (updateAuctionStatusMiddleware (1000 + 2 * hour) bidOn) = Ended
  /\ status (saved (processWinner (1000 + 2 * hour) owner bidOn)) = Sold
  /\ winner (saved (processWinner (1000 + 2 * hour) owner bidOn))
     = Some (user_id alice).
Proof.
  split; [left; split; reflexivity|]. split; [reflexivity|].
  destruct (C5_settle (1000 + 2 * hour) owner bidOn) as (H & _).
  destruct (H (or_introl (conj eq_refl eq_refl))) as (Hs & _).
  destruct (Hs eq_refl) as (E & _); [vm_compute; discriminate|].
  destruct E as (_ & E); [vm_compute; discriminate|].
  rewrite E. split; reflexivity.
Defined.

(** C9: a status of Ended after updateAuctionStatus means there is a highest
    bidder and the highest bid reaches the reserve (0 when absent); the
    same holds of the document the middleware hands on.  Hence settlement,
    which runs on that document, never takes the branch for an unmet
    reserve: it never answers PreconditionFailed, and an auction it leaves
    Expired was Expired after the refresh already. *)
Theorem C9_reserve_branch_unreachable (tr : Date) (u : ReqUser) (a : Auction) :
  let m := updateAuctionStatusMiddleware tr a in
  let o := processWinner tr u a in
  (status (updateAuctionStatus tr a) = Ended ->
     currentHighestBidder a <> None
     /\ (reserveOrZero a <= currentHighestBid a)%Q)
  /\ (status m = Ended ->
      currentHighestBidder m <> None
      /\ (reserveOrZero m <= currentHighestBid m)%Q
      /\ reserveUnmet m = false)
  /\ errorKind (reply o) <> Some PreconditionFailed
  /\ (forall highest reserve, payload (reply o) <> ReserveNotMet highest reserve)
  /\ (status (saved o) = Expired -> status m = Expired).
Proof.
  intros m o.
  assert (Hm : status m = Ended ->
               currentHighestBidder m <> None
               /\ (reserveOrZero m <= currentHighestBid m)%Q
               /\ reserveUnmet m = false).
  { intro He. destruct (middleware_ended tr a He) as (Hb & Hr). fold m in Hb, Hr.
    repeat split; try assumption. apply reserveUnmet_false, Hr. }
  split; [|split; [exact Hm|]].
  - intro He. destruct (updateAuctionStatus_ended tr a He) as (_ & Hb & Hr).
    split; assumption.
  - subst o. unfold processWinner.
    destruct (negb (authorizeRole [Role.admin; Role.seller] u)).
    { cbn [reply saved]. repeat split; try discriminate.
      intro He. unfold m.
      rewrite middleware_status, updateAuctionStatus_final; [exact He|].
      rewrite He. reflexivity. }
    unfold processWinnerHandler. fold m.
    fold (reserveUnmet m).
    destruct (negb (String.eqb (seller m) (user_id u))
              && negb (Role.eqb (role u) Role.admin)).
    { cbn. repeat split; try discriminate. exact (fun H => H). }
    destruct (Status_eqb (status m) Ended) eqn:E; cbn [negb].
    2: { cbn. repeat split; try discriminate. exact (fun H => H). }
    apply Status_eqb_eq in E. destruct (Hm E) as (_ & _ & Hu). rewrite Hu.
    destruct (isSet (currentHighestBidder m)); cbn.
    + repeat split; try discriminate.
      rewrite preSave_status. cbn. discriminate.
    + repeat split; try discriminate. exact (fun H => H).
Qed.

Lemma C9_reserve_branch_unreachable_witness :
  status (updateAuctionStatus (1000 + 2 * hour) bidOn) = Ended
  /\ currentHighestBidder bidOn <> None
  /\ (reserveOrZero bidOn <= currentHighestBid bidOn)%Q.
Proof.
  split; [reflexivity|].
  destruct (C9_reserve_branch_unreachable (1000 + 2 * hour) owner bidOn) as (H & _).
  apply H. reflexivity.
Defined.

(** ** Cancellation *)

Section Cancel.

Variables (u : ReqUser) (m : Auction).

Hypothesis authorized : seller m = user_id u \/ role u = Role.admin.

Lemma cancel_closed :
  cancelClosed (status m) = true ->
  cancelHandler u m = mkOutcome (mkReply 400 (CannotCancel (status m))) m.
Proof.
  intro H. unfold cancelHandler. rewrite (authorized_test u m authorized).
  unfold cancelClosed in H. rewrite H. reflexivity.
Qed.

Lemma cancel_active_with_bids :
  status m = Active -> bids m <> [] -> role u <> Role.admin ->
  cancelHandler u m = mkOutcome (mkReply 400 CancelActiveWithBids) m.
Proof.
  intros Hs Hb Hr. unfold cancelHandler. rewrite (authorized_test u m authorized).
  rewrite Hs. apply length_pos_iff in Hb. rewrite Hb.
  destruct (role u); try reflexivity. contradiction Hr. reflexivity.
Qed.

Lemma cancel_done :
  cancelClosed (status m) = false ->
  (status m = Active -> bids m <> [] -> role u = Role.admin) ->
  cancelHandler u m =
    mkOutcome (mkReply 200 CancelledOk) (preSave (set_status Cancelled m)).
Proof.
  intros Hc Ha. unfold cancelHandler. rewrite (authorized_test u m authorized).
  unfold cancelClosed in Hc. rewrite Hc.
  destruct (Status_eqb (status m) Active) eqn:Es; [|reflexivity].
  destruct (0 <? List.length (bids m))%nat eqn:Eb; [|reflexivity].
  apply Status_eqb_eq in Es. apply length_pos_iff in Eb.
  rewrite (Ha Es Eb). reflexivity.
Qed.

End Cancel.

(** C8 as the specification states it fails: the seller, who is not an
    admin, cancelling an Active auction that has a bid is answered 400 with
    the message for an active auction with bids, the class of the status
    rejections, and not 403, the Forbidden of the routes. *)
Lemma C8_seller_cancel_with_bids_is_400 :
  seller bidOn = user_id owner
  /\ role owner <> Role.admin
  /\ status (updateAuctionStatusMiddleware 3000 bidOn) = Active
  /\ bids (updateAuctionStatusMiddleware 3000 bidOn) <> []
  /\ reply (cancelAuction 3000 owner bidOn) = mkReply 400 CancelActiveWithBids
  /\ errorKind (reply (cancelAuction 3000 owner bidOn)) = Some InvalidState
  /\ errorKind (reply (cancelAuction 3000 owner bidOn)) <> Some Forbidden.
Proof.
  repeat split; discriminate.
Qed.

(** C8, amended: when the seller of the auction or an admin asks for
    cancellation, the request fails with InvalidState if the status after
    the refresh is Ended, Sold or Expired; it fails with InvalidState too
    (status 400, not Forbidden) if that status is Active, there is a bid
    and the requester is not an admin; in both cases the document stays as
    refreshed.  Otherwise the status becomes Cancelled and nothing else
    changes. *)
Theorem C8_cancel (tr : Date) (u : ReqUser) (a : Auction) :
  let m := updateAuctionStatusMiddleware tr a in
  let o := cancelAuction tr u a in
  seller a = user_id u \/ role u = Role.admin ->
  (status m = Ended \/ status m = Sold \/ status m = Expired ->
     errorKind (reply o) = Some InvalidState /\ saved o = m)
  /\ (status m = Active -> bids m <> [] -> role u <> Role.admin ->
      errorKind (reply o) = Some InvalidState
      /\ reply o = mkReply 400 CancelActiveWithBids /\ saved o = m)
  /\ (status m <> Ended -> status m <> Sold -> status m <> Expired ->
      (status m = Active -> bids m <> [] -> role u = Role.admin) ->
      httpStatus (reply o) = 200 /\ saved o = set_status Cancelled m
      /\ status (saved o) = Cancelled).
Proof.
  intros m o Hauth. subst o. unfold cancelAuction. fold m.
  assert (Hauth' : seller m = user_id u \/ role u = Role.admin).
  { unfold m. rewrite middleware_seller. exact Hauth. }
  split; [|split].
  - intro H. rewrite (cancel_closed u m Hauth').
    + split; reflexivity.
    + unfold cancelClosed. destruct H as [H|[H|H]]; rewrite H; reflexivity.
  - intros Hs Hb Hr. rewrite (cancel_active_with_bids u m Hauth' Hs Hb Hr).
    repeat split.
  - intros H1 H2 H3 Ha. rewrite (cancel_done u m Hauth').
    + cbn [reply saved httpStatus].
      rewrite (preSave_after_middleware tr a) by repeat split.
      repeat split.
    + unfold cancelClosed.
      apply Status_eqb_neq in H1, H2, H3. rewrite H1, H2, H3. reflexivity.
    + exact Ha.
Qed.

Lemma C8_cancel_witness :
  (seller fresh = user_id owner \/ role owner = Role.admin)
  /\ status (saved (cancelAuction 2000 owner fresh)) = Cancelled.
Proof.
  split; [left; reflexivity|].
  destruct (C8_cancel 2000 owner fresh (or_introl eq_refl)) as (_ & _ & H).
  apply H; try discriminate.
  intros _ C. exfalso. apply C. reflexivity.
Defined.

(** ** An auction that is Expired *)

Lemma middleware_final (now : Date) (a : Auction) :
  isFinal (status a) = true -> updateAuctionStatusMiddleware now a = preSave a.
Proof.
  intro H. unfold updateAuctionStatusMiddleware.
  rewrite (updateAuctionStatus_final now a H). reflexivity.
Qed.

Lemma applyUpdates_status (x : Updates) (m : Auction) :
  status (applyUpdates x m) = status m.
Proof.
  unfold applyUpdates.
  destruct (uStartTime x), (uEndTime x), (uReservePrice x), (uBuyNowPrice x);
    reflexivity.
Qed.

Lemma applyUpdates_bids (x : Updates) (m : Auction) :
  bids (applyUpdates x m) = bids m.
Proof.
  unfold applyUpdates.
  destruct (uStartTime x), (uEndTime x), (uReservePrice x), (uBuyNowPrice x);
    reflexivity.
Qed.

(** No operation takes an auction out of Expired, and none adds a bid to
    it. *)
Lemma apply_expired (op : Op) (a : Auction) :
  status a = Expired ->
  status (saved (apply op a)) = Expired
  /\ bids (saved (apply op a)) = bids a.
Proof.
  intro He.
  assert (Hf : isFinal (status a) = true) by (rewrite He; reflexivity).
  assert (Hm : forall tr, status (updateAuctionStatusMiddleware tr a) = Expired).
  { intro tr. rewrite (middleware_final tr a Hf), preSave_status. exact He. }
  assert (Hb : forall tr, bids (updateAuctionStatusMiddleware tr a) = bids a).
  { intro tr. apply middleware_bids. }
  destruct op as [now|tr|tr ts now u amt|tr now u x|tr u|tr u|now]; cbn [apply saved].
  - rewrite (updateAuctionStatus_final now a Hf). split; [exact He | reflexivity].
  - unfold getAuction, getHandler. cbv zeta. cbn [saved].
    rewrite preSave_status, preSave_bids. cbn. split; [apply Hm | apply Hb].
  - unfold placeBid, bidHandler. specialize (Hm tr). specialize (Hb tr).
    set (m := updateAuctionStatusMiddleware tr a) in *.
    destruct (negb (bidChecks amt)); [split; assumption|].
    rewrite Hm. cbn. split; assumption.
  - unfold updateAuction, updateHandler. specialize (Hm tr). specialize (Hb tr).
    set (m := updateAuctionStatusMiddleware tr a) in *.
    repeat match goal with
    | |- context [if ?c then _ else _] => destruct c
    end; cbn [saved]; try (split; assumption).
    rewrite preSave_status, preSave_bids.
    rewrite updateAuctionStatus_final.
    + rewrite applyUpdates_status, applyUpdates_bids. split; assumption.
    + rewrite applyUpdates_status, Hm. reflexivity.
  - unfold cancelAuction, cancelHandler. specialize (Hm tr). specialize (Hb tr).
    set (m := updateAuctionStatusMiddleware tr a) in *.
    destruct (_ && _); [split; assumption|].
    rewrite Hm. cbn. split; assumption.
  - unfold processWinner.
    destruct (negb (authorizeRole [Role.admin; Role.seller] u));
      [split; [exact He | reflexivity]|].
    unfold processWinnerHandler. specialize (Hm tr). specialize (Hb tr).
    set (m := updateAuctionStatusMiddleware tr a) in *.
    destruct (_ && _); [split; assumption|].
    rewrite Hm. cbn. split; assumption.
  - unfold sweepQuery. rewrite He. cbn. split; [exact He | reflexivity].
Qed.

Lemma run_expired (ops : list Op) (a : Auction) :
  status a = Expired ->
  status (run ops a) = Expired /\ bids (run ops a) = bids a.
Proof.
  revert a. induction ops as [|op ops IH]; intros a He; [split; [exact He | reflexivity]|].
  change (run (op :: ops) a) with (run ops (saved (apply op a))).
  destruct (apply_expired op a He) as (H1 & H2).
  destruct (IH _ H1) as (H3 & H4). split; congruence.
Qed.

(** ** Creation *)

Lemma existsb_false_forall {A : Type} (f : A -> bool) (l : list A) :
  (forall x, In x l -> f x = false) -> existsb f l = false.
Proof.
  intro H. induction l as [|y l IH]; [reflexivity|].
  cbn. rewrite (H y (or_introl eq_refl)). apply IH.
  intros x Hx. apply H. right. exact Hx.
Qed.

Lemma optAll_weaken (p q : Q -> bool) (o : option Q) :
  (forall x, p x = true -> q x = true) -> optAll p o = true -> optAll q o = true.
Proof. intro H. destruct o; [apply H | reflexivity]. Qed.

(** C10: the validation of a creation asks for endTime after startTime, not
    for endTime in the future.  A request that passes it, for a product that
    exists, is in stock and has no auction yet, by its seller or an admin,
    is accepted even when endTime is not after the instant of creation; the
    auction it returns is Expired and has no bid, and stays so through every
    sequence of operations, none of which is an accepted bid.  The seller is
    the owner of the product holding the role of a seller, as the route's
    role guard asks. *)
Theorem C10_created_expired
    (tc tr : Date) (u : ReqUser) (b : CreateBody) (p : Product) (db : list Auction) :
  createChecks b = true ->
  (role u = Role.admin \/ (role u = Role.seller /\ productSeller p = user_id u)) ->
  (forall x, In x db -> product x <> cProduct b) ->
  (1 <= stock p)%Q ->
  (1 # 100 <= cStartingBid b)%Q ->
  cEndTime b <= tr ->
  exists a,
    createAuction tc tr u b (Some p) db = (mkReply 201 AuctionJson, Some a)
    /\ status a = Expired
    /\ bids a = []
    /\ (forall ops, status (run ops a) = Expired /\ bids (run ops a) = [])
    /\ (forall ops tr' ts' now' u' amt,
          httpStatus (reply (placeBid tr' ts' now' u' amt (run ops a))) <> 200
          /\ status (updateAuctionStatus tr' (run ops a)) <> Active).
Proof.
  intros Hv Hauth Hdb Hstock Hmin Hend.
  unfold createChecks in Hv.
  apply andb_prop in Hv as [Hv Hbuy]. apply andb_prop in Hv as [Hv Hres].
  apply andb_prop in Hv as [Hv Hpos]. apply andb_prop in Hv as [Hprod Htimes].
  apply negb_true_iff, Z.leb_gt in Htimes.
  set (new0 :=
         mkAuction (cProduct b) (productSeller p) (cStartTime b) (cEndTime b)
           (cStartingBid b) (cStartingBid b) None []
           (if cStartTime b <=? tc then Active else Upcoming)
           None (cReservePrice b) (cBuyNowPrice b) 0).
  assert (Hnew : updateAuctionStatus tr new0 = set_status Expired new0).
  { rewrite updateAuctionStatus_cases.
    - cbn [startTime endTime new0].
      destruct (Z.ltb_spec tr (cStartTime b)); [lia|].
      destruct (Z.ltb_spec tr (cEndTime b)); [lia|]. reflexivity.
    - cbn. destruct (cStartTime b <=? tc); reflexivity. }
  exists (set_status Expired new0).
  assert (Hs : forall ops,
             status (run ops (set_status Expired new0)) = Expired
             /\ bids (run ops (set_status Expired new0)) = []).
  { intro ops. apply (run_expired ops (set_status Expired new0)). reflexivity. }
  split; [|split; [reflexivity|split; [reflexivity|split; [exact Hs|]]]].
  - unfold createAuction. rewrite authorizeRole_seller_admin.
    replace (Role.eqb (role u) Role.buyer) with false.
    2: { destruct Hauth as [H|(H & _)]; rewrite H; reflexivity. }
    cbn [negb]. unfold createHandler.
    replace (createChecks b) with true.
    2: { unfold createChecks. rewrite Hprod, Hbuy, Hres, Hpos.
         apply Z.leb_gt in Htimes. rewrite Htimes. reflexivity. }
    cbn [negb].
    replace (negb (Role.eqb (role u) Role.admin)
             && negb (String.eqb (productSeller p) (user_id u))) with false.
    2: { destruct Hauth as [H|(_ & H)].
         - rewrite H. reflexivity.
         - apply String.eqb_eq in H. rewrite H. symmetry. apply andb_false_r. }
    replace (existingAuction db (cProduct b)) with false.
    2: { symmetry. apply existsb_false_forall. intros x Hx.
         apply Hdb, String.eqb_neq in Hx. rewrite Hx. reflexivity. }
    replace (Qltb (stock p) 1) with false by (symmetry; apply Qltb_ge, Hstock).
    fold new0. cbv zeta. rewrite Hnew.
    replace (insertAccepted db (set_status Expired new0)) with true.
    + rewrite preSave_inv; [reflexivity|]. reflexivity.
    + symmetry. unfold insertAccepted. cbn [startingBid reservePrice buyNowPrice product set_status new0].
      apply Qle_bool_iff in Hmin. rewrite Hmin, Hres.
      rewrite (optAll_weaken (Qltb 0) (Qle_bool 0) _ (fun x H => proj2 (Qle_bool_iff 0 x) (Qlt_le_weak _ _ (proj1 (Qltb_lt 0 x) H))) Hbuy).
      rewrite existsb_false_forall; [reflexivity|].
      intros x Hx. apply Hdb, String.eqb_neq in Hx. exact Hx.
  - intros ops tr' ts' now' u' amt.
    destruct (Hs ops) as (He & _).
    assert (Hst : status (updateAuctionStatus tr' (run ops (set_status Expired new0)))
                  = Expired).
    { rewrite updateAuctionStatus_final; [exact He|]. rewrite He. reflexivity. }
    split.
    + intro H.
      destruct (placeBid_accepted_inv _ _ _ _ _ _ H) as (_ & Ha & _).
      rewrite middleware_status, Hst in Ha. discriminate Ha.
    + rewrite Hst. discriminate.
Qed.

Lemma C10_created_expired_witness :
  createChecks pastBody = true
  /\ cEndTime pastBody <= 10000
  /\ exists a,
       createAuction 10000 10000 owner pastBody (Some (mkProduct (user_id owner) 3)) []
       = (mkReply 201 AuctionJson, Some a)
       /\ status a = Expired.
Proof.
  split; [reflexivity|]. split; [discriminate|].
  destruct (C10_created_expired 10000 10000 owner pastBody
              (mkProduct (user_id owner) 3) [])
    as (a & E & Hs & _).
  - reflexivity.
  - right. split; reflexivity.
  - intros x [].
  - discriminate.
  - discriminate.
  - discriminate.
  - exists a. split; assumption.
Defined.

(** ** The winner field *)

Lemma applyUpdates_winner (x : Updates) (m : Auction) :
  winner (applyUpdates x m) = winner m.
Proof.
  unfold applyUpdates.
  destruct (uStartTime x), (uEndTime x), (uReservePrice x), (uBuyNowPrice x);
    reflexivity.
Qed.

Lemma updateAuctionStatus_winner (now : Date) (a : Auction) :
  winner (updateAuctionStatus now a) = winner a.
Proof. rewrite updateAuctionStatus_frame. reflexivity. Qed.

(** Refreshing, reading, bidding, updating and cancelling leave the winner
    field as it is, and a created auction has none. *)
Lemma apply_winner (op : Op) (a : Auction) :
  leavesWinner op = true -> winner (saved (apply op a)) = winner a.
Proof.
  destruct op as [now|tr|tr ts now u amt|tr now u x|tr u|tr u|now];
    cbn [leavesWinner apply saved]; intro H; try discriminate H.
  - apply updateAuctionStatus_winner.
  - unfold getAuction, getHandler. cbv zeta. cbn [saved].
    rewrite preSave_winner. cbn. apply middleware_winner.
  - unfold placeBid, bidHandler.
    pose proof (middleware_winner tr a) as Hm.
    set (m := updateAuctionStatusMiddleware tr a) in *.
    repeat match goal with
    | |- context [if ?c then _ else _] => destruct c
    end; cbn [saved]; try exact Hm; rewrite preSave_winner; exact Hm.
  - unfold updateAuction, updateHandler.
    pose proof (middleware_winner tr a) as Hm.
    set (m := updateAuctionStatusMiddleware tr a) in *.
    repeat match goal with
    | |- context [if ?c then _ else _] => destruct c
    end; cbn [saved]; try exact Hm.
    rewrite preSave_winner, updateAuctionStatus_winner, applyUpdates_winner.
    exact Hm.
  - unfold cancelAuction, cancelHandler.
    pose proof (middleware_winner tr a) as Hm.
    set (m := updateAuctionStatusMiddleware tr a) in *.
    repeat match goal with
    | |- context [if ?c then _ else _] => destruct c
    end; cbn [saved]; try exact Hm; rewrite preSave_winner; exact Hm.
Qed.

(** The sweep writes the winner whenever it finds the auction Ended. *)
Lemma sweepOne_winner (now : Date) (a : Auction) :
  status (updateAuctionStatus now a) = Ended ->
  winner (sweepOne now a) = currentHighestBidder a
  /\ currentHighestBidder a <> None.
Proof.
  intro He. destruct (updateAuctionStatus_ended now a He) as (_ & Hb & _).
  split; [|exact Hb].
  unfold sweepOne. cbv zeta. rewrite preSave_winner, He.
  rewrite updateAuctionStatus_frame. cbn [currentHighestBidder set_status].
  apply isSet_true in Hb. rewrite Hb. reflexivity.
Qed.

(** C2: the sweep does set the winner.  On a collection holding [bidOn], an
    Active auction without a winner whose highest bidder is [alice], the
    sweep an hour after endTime stores the auction as Ended with [alice] as
    winner, while the middleware's refresh at the same instant leaves the
    field empty. *)
Theorem C2_sweep_sets_winner :
  winner bidOn = None
  /\ status bidOn = Active
  /\ findActiveAndUpdateStatus (1000 + 2 * hour) [bidOn]
     = [set_winner (Some (user_id alice)) (set_status Ended bidOn)]
  /\ winner (updateAuctionStatusMiddleware (1000 + 2 * hour) bidOn) = None.
Proof.
  repeat split.
Qed.


(** ** Refreshes at successive instants *)

Lemma set_status_twice (s t : Status) (a : Auction) :
  set_status t (set_status s a) = set_status t a.
Proof. reflexivity. Qed.

(** X1: a refresh absorbs any earlier one: refreshing at [now] and then at a
    later (or the same) instant [now'] gives the document a single refresh at
    [now'] gives.  In particular refreshing twice at one instant is
    refreshing once. *)
Theorem refresh_absorbs_earlier (now now' : Date) (a : Auction) :
  now <= now' ->
  updateAuctionStatus now' (updateAuctionStatus now a) = updateAuctionStatus now' a.
Proof.
  intro Hle.
  destruct (isFinal (status a)) eqn:Hf.
  - rewrite (updateAuctionStatus_final now a Hf). reflexivity.
  - rewrite (updateAuctionStatus_cases now a Hf).
    rewrite (updateAuctionStatus_cases now' a Hf).
    destruct (Z.ltb_spec now (startTime a)) as [H1|H1].
    { rewrite updateAuctionStatus_cases by reflexivity. reflexivity. }
    destruct (Z.ltb_spec now (endTime a)) as [H2|H2].
    { rewrite updateAuctionStatus_cases by reflexivity. reflexivity. }
    destruct (Z.ltb_spec now' (startTime a)) as [H3|H3]; [lia|].
    destruct (Z.ltb_spec now' (endTime a)) as [H4|H4]; [lia|].
    unfold endedOrExpired.
    destruct (isSet (currentHighestBidder a)
              && Qle_bool (orZero (reservePrice a)) (currentHighestBid a)) eqn:E.
    + rewrite updateAuctionStatus_cases by reflexivity.
      cbn [startTime endTime set_status].
      destruct (Z.ltb_spec now' (startTime a)); [lia|].
      destruct (Z.ltb_spec now' (endTime a)); [lia|].
      unfold endedOrExpired. cbn [currentHighestBidder reservePrice currentHighestBid set_status].
      rewrite E. reflexivity.
    + rewrite updateAuctionStatus_final by reflexivity. reflexivity.
Qed.

Lemma refresh_absorbs_earlier_witness :
  2000 <= 1000 + hour
  /\ updateAuctionStatus (1000 + hour) (updateAuctionStatus 2000 bidOn)
     = set_status Ended bidOn.
Proof.
  split; [discriminate|].
  rewrite (refresh_absorbs_earlier 2000 (1000 + hour) bidOn); [reflexivity|discriminate].
Defined.


(** ** The sweep *)

(** A document the sweep has handled no longer matches its query, provided
    its startTime is not after its endTime. *)
Lemma sweepOne_done (now : Date) (a : Auction) :
  startTime a <= endTime a ->
  sweepQuery now a = true ->
  sweepQuery now (sweepOne now a) = false
  /\ (status (sweepOne now a) = Ended \/ status (sweepOne now a) = Expired).
Proof.
  intros Hwf Hq. unfold sweepQuery in Hq.
  apply andb_prop in Hq as [Hs He]. apply Z.leb_le in He.
  assert (Hf : isFinal (status a) = false).
  { destruct (status a); try reflexivity; discriminate Hs. }
  assert (E : updateAuctionStatus now a = set_status (endedOrExpired a) a).
  { rewrite (updateAuctionStatus_cases now a Hf).
    destruct (Z.ltb_spec now (startTime a)); [lia|].
    destruct (Z.ltb_spec now (endTime a)); [lia|]. reflexivity. }
  assert (St : status (sweepOne now a) = endedOrExpired a).
  { unfold sweepOne. cbv zeta. rewrite preSave_status, E.
    destruct (_ && _); reflexivity. }
  unfold sweepQuery. rewrite St.
  assert (Hd : endedOrExpired a = Ended \/ endedOrExpired a = Expired).
  { unfold endedOrExpired. destruct (_ && _); [left | right]; reflexivity. }
  destruct Hd as [Hd|Hd]; rewrite Hd; split; try reflexivity; [left | right]; reflexivity.
Qed.

(** X2: after the sweep at [now] no document of a collection whose auctions
    start no later than they end is left Upcoming or Active with its endTime
    passed; so sweeping again at the same instant changes nothing.  The
    sweep neither adds nor drops documents. *)
Theorem sweep_leaves_nothing_to_sweep (now : Date) (db : list Auction) :
  Forall (fun a => startTime a <= endTime a) db ->
  Forall (fun a => sweepQuery now a = false) (findActiveAndUpdateStatus now db)
  /\ findActiveAndUpdateStatus now (findActiveAndUpdateStatus now db)
     = findActiveAndUpdateStatus now db
  /\ List.length (findActiveAndUpdateStatus now db) = List.length db.
Proof.
  intro Hwf.
  assert (H1 : Forall (fun a => sweepQuery now a = false)
                 (findActiveAndUpdateStatus now db)).
  { unfold findActiveAndUpdateStatus. apply Forall_map.
    eapply Forall_impl; [|exact Hwf]. cbv beta. intros a Ha.
    destruct (sweepQuery now a) eqn:E; [|exact E].
    apply (sweepOne_done now a Ha E). }
  split; [exact H1|]. split.
  - unfold findActiveAndUpdateStatus at 1.
    rewrite <- (map_id (findActiveAndUpdateStatus now db)) at 2.
    apply map_ext_in. intros a Ha.
    rewrite Forall_forall in H1. rewrite (H1 a Ha). reflexivity.
  - unfold findActiveAndUpdateStatus. apply length_map.
Qed.

Lemma sweep_leaves_nothing_to_sweep_witness :
  Forall (fun a => startTime a <= endTime a) [bidOn; lowBid; fresh]
  /\ Forall (fun a => sweepQuery (1000 + 2 * hour) a = false)
       (findActiveAndUpdateStatus (1000 + 2 * hour) [bidOn; lowBid; fresh]).
Proof.
  assert (H : Forall (fun a => startTime a <= endTime a) [bidOn; lowBid; fresh]).
  { repeat constructor; discriminate. }
  split; [exact H|].
  apply (sweep_leaves_nothing_to_sweep (1000 + 2 * hour) [bidOn; lowBid; fresh] H).
Defined.


(** ** Runs that do not settle *)

(** X3: the winner field is written by settlement and the sweep only: a
    sequence of refreshes, reads, bids, updates and cancellations, whatever
    their outcomes, leaves it as it was. *)
Theorem winner_kept_by_other_operations (ops : list Op) (a : Auction) :
  Forall (fun op => leavesWinner op = true) ops ->
  winner (run ops a) = winner a.
Proof.
  revert a. induction ops as [|op ops IH]; intros a H; [reflexivity|].
  change (run (op :: ops) a) with (run ops (saved (apply op a))).
  apply Forall_cons_iff in H as [H1 H2].
  rewrite (IH _ H2). apply apply_winner, H1.
Qed.

Lemma winner_kept_by_other_operations_witness :
  Forall (fun op => leavesWinner op = true)
    [PlaceBid 2000 2000 2000 alice 150; Get 3000; Cancel 4000 root;
     Refresh (1000 + 2 * hour)]
  /\ winner
       (run [PlaceBid 2000 2000 2000 alice 150; Get 3000; Cancel 4000 root;
             Refresh (1000 + 2 * hour)] reserved)
     = None.
Proof.
  assert (H : Forall (fun op => leavesWinner op = true)
                [PlaceBid 2000 2000 2000 alice 150; Get 3000; Cancel 4000 root;
                 Refresh (1000 + 2 * hour)]).
  { repeat constructor. }
  split; [exact H|].
  rewrite (winner_kept_by_other_operations _ reserved H). reflexivity.
Defined.

(** ** The bid log *)

Lemma applyUpdates_bidder (x : Updates) (m : Auction) :
  currentHighestBidder (applyUpdates x m) = currentHighestBidder m.
Proof.
  unfold applyUpdates.
  destruct (uStartTime x), (uEndTime x), (uReservePrice x), (uBuyNowPrice x);
    reflexivity.
Qed.

Lemma preSave_bidder (a : Auction) :
  currentHighestBidder (preSave a) = currentHighestBidder a.
Proof. rewrite preSave_frame. reflexivity. Qed.

(** The bid log and the highest bidder together: an operation leaves both,
    or it is an accepted bid, which appends one bid and makes its author the
    highest bidder. *)
Lemma apply_log_and_bidder (op : Op) (a : Auction) :
  (bids (saved (apply op a)) = bids a
   /\ currentHighestBidder (saved (apply op a)) = currentHighestBidder a)
  \/ (exists b,
        bids (saved (apply op a)) = bids a ++ [b]
        /\ currentHighestBidder (saved (apply op a)) = Some (user b)).
Proof.
  destruct op as [now|tr|tr ts now u amt|tr now u x|tr u|tr u|now]; cbn [apply saved].
  - left. rewrite updateAuctionStatus_frame. split; reflexivity.
  - left. unfold getAuction, getHandler. cbv zeta. cbn [saved].
    rewrite preSave_bids, preSave_bidder. cbn.
    split; [apply middleware_bids | apply middleware_bidder].
  - destruct (Z.eq_dec (httpStatus (reply (placeBid tr ts now u amt a))) 200) as [E|E].
    + right. exists (mkBid (user_id u) amt ts).
      destruct (placeBid_accepted_inv tr ts now u amt a E) as (_ & _ & _ & _ & _ & Eo).
      rewrite Eo. cbn [saved]. unfold recordBid. cbn.
      rewrite middleware_bids. split; reflexivity.
    + left. rewrite (placeBid_rejected_saved tr ts now u amt a E).
      split; [apply middleware_bids | apply middleware_bidder].
  - left. unfold updateAuction, updateHandler.
    pose proof (middleware_bids tr a) as Hb. pose proof (middleware_bidder tr a) as Hc.
    set (m := updateAuctionStatusMiddleware tr a) in *.
    repeat match goal with
    | |- context [if ?c then _ else _] => destruct c
    end; cbn [saved]; try (split; assumption).
    rewrite preSave_bids, preSave_bidder, updateAuctionStatus_frame.
    cbn [bids currentHighestBidder set_status].
    rewrite applyUpdates_bids, applyUpdates_bidder. split; assumption.
  - left. unfold cancelAuction, cancelHandler.
    pose proof (middleware_bids tr a) as Hb. pose proof (middleware_bidder tr a) as Hc.
    set (m := updateAuctionStatusMiddleware tr a) in *.
    repeat match goal with
    | |- context [if ?c then _ else _] => destruct c
    end; cbn [saved]; try (split; assumption);
    rewrite preSave_bids, preSave_bidder; split; assumption.
  - left. unfold processWinner.
    destruct (negb (authorizeRole [Role.admin; Role.seller] u));
      [split; reflexivity|].
    unfold processWinnerHandler.
    pose proof (middleware_bids tr a) as Hb. pose proof (middleware_bidder tr a) as Hc.
    set (m := updateAuctionStatusMiddleware tr a) in *.
    repeat match goal with
    | |- context [if ?c then _ else _] => destruct c
    end; cbn [saved]; try (split; assumption);
    rewrite preSave_bids, preSave_bidder; split; assumption.
  - left. destruct (sweepQuery now a); [|split; reflexivity].
    unfold sweepOne. cbv zeta. rewrite preSave_bids, preSave_bidder.
    rewrite updateAuctionStatus_frame.
    destruct (_ && _); split; reflexivity.
Qed.

(** X4: the bid log is append-only: after any sequence of operations the
    log is the log before, followed by the bids accepted on the way; no
    operation removes, reorders or rewrites a bid. *)
Theorem bids_append_only (ops : list Op) (a : Auction) :
  exists new, bids (run ops a) = bids a ++ new
              /\ (List.length new <= List.length ops)%nat.
Proof.
  revert a. induction ops as [|op ops IH]; intro a.
  - exists []. split; [symmetry; apply app_nil_r | apply Nat.le_refl].
  - change (run (op :: ops) a) with (run ops (saved (apply op a))).
    destruct (IH (saved (apply op a))) as (new & Hn & Hl).
    destruct (apply_log_and_bidder op a) as [(Hb & _)|(b & Hb & _)].
    + exists new. rewrite Hn, Hb. split; [reflexivity|]. cbn. lia.
    + exists (b :: new). rewrite Hn, Hb, <- app_assoc. split; [reflexivity|].
      cbn. lia.
Qed.

(** X5: the highest bidder is the author of the last bid on record, and
    there is none exactly when the log is empty: create establishes this and
    every operation keeps it. *)
Theorem highest_bidder_is_last_bidder :
  (forall tc tr u b found db r a,
      createAuction tc tr u b found db = (r, Some a) -> bidderInv a)
  /\ (forall op a, bidderInv a -> bidderInv (saved (apply op a)))
  /\ (forall ops a, bidderInv a -> bidderInv (run ops a))
  /\ (forall a, bidderInv a -> (currentHighestBidder a = None <-> bids a = [])).
Proof.
  assert (Hstep : forall op a, bidderInv a -> bidderInv (saved (apply op a))).
  { intros op a H. unfold bidderInv in *.
    destruct (apply_log_and_bidder op a) as [(Hb & Hc)|(b & Hb & Hc)].
    - rewrite Hb, Hc. exact H.
    - rewrite Hb, Hc, map_app. cbn [map]. rewrite last_last. reflexivity. }
  split; [|split; [exact Hstep|split]].
  - intros tc tr u b found db r a H.
    unfold createAuction, createHandler in H.
    destruct (negb (authorizeRole [Role.seller; Role.admin] u)); [discriminate|].
    destruct (negb (createChecks b)); [discriminate|].
    destruct found as [p|]; [|discriminate].
    destruct (_ && _); [discriminate|].
    destruct (existingAuction _ _); [discriminate|].
    destruct (Qltb _ _); [discriminate|].
    cbv zeta in H. destruct (insertAccepted _ _); [|discriminate].
    injection H as _ <-. unfold bidderInv.
    rewrite preSave_bidder, preSave_bids, updateAuctionStatus_frame. reflexivity.
  - intros ops. induction ops as [|op ops IH]; intros a H; [exact H|].
    change (run (op :: ops) a) with (run ops (saved (apply op a))).
    apply IH, Hstep, H.
  - intros a H. unfold bidderInv in H. rewrite H.
    destruct (bids a) as [|b l] using rev_ind.
    + split; reflexivity.
    + rewrite map_app. cbn [map]. rewrite last_last.
      split; [discriminate|]. intro C. apply app_eq_nil in C. destruct C; discriminate.
Qed.


(** ** PUT api/auctions/:id *)

(** The fields an update can write are the two times, the reserve and the
    buy-now price. *)
Lemma applyUpdates_frame (x : Updates) (m : Auction) :
  applyUpdates x m =
    mkAuction (product m) (seller m)
      (match uStartTime x with Some s => s | None => startTime m end)
      (match uEndTime x with Some e => e | None => endTime m end)
      (startingBid m) (currentHighestBid m) (currentHighestBidder m) (bids m)
      (status m) (winner m)
      (match uReservePrice x with Some r => Some r | None => reservePrice m end)
      (match uBuyNowPrice x with Some b => Some b | None => buyNowPrice m end)
      (viewCount m).
Proof.
  unfold applyUpdates.
  destruct (uStartTime x), (uEndTime x), (uReservePrice x), (uBuyNowPrice x), m;
    reflexivity.
Qed.

Section UpdateRoute.

Variables (tr now : Date) (u : ReqUser) (x : Updates) (a : Auction).

Let m := updateAuctionStatusMiddleware tr a.

(** The handler's two guards against changes once bids exist. *)
Let guardCritical : bool :=
  (0 <? List.length (bids m))%nat
  && (uStartingBid x || uProduct x || truthyOpt (uReservePrice x)).

Let guardTiming : bool :=
  negb (Status_eqb (status m) Upcoming)
  && (isSet (uStartTime x) || isSet (uEndTime x) || uStartingBid x)
  && (0 <? List.length (bids m))%nat.

(** An update answered 200 passed the validation, the authorization and
    both guards, and saved the updated, refreshed document. *)
Lemma updateAuction_accepted_inv :
  httpStatus (reply (updateAuction tr now u x a)) = 200 ->
  updateChecks m x = true
  /\ (seller m = user_id u \/ role u = Role.admin)
  /\ guardCritical = false /\ guardTiming = false
  /\ saved (updateAuction tr now u x a)
     = preSave (updateAuctionStatus now (applyUpdates x m)).
Proof.
  unfold updateAuction, updateHandler. fold m. fold guardCritical. fold guardTiming.
  destruct (updateChecks m x); cbn [negb]; [|discriminate].
  destruct (negb (String.eqb (seller m) (user_id u))
            && negb (Role.eqb (role u) Role.admin)) eqn:Ea; [discriminate|].
  destruct guardCritical; [discriminate|].
  destruct guardTiming; [discriminate|].
  intros _. repeat split.
  apply andb_false_iff in Ea as [Ea|Ea]; apply negb_false_iff in Ea.
  - left. apply String.eqb_eq, Ea.
  - right. destruct (role u); try discriminate Ea. reflexivity.
Qed.

(** An update that is not answered 200 leaves the middleware's document. *)
Lemma updateAuction_rejected_saved :
  httpStatus (reply (updateAuction tr now u x a)) <> 200 ->
  saved (updateAuction tr now u x a) = m.
Proof.
  unfold updateAuction, updateHandler. fold m.
  repeat match goal with
  | |- context [if ?c then _ else _] => destruct c
  end; cbn; intro H; try reflexivity; exfalso; apply H; reflexivity.
Qed.

(** X6: whatever the request and its outcome, the update route leaves the
    product, the seller, the starting bid, the bid log, the highest bidder,
    the winner and the view count of the auction as they were; a
    [startingBid] or [product] in the body is never applied. *)
Theorem update_never_touches :
  let a' := saved (updateAuction tr now u x a) in
  product a' = product a /\ seller a' = seller a
  /\ startingBid a' = startingBid a /\ bids a' = bids a
  /\ currentHighestBidder a' = currentHighestBidder a
  /\ winner a' = winner a /\ viewCount a' = viewCount a.
Proof.
  intro a'. subst a'.
  assert (Hm : product m = product a /\ seller m = seller a
               /\ startingBid m = startingBid a /\ bids m = bids a
               /\ currentHighestBidder m = currentHighestBidder a
               /\ winner m = winner a /\ viewCount m = viewCount a).
  { unfold m. rewrite middleware_frame. repeat split. }
  destruct (Z.eq_dec (httpStatus (reply (updateAuction tr now u x a))) 200) as [E|E].
  - destruct (updateAuction_accepted_inv E) as (_ & _ & _ & _ & Es).
    rewrite Es, preSave_frame, updateAuctionStatus_frame, applyUpdates_frame.
    exact Hm.
  - rewrite (updateAuction_rejected_saved E). exact Hm.
Qed.

(** X7: once a bid is on record, an update that is accepted leaves
    startTime and endTime alone unless the status after the refresh is
    Upcoming, and changes the reserve only to zero. *)
Theorem update_with_bids_on_record :
  bids a <> [] ->
  httpStatus (reply (updateAuction tr now u x a)) = 200 ->
  let a' := saved (updateAuction tr now u x a) in
  (status m <> Upcoming -> startTime a' = startTime a /\ endTime a' = endTime a)
  /\ (reservePrice a' = reservePrice a
      \/ exists r, uReservePrice x = Some r /\ (r == 0)%Q
                   /\ reservePrice a' = Some r).
Proof.
  intros Hb E a'. subst a'.
  destruct (updateAuction_accepted_inv E) as (_ & _ & Hg1 & Hg2 & Es).
  assert (Hlen : (0 <? List.length (bids m))%nat = true).
  { apply length_pos_iff. unfold m. rewrite middleware_bids. exact Hb. }
  unfold guardCritical in Hg1. unfold guardTiming in Hg2.
  rewrite Hlen in Hg1, Hg2. rewrite andb_true_r in Hg2. cbn [andb] in Hg1.
  apply orb_false_iff in Hg1 as [Hg1 Hr]. apply orb_false_iff in Hg1 as [Hsb _].
  rewrite Es, preSave_frame, updateAuctionStatus_frame, applyUpdates_frame.
  cbn [startTime endTime reservePrice set_currentHighestBid set_status].
  split.
  - intro Hs. apply Status_eqb_neq in Hs. rewrite Hs in Hg2. cbn [negb andb] in Hg2.
    apply orb_false_iff in Hg2 as [Hg2 _]. apply orb_false_iff in Hg2 as [Hst Het].
    destruct (uStartTime x); [discriminate Hst|].
    destruct (uEndTime x); [discriminate Het|].
    unfold m. rewrite middleware_startTime, middleware_endTime. split; reflexivity.
  - destruct (uReservePrice x) as [r|].
    + right. exists r. cbn [truthyOpt] in Hr. apply truthy_false in Hr.
      repeat split. exact Hr.
    + left. unfold m. apply middleware_reservePrice.
Qed.

End UpdateRoute.


Lemma update_with_bids_on_record_witness :
  bids bidOn <> []
  /\ httpStatus
       (reply (updateAuction 3000 3000 owner
                 (mkUpdates None None (Some 0%Q) None false false) bidOn)) = 200
  /\ startTime
       (saved (updateAuction 3000 3000 owner
                 (mkUpdates None None (Some 0%Q) None false false) bidOn))
     = startTime bidOn.
Proof.
  assert (Hb : bids bidOn <> []) by discriminate.
  split; [exact Hb|]. split; [reflexivity|].
  destruct (update_with_bids_on_record 3000 3000 owner
              (mkUpdates None None (Some 0%Q) None false false) bidOn Hb eq_refl)
    as (H & _).
  apply H. discriminate.
Defined.

(** An auction that does not start before it ends is never Active. *)
Lemma never_active (t : Date) (a : Auction) :
  endTime a <= startTime a -> status (updateAuctionStatus t a) <> Active.
Proof.
  intros Hwf.
  destruct (isFinal (status a)) eqn:Hf.
  - rewrite (updateAuctionStatus_final t a Hf). intro C. rewrite C in Hf. discriminate Hf.
  - rewrite (updateAuctionStatus_cases t a Hf). cbn [status set_status].
    destruct (Z.ltb_spec t (startTime a)); [discriminate|].
    destruct (Z.ltb_spec t (endTime a)); [lia|].
    unfold endedOrExpired. destruct (_ && _); discriminate.
Qed.

(** X8: the validation of an update compares endTime with startTime only
    when the body carries an endTime.  So the seller or an admin can move the
    startTime of an auction without bids to or past its endTime: the update
    is accepted, and the auction it saves is not Active, never becomes Active
    by a refresh, and accepts no bid. *)
Theorem start_moved_past_end (tr now s : Date) (u : ReqUser) (a : Auction) :
  seller a = user_id u \/ role u = Role.admin ->
  bids a = [] ->
  endTime a <= s ->
  let x := mkUpdates (Some s) None None None false false in
  let a' := saved (updateAuction tr now u x a) in
  httpStatus (reply (updateAuction tr now u x a)) = 200
  /\ startTime a' = s /\ endTime a' = endTime a
  /\ (forall t, status (updateAuctionStatus t a') <> Active)
  /\ (forall tr' ts' now' u' amt,
        httpStatus (reply (placeBid tr' ts' now' u' amt a')) <> 200).
Proof.
  intros Hauth Hb Hs x a'.
  set (m := updateAuctionStatusMiddleware tr a).
  assert (Eo : updateAuction tr now u x a =
               mkOutcome (mkReply 200 AuctionJson)
                 (preSave (updateAuctionStatus now (applyUpdates x m)))).
  { unfold updateAuction, updateHandler. fold m.
    assert (Hauth' : seller m = user_id u \/ role u = Role.admin).
    { unfold m. rewrite middleware_seller. exact Hauth. }
    rewrite (authorized_test u m Hauth').
    assert (Hl : (0 <? List.length (bids m))%nat = false).
    { unfold m. rewrite middleware_bids, Hb. reflexivity. }
    rewrite Hl. rewrite andb_false_r.
    replace (updateChecks m x) with true by reflexivity.
    cbn [negb]. rewrite andb_false_r. reflexivity. }
  assert (Est : startTime a' = s /\ endTime a' = endTime a).
  { subst a'. rewrite Eo. cbn [saved].
    rewrite preSave_frame, updateAuctionStatus_frame, applyUpdates_frame.
    cbn. unfold m. rewrite middleware_endTime. split; reflexivity. }
  assert (Hna : forall t, status (updateAuctionStatus t a') <> Active).
  { destruct Est as (E1 & E2). intro t. apply never_active.
    rewrite E1, E2. exact Hs. }
  split; [rewrite Eo; reflexivity|].
  split; [apply Est|]. split; [apply Est|]. split; [exact Hna|].
  intros tr' ts' now' u' amt H.
  destruct (placeBid_accepted_inv _ _ _ _ _ _ H) as (_ & Ha & _).
  rewrite middleware_status in Ha. exact (Hna tr' Ha).
Qed.


Lemma start_moved_past_end_witness :
  (seller fresh = user_id owner \/ role owner = Role.admin)
  /\ bids fresh = []
  /\ endTime fresh <= 1000 + 2 * hour
  /\ status
       (updateAuctionStatus (1000 + hour - 1)
          (saved (updateAuction 500 500 owner
                    (mkUpdates (Some (1000 + 2 * hour)) None None None false false)
                    fresh)))
     <> Active.
Proof.
  split; [left; reflexivity|]. split; [reflexivity|]. split; [discriminate|].
  destruct (start_moved_past_end 500 500 (1000 + 2 * hour) owner fresh)
    as (_ & _ & _ & H & _).
  - left. reflexivity.
  - reflexivity.
  - discriminate.
  - apply H.
Defined.

(** ** The view counter *)

Lemma preSave_viewCount (a : Auction) : viewCount (preSave a) = viewCount a.
Proof. rewrite preSave_frame. reflexivity. Qed.

Lemma middleware_viewCount (now : Date) (a : Auction) :
  viewCount (updateAuctionStatusMiddleware now a) = viewCount a.
Proof. rewrite middleware_frame. reflexivity. Qed.

Lemma apply_viewCount (op : Op) (a : Auction) :
  viewCount (saved (apply op a)) = viewCount a + (if isGet op then 1 else 0).
Proof.
  destruct op as [now|tr|tr ts now u amt|tr now u x|tr u|tr u|now];
    cbn [isGet apply saved]; rewrite ?Z.add_0_r.
  - rewrite updateAuctionStatus_frame. reflexivity.
  - unfold getAuction, getHandler. cbv zeta. cbn [saved].
    rewrite preSave_viewCount. cbn. rewrite middleware_viewCount. reflexivity.
  - unfold placeBid, bidHandler.
    pose proof (middleware_viewCount tr a) as Hm.
    set (m := updateAuctionStatusMiddleware tr a) in *.
    repeat match goal with
    | |- context [if ?c then _ else _] => destruct c
    end; cbn [saved]; try exact Hm; rewrite preSave_viewCount; exact Hm.
  - destruct (Z.eq_dec (httpStatus (reply (updateAuction tr now u x a))) 200) as [E|E].
    + destruct (updateAuction_accepted_inv tr now u x a E) as (_ & _ & _ & _ & Es).
      rewrite Es, preSave_viewCount, updateAuctionStatus_frame, applyUpdates_frame.
      apply middleware_viewCount.
    + rewrite (updateAuction_rejected_saved tr now u x a E).
      apply middleware_viewCount.
  - unfold cancelAuction, cancelHandler.
    pose proof (middleware_viewCount tr a) as Hm.
    set (m := updateAuctionStatusMiddleware tr a) in *.
    repeat match goal with
    | |- context [if ?c then _ else _] => destruct c
    end; cbn [saved]; try exact Hm; rewrite preSave_viewCount; exact Hm.
  - unfold processWinner.
    destruct (negb (authorizeRole [Role.admin; Role.seller] u)); [reflexivity|].
    unfold processWinnerHandler.
    pose proof (middleware_viewCount tr a) as Hm.
    set (m := updateAuctionStatusMiddleware tr a) in *.
    repeat match goal with
    | |- context [if ?c then _ else _] => destruct c
    end; cbn [saved]; try exact Hm; rewrite preSave_viewCount; exact Hm.
  - destruct (sweepQuery now a); [|reflexivity].
    unfold sweepOne. cbv zeta. rewrite preSave_viewCount, updateAuctionStatus_frame.
    destruct (_ && _); reflexivity.
Qed.

(** X9: the view count of an auction counts the reads of it: after any
    sequence of operations it has grown by the number of GET api/auctions/:id
    requests in the sequence, and by nothing else. *)
Theorem viewCount_counts_reads (ops : list Op) (a : Auction) :
  viewCount (run ops a) = viewCount a + Z.of_nat (List.length (filter isGet ops)).
Proof.
  revert a. induction ops as [|op ops IH]; intro a.
  - cbn. lia.
  - change (run (op :: ops) a) with (run ops (saved (apply op a))).
    rewrite IH, apply_viewCount. cbn [filter].
    destruct (isGet op); cbn [List.length]; lia.
Qed.


(** ** Requests that are refused *)

Lemma cancelAuction_rejected_saved (tr : Date) (u : ReqUser) (a : Auction) :
  httpStatus (reply (cancelAuction tr u a)) <> 200 ->
  saved (cancelAuction tr u a) = updateAuctionStatusMiddleware tr a.
Proof.
  unfold cancelAuction, cancelHandler.
  set (m := updateAuctionStatusMiddleware tr a).
  repeat match goal with
  | |- context [if ?c then _ else _] => destruct c
  end; cbn; intro H; try reflexivity; exfalso; apply H; reflexivity.
Qed.

Lemma processWinner_rejected_saved (tr : Date) (u : ReqUser) (a : Auction) :
  httpStatus (reply (processWinner tr u a)) <> 200 ->
  saved (processWinner tr u a)
  = if authorizeRole [Role.admin; Role.seller] u
    then updateAuctionStatusMiddleware tr a else a.
Proof.
  unfold processWinner.
  destruct (authorizeRole [Role.admin; Role.seller] u); cbn [negb]; [|reflexivity].
  unfold processWinnerHandler.
  pose proof (middleware_ended tr a) as He. cbv zeta in He.
  set (m := updateAuctionStatusMiddleware tr a) in *.
  fold (reserveUnmet m).
  destruct (negb (String.eqb (seller m) (user_id u))
            && negb (Role.eqb (role u) Role.admin)); [reflexivity|].
  destruct (Status_eqb (status m) Ended) eqn:E; cbn [negb]; [|reflexivity].
  destruct (isSet (currentHighestBidder m)); cbn [negb]; [|reflexivity].
  apply Status_eqb_eq in E. destruct (He E) as (_ & Hr).
  rewrite (reserveUnmet_false m Hr). cbn.
  intro H. exfalso. apply H. reflexivity.
Qed.

(** X10: a request on an auction that is refused has no effect of its own:
    whenever a bid, an update, a cancellation or a settlement is not answered
    200, the stored document is the one the middleware refreshed and saved
    before the handler ran; and when it is the role guard of the settlement
    route that refuses, which comes before the middleware, the stored
    document is not even refreshed. *)
Theorem refused_request_only_refreshes (tr : Date) (a : Auction) :
  let m := updateAuctionStatusMiddleware tr a in
  (forall ts now u amt,
      httpStatus (reply (placeBid tr ts now u amt a)) <> 200 ->
      saved (placeBid tr ts now u amt a) = m)
  /\ (forall now u x,
        httpStatus (reply (updateAuction tr now u x a)) <> 200 ->
        saved (updateAuction tr now u x a) = m)
  /\ (forall u,
        httpStatus (reply (cancelAuction tr u a)) <> 200 ->
        saved (cancelAuction tr u a) = m)
  /\ (forall u,
        httpStatus (reply (processWinner tr u a)) <> 200 ->
        (role u <> Role.buyer -> saved (processWinner tr u a) = m)
        /\ (role u = Role.buyer -> saved (processWinner tr u a) = a)).
Proof.
  intro m. repeat split.
  - intros ts now u amt. apply placeBid_rejected_saved.
  - intros now u x. apply updateAuction_rejected_saved.
  - intro u. apply cancelAuction_rejected_saved.
  - intro Hr. rewrite (processWinner_rejected_saved tr u a H).
    rewrite authorizeRole_admin_seller.
    destruct (role u); try reflexivity. contradiction Hr. reflexivity.
  - intro Hr. rewrite (processWinner_rejected_saved tr u a H).
    rewrite authorizeRole_admin_seller, Hr. reflexivity.
Qed.


(** ** GET api/auctions/:id/bids *)

Lemma insertSorted_perm (x : Bid) (l : list Bid) :
  Permutation (insertSorted newestFirst x l) (x :: l).
Proof.
  induction l as [|y l IH]; cbn [insertSorted]; [apply Permutation_refl|].
  destruct (newestFirst x y <=? 0); [apply Permutation_refl|].
  eapply Permutation_trans; [apply perm_skip, IH | apply perm_swap].
Qed.

Lemma insertSorted_sorted (x : Bid) (l : list Bid) :
  StronglySorted notOlder l -> StronglySorted notOlder (insertSorted newestFirst x l).
Proof.
  induction l as [|y l IH]; intro Hs; cbn [insertSorted].
  - constructor; constructor.
  - apply StronglySorted_inv in Hs as [Hs Hall].
    destruct (Z.leb_spec (newestFirst x y) 0) as [Hc|Hc]; unfold newestFirst in Hc.
    + constructor; [constructor; assumption|].
      constructor; [unfold notOlder; lia|].
      eapply Forall_impl; [|exact Hall]. unfold notOlder. intros z Hz. lia.
    + constructor; [apply IH, Hs|].
      eapply Permutation_Forall; [apply Permutation_sym, insertSorted_perm|].
      constructor; [unfold notOlder; lia | exact Hall].
Qed.

Lemma insertSorted_oldest (x : Bid) (l : list Bid) :
  Forall (fun y => timestamp x < timestamp y) l ->
  insertSorted newestFirst x l = l ++ [x].
Proof.
  induction l as [|y l IH]; intro H; cbn [insertSorted app]; [reflexivity|].
  apply Forall_cons_iff in H as [Hy Hl].
  destruct (Z.leb_spec (newestFirst x y) 0) as [Hc|Hc]; unfold newestFirst in Hc; [lia|].
  rewrite (IH Hl). reflexivity.
Qed.

(** X11: the bid history the route returns is the bid log of the auction
    rearranged newest first: it holds the same bids, each no older than the
    ones after it, and when the log is in strictly increasing order of
    timestamp it is the log reversed.  The stored document keeps the log in
    its own order. *)
Theorem bid_history_newest_first (tr : Date) (a : Auction) :
  let history := fst (getBids tr a) in
  Permutation history (bids a)
  /\ StronglySorted notOlder history
  /\ (StronglySorted (fun x y => timestamp x < timestamp y) (bids a) ->
      history = rev (bids a))
  /\ bids (snd (getBids tr a)) = bids a.
Proof.
  intro history. subst history. unfold getBids. cbv zeta. cbn [fst snd].
  rewrite middleware_bids. unfold arraySort.
  split; [|split; [|split; [|reflexivity]]].
  - induction (bids a) as [|x l IH]; cbn [fold_right]; [constructor|].
    eapply Permutation_trans; [apply insertSorted_perm | apply perm_skip, IH].
  - induction (bids a) as [|x l IH]; cbn [fold_right]; [constructor|].
    apply insertSorted_sorted, IH.
  - induction (bids a) as [|x l IH]; intro Hs; cbn [fold_right rev]; [reflexivity|].
    apply StronglySorted_inv in Hs as [Hs Hall].
    rewrite (IH Hs). apply insertSorted_oldest.
    apply Forall_rev. exact Hall.
Qed.

Example bid_history_of_two :
  fst (getBids 4000 (saved (placeBid 3000 3000 3000 bob 200 bidOn)))
  = [mkBid (user_id bob) 200 3000; mkBid (user_id alice) 150 2000].
Proof. reflexivity. Qed.


(** ** The times of an auction *)

Lemma preSave_startTime (a : Auction) : startTime (preSave a) = startTime a.
Proof. rewrite preSave_frame. reflexivity. Qed.

Lemma apply_times (op : Op) (a : Auction) :
  isUpdate op = false ->
  startTime (saved (apply op a)) = startTime a
  /\ endTime a <= endTime (saved (apply op a)).
Proof.
  destruct op as [now|tr|tr ts now u amt|tr now u x|tr u|tr u|now];
    cbn [isUpdate apply saved]; intro H; try discriminate H.
  - rewrite updateAuctionStatus_frame. cbn. lia.
  - unfold getAuction, getHandler. cbv zeta. cbn [saved].
    rewrite preSave_startTime, preSave_endTime.
    cbn [startTime endTime set_viewCount].
    rewrite middleware_startTime, middleware_endTime. lia.
  - destruct (Z.eq_dec (httpStatus (reply (placeBid tr ts now u amt a))) 200) as [E|E].
    + destruct (placeBid_accepted_inv tr ts now u amt a E) as (_ & _ & _ & _ & _ & Eo).
      rewrite Eo. cbn [saved]. rewrite recordBid_endTime.
      change (startTime (recordBid ts now u amt (updateAuctionStatusMiddleware tr a)))
        with (startTime (updateAuctionStatusMiddleware tr a)).
      rewrite middleware_startTime, middleware_endTime. split; [reflexivity|].
      destruct (Z.ltb_spec (endTime a - now) fiveMinutes); lia.
    + rewrite (placeBid_rejected_saved tr ts now u amt a E).
      rewrite middleware_startTime, middleware_endTime. lia.
  - unfold cancelAuction, cancelHandler.
    pose proof (middleware_startTime tr a) as Hs.
    pose proof (middleware_endTime tr a) as He.
    set (m := updateAuctionStatusMiddleware tr a) in *.
    repeat match goal with
    | |- context [if ?c then _ else _] => destruct c
    end; cbn [saved]; rewrite ?preSave_startTime, ?preSave_endTime; cbn; lia.
  - unfold processWinner.
    destruct (negb (authorizeRole [Role.admin; Role.seller] u)); [cbn [saved]; lia|].
    unfold processWinnerHandler.
    pose proof (middleware_startTime tr a) as Hs.
    pose proof (middleware_endTime tr a) as He.
    set (m := updateAuctionStatusMiddleware tr a) in *.
    repeat match goal with
    | |- context [if ?c then _ else _] => destruct c
    end; cbn [saved]; rewrite ?preSave_startTime, ?preSave_endTime; cbn; lia.
  - destruct (sweepQuery now a); [|lia].
    unfold sweepOne. cbv zeta. rewrite preSave_startTime, preSave_endTime.
    rewrite updateAuctionStatus_frame. destruct (_ && _); cbn; lia.
Qed.

(** X12: nothing but an update moves the startTime of an auction or brings
    its endTime forward: along any sequence of refreshes, reads, bids,
    cancellations, settlements and sweeps the startTime stays and the
    endTime never decreases. *)
Theorem only_updates_shorten (ops : list Op) (a : Auction) :
  Forall (fun op => isUpdate op = false) ops ->
  startTime (run ops a) = startTime a /\ endTime a <= endTime (run ops a).
Proof.
  revert a. induction ops as [|op ops IH]; intros a H; [cbn; lia|].
  change (run (op :: ops) a) with (run ops (saved (apply op a))).
  apply Forall_cons_iff in H as [H1 H2].
  destruct (IH (saved (apply op a)) H2) as (Hs & He).
  destruct (apply_times op a H1) as (Hs' & He').
  split; [congruence | lia].
Qed.

Lemma only_updates_shorten_witness :
  Forall (fun op => isUpdate op = false)
    [PlaceBid 2000 2000 (1000 + hour - 1000) alice 150; Get 3000]
  /\ endTime fresh
     <= endTime (run [PlaceBid 2000 2000 (1000 + hour - 1000) alice 150; Get 3000] fresh).
Proof.
  assert (H : Forall (fun op => isUpdate op = false)
                [PlaceBid 2000 2000 (1000 + hour - 1000) alice 150; Get 3000]).
  { repeat constructor. }
  split; [exact H|].
  apply (only_updates_shorten _ fresh H).
Defined.

(** X13: the highest bidder may bid again: after a bid of a user is
    accepted, a further bid of the same user that exceeds it and is not
    below the minimum next bid, the accepted amount plus a hundredth of the
    starting bid in binary64 arithmetic, is accepted too, as long as the
    auction is Active at the refresh. *)
Theorem highest_bidder_may_bid_again
    (tr ts now tr' ts' now' : Date) (u : ReqUser) (amt amt' : Q) (a : Auction) :
  httpStatus (reply (placeBid tr ts now u amt a)) = 200 ->
  let a1 := saved (placeBid tr ts now u amt a) in
  status (updateAuctionStatusMiddleware tr' a1) = Active ->
  (amt < amt')%Q ->
  jsLt (toDouble amt')
    (jsAdd (toDouble amt) (jsMul (toDouble (startingBid a)) (toDouble (1 # 100))))
  = false ->
  currentHighestBidder a1 = Some (user_id u)
  /\ httpStatus (reply (placeBid tr' ts' now' u amt' a1)) = 200
  /\ currentHighestBid (saved (placeBid tr' ts' now' u amt' a1)) = amt'.
Proof.
  intros H a1 Hact Hgt Hmin.
  destruct (placeBid_accepted_inv tr ts now u amt a H) as (Hpos & _ & Hsel & _ & _ & Eo).
  set (m := updateAuctionStatusMiddleware tr a) in *.
  assert (E1 : a1 = recordBid ts now u amt m) by (subst a1; rewrite Eo; reflexivity).
  assert (Hb : bids a1 <> []).
  { rewrite E1. unfold recordBid. cbn. intro C. apply app_eq_nil in C.
    destruct C as [_ C]. discriminate C. }
  assert (Em : updateAuctionStatusMiddleware tr' a1 = updateAuctionStatus tr' a1)
    by (apply middleware_with_bids, Hb).
  assert (Hc : currentHighestBid (updateAuctionStatusMiddleware tr' a1) = amt).
  { rewrite Em, updateAuctionStatus_frame, E1. reflexivity. }
  assert (Hs : startingBid (updateAuctionStatusMiddleware tr' a1) = startingBid a).
  { rewrite middleware_startingBid, E1. unfold recordBid. cbn.
    apply middleware_startingBid. }
  split; [rewrite E1; reflexivity|].
  assert (Eo' : placeBid tr' ts' now' u amt' a1 =
                mkOutcome (mkReply 200 AuctionJson)
                  (recordBid ts' now' u amt' (updateAuctionStatusMiddleware tr' a1))).
  { apply placeBid_accepted.
    - eapply Qlt_trans; eassumption.
    - exact Hact.
    - rewrite middleware_seller, E1. unfold recordBid. cbn.
      unfold m. rewrite middleware_seller.
      unfold m in Hsel. rewrite middleware_seller in Hsel. exact Hsel.
    - rewrite Hc. exact Hgt.
    - intros _. unfold belowMinimum, minNextBid. rewrite Hc, Hs. exact Hmin. }
  rewrite Eo'. split; reflexivity.
Qed.

Lemma highest_bidder_may_bid_again_witness :
  httpStatus (reply (placeBid 2000 2000 2000 alice 150 reserved)) = 200
  /\ httpStatus (reply (placeBid 3000 3000 3000 alice 151 bidOn)) = 200.
Proof.
  split; [reflexivity|].
  apply (highest_bidder_may_bid_again 2000 2000 2000 3000 3000 3000 alice 150 151
           reserved eq_refl).
  - reflexivity.
  - vm_compute. reflexivity.
  - vm_compute. reflexivity.
Defined.


(** * Orders *)

Module OrderFacts.

Import Order.

(** ** POST api/orders *)

Lemma findById_id (id : ObjectId) (products : Catalog.db) (p : Catalog.ProductDoc) :
  Catalog.findById id products = Some p -> Catalog._id p = id.
Proof.
  unfold Catalog.findById. intro H. apply find_some in H as [_ H].
  apply String.eqb_eq, H.
Qed.

Lemma detail_available (products : Catalog.db) (i : ReqItem) :
  (exists d, detail products i = Some d) <-> available products i.
Proof.
  unfold detail, available.
  destruct (Catalog.findById (reqProduct i) products) as [p|].
  - destruct (Z.ltb_spec (Catalog.stock p) (reqQuantity i)) as [H|H].
    + split; [intros (d & C); discriminate C|].
      intros (q & E & Hq). injection E as <-. lia.
    + split; [intros _; exists p; split; [reflexivity | exact H]|].
      intros _. eexists. reflexivity.
  - split; [intros (d & C); discriminate C | intros (q & C & _); discriminate C].
Qed.

Lemma detailAll_available (products : Catalog.db) (l : list ReqItem) :
  (exists ds, detailAll products l = Some ds) <-> Forall (available products) l.
Proof.
  induction l as [|i l IH]; cbn [detailAll].
  - split; [constructor | intros _; eexists; reflexivity].
  - split.
    + intros (ds & H).
      destruct (detail products i) as [d|] eqn:Ed; [|discriminate H].
      destruct (detailAll products l) as [ds'|]; [|discriminate H].
      constructor.
      * apply detail_available. exists d. exact Ed.
      * apply IH. eexists. reflexivity.
    + intro H. apply Forall_cons_iff in H as [Hi Hl].
      apply detail_available in Hi as (d & Ed). apply IH in Hl as (ds & Eds).
      rewrite Ed, Eds. eexists. reflexivity.
Qed.

(** What the details of the items are. *)
Lemma detailAll_items (products : Catalog.db) (l : list ReqItem) (ds : list Detailed) :
  detailAll products l = Some ds ->
  Forall2
    (fun i d =>
       product (item d) = reqProduct i /\ quantity (item d) = reqQuantity i
       /\ exists p, Catalog.findById (reqProduct i) products = Some p
                    /\ seller d = Catalog.seller p
                    /\ price (item d) = Catalog.price p
                    /\ reqQuantity i <= Catalog.stock p)
    l ds.
Proof.
  revert ds. induction l as [|i l IH]; intros ds H; cbn [detailAll] in H.
  - injection H as <-. constructor.
  - destruct (detail products i) as [d|] eqn:Ed; [|discriminate H].
    destruct (detailAll products l) as [ds'|]; [|discriminate H].
    injection H as <-. constructor; [|apply IH; reflexivity].
    unfold detail in Ed.
    destruct (Catalog.findById (reqProduct i) products) as [p|] eqn:Ep; [|discriminate Ed].
    destruct (Z.ltb_spec (Catalog.stock p) (reqQuantity i)) as [Hq|Hq]; [discriminate Ed|].
    injection Ed as <-. cbn.
    split; [apply (findById_id _ _ _ Ep)|]. split; [reflexivity|].
    exists p. repeat split. exact Hq.
Qed.




(** ** The stock of the catalogue *)

Lemma incStock_found (id : ObjectId) (d : Z) (products : Catalog.db)
    (p : Catalog.ProductDoc) :
  Catalog.findById id products = Some p ->
  exists q, Catalog.findById id (Catalog.incStock id d products) = Some q
            /\ restocked p q (Catalog.stock p + d).
Proof.
  unfold Catalog.findById.
  induction products as [|x l IH]; cbn [find Catalog.incStock]; [discriminate|].
  destruct (String.eqb (Catalog._id x) id) eqn:E.
  - intro H. injection H as <-. eexists. cbn [find Catalog._id]. rewrite E.
    split; [reflexivity | repeat split].
  - intro H. cbn [find]. rewrite E. apply IH, H.
Qed.

Lemma incStock_other (id id' : ObjectId) (d : Z) (products : Catalog.db) :
  id <> id' ->
  Catalog.findById id' (Catalog.incStock id d products) = Catalog.findById id' products.
Proof.
  intro Hne. unfold Catalog.findById.
  induction products as [|x l IH]; cbn [find Catalog.incStock]; [reflexivity|].
  destruct (String.eqb (Catalog._id x) id) eqn:E.
  - cbn [find Catalog._id]. apply String.eqb_eq in E.
    replace (String.eqb (Catalog._id x) id') with false; [reflexivity|].
    symmetry. apply String.eqb_neq. congruence.
  - cbn [find]. rewrite IH. reflexivity.
Qed.

Lemma incStock_missing (id : ObjectId) (d : Z) (products : Catalog.db) :
  Catalog.findById id products = None ->
  Catalog.findById id (Catalog.incStock id d products) = None.
Proof.
  unfold Catalog.findById.
  induction products as [|x l IH]; cbn [find Catalog.incStock]; [reflexivity|].
  destruct (String.eqb (Catalog._id x) id) eqn:E; [discriminate|].
  intro H. cbn [find]. rewrite E. apply IH, H.
Qed.

Lemma restocked_trans (p q r : Catalog.ProductDoc) (z z' : Z) :
  restocked p q z -> restocked q r z' -> restocked p r z'.
Proof.
  unfold restocked. intros (A & B & C & D & E & _) (A' & B' & C' & D' & E' & F').
  repeat split; congruence.
Qed.

(** The catalogue after the stock updates of a list of detailed items: each
    product is left with its stock less the quantity taken of it. *)
Lemma takeStock_found (ds : list Detailed) (products : Catalog.db)
    (id : ObjectId) (p : Catalog.ProductDoc) :
  Catalog.findById id products = Some p ->
  exists q, Catalog.findById id (takeStock ds products) = Some q
            /\ restocked p q (Catalog.stock p - taken id ds).
Proof.
  revert products p. induction ds as [|d ds IH]; intros products p H.
  - exists p. split; [exact H|]. cbn [taken fold_right]. unfold restocked.
    repeat split. lia.
  - change (takeStock (d :: ds) products)
      with (takeStock ds (Catalog.incStock (product (item d)) (- quantity (item d)) products)).
    cbn [taken fold_right]. fold (taken id ds).
    destruct (String.eqb (product (item d)) id) eqn:E.
    + apply String.eqb_eq in E. rewrite E.
      destruct (incStock_found id (- quantity (item d)) products p H) as (q & Hq & Hr).
      destruct (IH _ q Hq) as (r & Hr1 & Hr2).
      exists r. split; [exact Hr1|].
      eapply restocked_trans; [exact Hr|].
      destruct Hr as (_ & _ & _ & _ & _ & Hs). rewrite Hs in Hr2.
      replace (Catalog.stock p - (quantity (item d) + taken id ds))
        with (Catalog.stock p + - quantity (item d) - taken id ds) by lia.
      exact Hr2.
    + apply String.eqb_neq in E.
      rewrite <- (incStock_other _ id (- quantity (item d)) products E) in H.
      apply IH, H.
Qed.

Lemma takeStock_missing (ds : list Detailed) (products : Catalog.db) (id : ObjectId) :
  Catalog.findById id products = None ->
  Catalog.findById id (takeStock ds products) = None.
Proof.
  revert products. induction ds as [|d ds IH]; intros products H; [exact H|].
  change (takeStock (d :: ds) products)
    with (takeStock ds (Catalog.incStock (product (item d)) (- quantity (item d)) products)).
  apply IH.
  destruct (String.eqb (product (item d)) id) eqn:E.
  - apply String.eqb_eq in E. rewrite E. apply incStock_missing, H.
  - apply String.eqb_neq in E. rewrite incStock_other; assumption.
Qed.

Lemma taken_ordered (products : Catalog.db) (l : list ReqItem) (ds : list Detailed)
    (id : ObjectId) :
  detailAll products l = Some ds -> taken id ds = ordered id l.
Proof.
  intro H. apply detailAll_items in H.
  induction H as [|i d l ds (Hp & Hq & _) _ IH]; [reflexivity|].
  cbn [taken ordered fold_right]. fold (taken id ds). fold (ordered id l).
  rewrite Hp, Hq, IH. reflexivity.
Qed.

Lemma combine_snd_seq {A : Type} (l : list A) (k : nat) :
  map snd (combine (seq k (List.length l)) l) = l.
Proof.
  revert k. induction l as [|x l IH]; intro k; [reflexivity|].
  cbn. rewrite IH. reflexivity.
Qed.

(** An order that was saved: its items were all detailed, and the catalogue
    is the old one after their stock updates. *)
Lemma createOrder_accepted_inv
    (u : ReqUser) (b : Body) (newId : nat -> ObjectId) (products products' : Catalog.db)
    (r : Reply) (o : t) :
  createOrder u b newId products = (r, Some o, products') ->
  exists ds,
    detailAll products (reqItems b) = Some ds
    /\ products' = takeStock ds products
    /\ r = mkReply 201 OrderJson
    /\ user o = user_id u /\ orderItems o = map item ds
    /\ map sellerId (sellerWiseStatus o) = sellersOf ds
    /\ Forall (fun sws => status sws = PartPending) (sellerWiseStatus o)
    /\ orderStatus o = Pending /\ isPaid o = false /\ isDelivered o = false.
Proof.
  unfold createOrder.
  destruct (negb (orderChecks b)); [discriminate|].
  destruct (List.length (reqItems b) =? 0)%nat; [discriminate|].
  destruct (detailAll products (reqItems b)) as [ds|] eqn:E; [|discriminate].
  cbv zeta. intro H. injection H as <- <- <-.
  exists ds. cbn [user orderItems sellerWiseStatus orderStatus isPaid isDelivered].
  repeat split.
  - rewrite map_map. cbn [sellerId].
    rewrite <- (map_map snd (fun x => x)), map_id.
    apply combine_snd_seq.
  - apply Forall_map. apply Forall_forall. intros x _. reflexivity.
Qed.

(** X15: an accepted order takes from the stock of each product of the
    catalogue the total quantity its items ask of that product, leaves the
    rest of the product document alone, and neither adds nor removes a
    product. *)
Theorem order_takes_the_ordered_stock
    (u : ReqUser) (b : Body) (newId : nat -> ObjectId) (products products' : Catalog.db)
    (r : Reply) (o : t) :
  createOrder u b newId products = (r, Some o, products') ->
  (forall id p,
      Catalog.findById id products = Some p ->
      exists q, Catalog.findById id products' = Some q
                /\ restocked p q (Catalog.stock p - ordered id (reqItems b)))
  /\ (forall id, Catalog.findById id products = None ->
                 Catalog.findById id products' = None).
Proof.
  intro H.
  destruct (createOrder_accepted_inv u b newId products products' r o H)
    as (ds & E & -> & _).
  split.
  - intros id p Hp. rewrite <- (taken_ordered products (reqItems b) ds id E).
    apply takeStock_found, Hp.
  - intros id Hn. apply takeStock_missing, Hn.
Qed.

Lemma order_takes_the_ordered_stock_witness :
  exists o,
    createOrder alice basket partIds [lamp; desk]
    = (mkReply 201 OrderJson, Some o, afterBasket)
    /\ exists q, Catalog.findById "p1"%string afterBasket = Some q
                 /\ Catalog.stock q = 1.
Proof.
  eexists. split; [reflexivity|].
  destruct (order_takes_the_ordered_stock alice basket partIds [lamp; desk]
              afterBasket _ _ eq_refl) as (H & _).
  destruct (H "p1"%string lamp eq_refl) as (q & Hq & Hr).
  exists q. split; [exact Hq|]. apply Hr.
Defined.


Lemma incStock_comm (i j : ObjectId) (d e : Z) (products : Catalog.db) :
  Catalog.incStock i d (Catalog.incStock j e products)
  = Catalog.incStock j e (Catalog.incStock i d products).
Proof.
  induction products as [|x l IH]; cbn [Catalog.incStock]; [reflexivity|].
  destruct (String.eqb (Catalog._id x) j) eqn:Ej;
    destruct (String.eqb (Catalog._id x) i) eqn:Ei;
    cbn [Catalog.incStock Catalog._id Catalog.name Catalog.images Catalog.price
         Catalog.seller Catalog.stock];
    rewrite ?Ei, ?Ej; cbn [Catalog._id Catalog.name Catalog.images Catalog.price
                            Catalog.seller Catalog.stock].
  - f_equal. f_equal. lia.
  - reflexivity.
  - reflexivity.
  - rewrite IH. reflexivity.
Qed.

(** X16: the stock updates of an order commute: in whatever order the
    updates of the items are carried out, the catalogue they leave is the
    same. *)
Theorem stock_updates_commute (ds ds' : list Detailed) (products : Catalog.db) :
  Permutation ds ds' -> takeStock ds products = takeStock ds' products.
Proof.
  intro H. revert products.
  induction H as [|d l l' _ IH|d e l|l l' l'' _ IH1 _ IH2]; intro products.
  - reflexivity.
  - unfold takeStock. cbn [fold_left]. apply IH.
  - unfold takeStock. cbn [fold_left]. rewrite incStock_comm. reflexivity.
  - rewrite IH1. apply IH2.
Qed.

Lemma stock_updates_commute_witness :
  Permutation
    [twoLamps;
     oneDesk;
     oneLamp]
    [oneLamp;
     twoLamps;
     oneDesk]
  /\ map Catalog.stock
       (takeStock
          [twoLamps;
           oneDesk;
           oneLamp] [lamp; desk])
     = [0; 0].
Proof.
  assert (P : Permutation
    [twoLamps;
     oneDesk;
     oneLamp]
    [oneLamp;
     twoLamps;
     oneDesk]).
  { eapply perm_trans; [apply perm_skip, perm_swap | apply perm_swap]. }
  split; [exact P|].
  rewrite (stock_updates_commute _ _ [lamp; desk] P). reflexivity.
Defined.

Lemma ordered_distinct (id : ObjectId) (l : list ReqItem) :
  NoDup (map reqProduct l) ->
  ordered id l = 0
  \/ exists i, In i l /\ reqProduct i = id /\ ordered id l = reqQuantity i.
Proof.
  induction l as [|i l IH]; intro H; [left; reflexivity|].
  cbn [map] in H. apply NoDup_cons_iff in H as [Hi Hl].
  cbn [ordered fold_right]. fold (ordered id l).
  destruct (String.eqb (reqProduct i) id) eqn:E.
  - apply String.eqb_eq in E. right. exists i. split; [left; reflexivity|].
    split; [exact E|].
    destruct (IH Hl) as [H0|(j & Hj & Hp & _)]; [lia|].
    exfalso. apply Hi. rewrite E, <- Hp. apply in_map, Hj.
  - destruct (IH Hl) as [H0|(j & Hj & Hp & Hq)]; [left; exact H0|].
    right. exists j. split; [right; exact Hj|]. split; assumption.
Qed.

(** X17: when the items of an accepted order name pairwise distinct
    products, no stock of the catalogue that was non-negative becomes
    negative. *)
Theorem distinct_items_keep_stock_nonnegative
    (u : ReqUser) (b : Body) (newId : nat -> ObjectId) (products products' : Catalog.db)
    (r : Reply) (o : t) :
  createOrder u b newId products = (r, Some o, products') ->
  NoDup (map reqProduct (reqItems b)) ->
  (forall id p, Catalog.findById id products = Some p -> 0 <= Catalog.stock p) ->
  forall id q, Catalog.findById id products' = Some q -> 0 <= Catalog.stock q.
Proof.
  intros H Hnd Hpos id q Hq.
  destruct (createOrder_accepted_inv u b newId products products' r o H)
    as (ds & E & -> & _).
  assert (Hav : Forall (available products) (reqItems b)).
  { apply detailAll_available. exists ds. exact E. }
  assert (Hfound : forall id p, Catalog.findById id products = Some p ->
            exists q, Catalog.findById id (takeStock ds products) = Some q
                      /\ restocked p q (Catalog.stock p - ordered id (reqItems b))).
  { intros id' p Hp. rewrite <- (taken_ordered products (reqItems b) ds id' E).
    apply takeStock_found, Hp. }
  assert (Hmiss : forall id, Catalog.findById id products = None ->
            Catalog.findById id (takeStock ds products) = None).
  { intros id' Hn. apply takeStock_missing, Hn. }
  destruct (Catalog.findById id products) as [p|] eqn:Ep.
  - destruct (Hfound id p Ep) as (q' & Hq' & Hr).
    rewrite Hq in Hq'. injection Hq' as <-.
    destruct Hr as (_ & _ & _ & _ & _ & Hs). rewrite Hs.
    specialize (Hpos id p Ep).
    destruct (ordered_distinct id (reqItems b) Hnd) as [H0|(i & Hi & Hp & Ho)]; [lia|].
    rewrite Forall_forall in Hav. destruct (Hav i Hi) as (p' & Hp' & Hle).
    rewrite Hp, Ep in Hp'. injection Hp' as <-. lia.
  - rewrite (Hmiss id Ep) in Hq. discriminate Hq.
Qed.

Lemma distinct_items_keep_stock_nonnegative_witness :
  NoDup (map reqProduct (reqItems basket))
  /\ exists q, Catalog.findById "p2"%string afterBasket = Some q
               /\ 0 <= Catalog.stock q.
Proof.
  assert (Hnd : NoDup (map reqProduct (reqItems basket))).
  { repeat constructor; cbn; intuition discriminate. }
  split; [exact Hnd|].
  eexists. split; [reflexivity|].
  apply (distinct_items_keep_stock_nonnegative alice basket partIds [lamp; desk]
           afterBasket (mkReply 201 OrderJson) _ eq_refl Hnd) with (id := "p2"%string).
  - intros id p Hp. unfold Catalog.findById in Hp.
    apply find_some in Hp as [[<-|[<-|[]]] _]; discriminate.
  - reflexivity.
Defined.

(** X18: the stock check is made item by item against the stock before the
    order, so an order naming one product twice, each quantity within the
    stock, is accepted and takes both quantities: the stock left is the
    stock less their sum, negative when the sum exceeds it. *)
Theorem repeated_item_can_oversell
    (u : ReqUser) (newId : nat -> ObjectId) (products : Catalog.db)
    (p : Catalog.ProductDoc) (q1 q2 : Z) (where_ : Address) (method : string) :
  Catalog.findById (Catalog._id p) products = Some p ->
  0 < q1 <= Catalog.stock p ->
  0 < q2 <= Catalog.stock p ->
  orderChecks (mkBody [mkReqItem (Catalog._id p) q1; mkReqItem (Catalog._id p) q2]
                 where_ method) = true ->
  let r := createOrder u
             (mkBody [mkReqItem (Catalog._id p) q1; mkReqItem (Catalog._id p) q2]
                where_ method) newId products in
  httpStatus (fst (fst r)) = 201
  /\ exists q, Catalog.findById (Catalog._id p) (snd r) = Some q
               /\ Catalog.stock q = Catalog.stock p - q1 - q2
               /\ (Catalog.stock p < q1 + q2 -> Catalog.stock q < 0).
Proof.
  intros Hp H1 H2 Hv r. subst r. unfold createOrder. rewrite Hv.
  cbn [negb reqItems List.length Nat.eqb detailAll]. unfold detail. cbn [reqProduct reqQuantity].
  rewrite Hp.
  destruct (Z.ltb_spec (Catalog.stock p) q1) as [C|_]; [lia|].
  destruct (Z.ltb_spec (Catalog.stock p) q2) as [C|_]; [lia|].
  cbv zeta. cbn [fst snd httpStatus]. split; [reflexivity|].
  match goal with |- context [takeStock ?ds products] =>
    destruct (takeStock_found ds products (Catalog._id p) p Hp) as (q & Hq & Hr)
  end.
  exists q. split; [exact Hq|].
  destruct Hr as (_ & _ & _ & _ & _ & Hs). rewrite Hs.
  cbn [taken fold_right product item quantity]. rewrite String.eqb_refl.
  split; lia.
Qed.

Lemma repeated_item_can_oversell_witness :
  Catalog.findById (Catalog._id lamp) [lamp; desk] = Some lamp
  /\ exists q,
       Catalog.findById "p1"%string
         (snd (createOrder alice
                 (lampsTwice) partIds
                 [lamp; desk])) = Some q
       /\ Catalog.stock q < 0.
Proof.
  split; [reflexivity|].
  destruct (repeated_item_can_oversell alice partIds [lamp; desk] lamp 3 2 home (reqPaymentMethod basket))
    as (_ & q & Hq & _ & Hneg).
  - reflexivity.
  - split; [reflexivity | discriminate].
  - split; [reflexivity | discriminate].
  - reflexivity.
  - exists q. split; [exact Hq|]. apply Hneg. reflexivity.
Defined.


(** ** The parts of an order, by seller *)

Lemma sellersOf_acc (ds : list Detailed) (seen : list ObjectId) :
  let out :=
    fold_left
      (fun seen d => if existsb (String.eqb (seller d)) seen then seen
                     else seen ++ [seller d]) ds seen in
  (NoDup seen -> NoDup out)
  /\ (forall s, In s out <-> In s seen \/ In s (map seller ds)).
Proof.
  revert seen. induction ds as [|d ds IH]; intro seen; cbn [fold_left map].
  - split; [exact (fun H => H)|]. intro s. cbn. tauto.
  - destruct (existsb (String.eqb (seller d)) seen) eqn:E.
    + destruct (IH seen) as (Hn & Hi). split; [exact Hn|].
      intro s. rewrite Hi. cbn [In].
      apply existsb_exists in E as (x & Hx & Ex). apply String.eqb_eq in Ex.
      split; [tauto|]. intros [H|[H|H]]; [tauto| |tauto].
      left. rewrite <- H, Ex. exact Hx.
    + destruct (IH (seen ++ [seller d])) as (Hn & Hi). split.
      * intro Hs. apply Hn. apply NoDup_app; [exact Hs | repeat constructor; intros [] |].
        intros x Hx [Hd|[]]. subst x.
        assert (C : existsb (String.eqb (seller d)) seen = true).
        { apply existsb_exists. exists (seller d). split; [exact Hx|].
          apply String.eqb_refl. }
        rewrite C in E. discriminate E.
      * intro s. rewrite Hi, in_app_iff. cbn [In]. tauto.
Qed.

Lemma sellersOf_NoDup (ds : list Detailed) : NoDup (sellersOf ds).
Proof. apply (sellersOf_acc ds []). constructor. Qed.

Lemma sellersOf_In (ds : list Detailed) (s : ObjectId) :
  In s (sellersOf ds) <-> In s (map seller ds).
Proof.
  destruct (sellersOf_acc ds []) as (_ & H). unfold sellersOf. rewrite H.
  cbn [In]. tauto.
Qed.

(** The sellers of the detailed items are the sellers of the products the
    request names. *)
Lemma detailed_sellers (products : Catalog.db) (l : list ReqItem) (ds : list Detailed)
    (s : ObjectId) :
  detailAll products l = Some ds ->
  In s (map seller ds)
  <-> exists i p, In i l /\ Catalog.findById (reqProduct i) products = Some p
                  /\ Catalog.seller p = s.
Proof.
  intro H. apply detailAll_items in H.
  induction H as [|i d l ds (_ & _ & p & Hp & Hs & _) _ IH]; cbn [map In].
  - split; [intros [] | intros (i & p & [] & _)].
  - rewrite IH. split.
    + intros [H|(j & q & Hj & Hq & Hq')].
      * exists i, p. split; [left; reflexivity|]. split; [exact Hp | congruence].
      * exists j, q. split; [right; exact Hj|]. split; assumption.
    + intros (j & q & [Hj|Hj] & Hq & Hq').
      * left. subst j. rewrite Hp in Hq. injection Hq as <-. congruence.
      * right. exists j, q. repeat split; assumption.
Qed.

(** X19: the sellerWiseStatus of a new order has one entry for each seller
    of an ordered product and no other: no seller twice, every entry
    Pending. *)
Theorem one_part_by_seller
    (u : ReqUser) (b : Body) (newId : nat -> ObjectId) (products products' : Catalog.db)
    (r : Reply) (o : t) :
  createOrder u b newId products = (r, Some o, products') ->
  NoDup (map sellerId (sellerWiseStatus o))
  /\ Forall (fun sws => status sws = PartPending) (sellerWiseStatus o)
  /\ (forall s,
        In s (map sellerId (sellerWiseStatus o))
        <-> exists i p, In i (reqItems b)
                        /\ Catalog.findById (reqProduct i) products = Some p
                        /\ Catalog.seller p = s).
Proof.
  intro H.
  destruct (createOrder_accepted_inv u b newId products products' r o H)
    as (ds & E & _ & _ & _ & _ & Hs & Hp & _).
  rewrite Hs. split; [apply sellersOf_NoDup|]. split; [exact Hp|].
  intro s. rewrite sellersOf_In. apply detailed_sellers, E.
Qed.

Lemma one_part_by_seller_witness :
  exists o products',
    createOrder alice lampsTwice partIds [lamp; desk]
    = (mkReply 201 OrderJson, Some o, products')
    /\ NoDup (map sellerId (sellerWiseStatus o))
    /\ List.length (sellerWiseStatus o) = 1%nat.
Proof.
  eexists. eexists. split; [reflexivity|].
  split; [|reflexivity].
  apply (one_part_by_seller alice lampsTwice partIds [lamp; desk] _ _ _ eq_refl).
Defined.

(** ** GET api/orders/:id *)

Lemma someSeller_known (known : ObjectId -> bool) (uid : ObjectId) (l : list Part) :
  Forall (fun sws => known (sellerId sws) = true) l ->
  exists isSeller,
    someSeller known uid l = Some isSeller
    /\ (isSeller = true <-> In uid (map sellerId l)).
Proof.
  induction l as [|x l IH]; intro H; cbn [someSeller map In].
  - exists false. split; [reflexivity|]. split; [discriminate | intros []].
  - apply Forall_cons_iff in H as [Hx Hl]. rewrite Hx. cbn [negb].
    destruct (String.eqb (sellerId x) uid) eqn:E.
    + exists true. split; [reflexivity|]. apply String.eqb_eq in E. tauto.
    + destruct (IH Hl) as (bb & Hb & Hi). exists bb. split; [exact Hb|].
      apply String.eqb_neq in E. rewrite Hi. tauto.
Qed.

(** X20: an order may be read by the user who placed it, by an admin and by
    the seller of any of its parts, and by nobody else: with the buyer and
    the sellers still among the users, these get 200 and any other requester
    gets 401. *)
Theorem who_may_read_an_order
    (known : ObjectId -> bool) (v : ReqUser) (o : t) :
  known (user o) = true ->
  Forall (fun sws => known (sellerId sws) = true) (sellerWiseStatus o) ->
  (user o = user_id v \/ role v = Role.admin
   \/ In (user_id v) (map sellerId (sellerWiseStatus o)) ->
   getOrder known v o = mkReply 200 OrderJson)
  /\ (user o <> user_id v -> role v <> Role.admin ->
      ~ In (user_id v) (map sellerId (sellerWiseStatus o)) ->
      getOrder known v o = mkReply 401 ViewNotAuthorized).
Proof.
  intros Hu Hs. unfold getOrder. rewrite Hu. cbn [negb]. cbv zeta.
  destruct (someSeller_known known (user_id v) (sellerWiseStatus o) Hs)
    as (isSeller & E & Hi).
  rewrite E. split.
  - intros [H|[H|H]].
    + apply String.eqb_eq in H. rewrite H. reflexivity.
    + rewrite H. cbn. rewrite andb_false_r. reflexivity.
    + apply Hi in H. rewrite H. cbn. rewrite andb_false_r. reflexivity.
  - intros H1 H2 H3. apply String.eqb_neq in H1. rewrite H1.
    replace (Role.eqb (role v) Role.admin) with false
      by (destruct (role v); try reflexivity; contradiction H2; reflexivity).
    destruct isSeller; [exfalso; apply H3, Hi; reflexivity | reflexivity].
Qed.


Lemma who_may_read_an_order_witness :
  known_users_of_lampOrder
  /\ getOrder users owner lampOrder = mkReply 200 OrderJson
  /\ getOrder users bob lampOrder = mkReply 401 ViewNotAuthorized.
Proof.
  assert (K : known_users_of_lampOrder).
  { split; [reflexivity | repeat constructor]. }
  split; [exact K|]. destruct K as (Ku & Ks).
  split.
  - apply (who_may_read_an_order users owner lampOrder Ku Ks).
    right. right. left. reflexivity.
  - apply (who_may_read_an_order users bob lampOrder Ku Ks).
    + discriminate.
    + discriminate.
    + intros [C|[]]. discriminate C.
Defined.

(** X21: when the user who placed an order, or the seller of its first
    part, is no longer among the users, nobody can read the order, the admin
    included: the request fails with 500. *)
Theorem order_of_a_deleted_user_is_unreadable
    (known : ObjectId -> bool) (v : ReqUser) (o : t) :
  known (user o) = false
  \/ (exists sws rest, sellerWiseStatus o = sws :: rest
                       /\ known (sellerId sws) = false) ->
  getOrder known v o = mkReply 500 ServerError.
Proof.
  intros [H|(sws & rest & Hs & Hk)]; unfold getOrder.
  - rewrite H. reflexivity.
  - destruct (known (user o)); [|reflexivity]. cbn [negb]. cbv zeta.
    rewrite Hs. cbn [someSeller]. rewrite Hk. reflexivity.
Qed.

Lemma order_of_a_deleted_user_is_unreadable_witness :
  (fun _ : ObjectId => false) (user lampOrder) = false
  /\ getOrder (fun _ => false) root lampOrder = mkReply 500 ServerError.
Proof.
  split; [reflexivity|].
  apply (order_of_a_deleted_user_is_unreadable (fun _ => false) root lampOrder).
  left. reflexivity.
Defined.

(** ** The status of an order *)

(** X22: for an order with a single part, a status set on the part by its
    seller, holding the role of a seller, or by an admin becomes the status
    of the order, except Pending, which leaves the status of the order as
    it was; the delivered flag is raised by Delivered and lowered by
    nothing. *)
Theorem single_part_order_follows_its_part
    (now : Date) (u : ReqUser) (s : PartStatus) (o : t) (sws : Part) :
  sellerWiseStatus o = [sws] ->
  role u = Role.admin \/ (role u = Role.seller /\ sellerId sws = user_id u) ->
  let r := updatePartStatus now u (_id sws) (Some s) o in
  httpStatus (fst r) = 200
  /\ sellerWiseStatus (snd r) = [mkPart (_id sws) (sellerId sws) s]
  /\ orderStatus (snd r) = followPart s (orderStatus o)
  /\ isDelivered (snd r)
     = (isDelivered o || PartStatus_eqb s PartDelivered).
Proof.
  intros Hs Hauth r. subst r. unfold updatePartStatus.
  rewrite authorizeRole_seller_admin.
  replace (Role.eqb (role u) Role.buyer) with false
    by (destruct Hauth as [H|(H & _)]; rewrite H; reflexivity).
  cbn [negb]. unfold partStatusHandler. rewrite Hs.
  cbn [find]. rewrite String.eqb_refl.
  replace (negb (Role.eqb (role u) Role.admin)
           && negb (String.eqb (sellerId sws) (user_id u))) with false.
  2: { destruct Hauth as [H|(_ & H)].
       - rewrite H. reflexivity.
       - apply String.eqb_eq in H. rewrite H. symmetry. apply andb_false_r. }
  cbv zeta. cbn [setPart]. rewrite String.eqb_refl.
  unfold every, some. cbn [forallb existsb status].
  destruct s; cbn; repeat split; rewrite ?orb_false_r, ?orb_true_r; reflexivity.
Qed.

Lemma single_part_order_follows_its_part_witness :
  sellerWiseStatus lampOrder = [mkPart (partIds 0) (user_id owner) PartPending]
  /\ orderStatus
       (snd (updatePartStatus 5000 owner (partIds 0) (Some PartShipped) lampOrder))
     = Shipped.
Proof.
  split; [reflexivity|].
  destruct (single_part_order_follows_its_part 5000 owner PartShipped lampOrder
              (mkPart (partIds 0) (user_id owner) PartPending) eq_refl)
    as (_ & _ & H & _).
  - right. split; reflexivity.
  - exact H.
Defined.

Lemma setPart_keeps (partId : ObjectId) (s : PartStatus) (l : list Part) :
  map _id (setPart partId s l) = map _id l
  /\ map sellerId (setPart partId s l) = map sellerId l.
Proof.
  induction l as [|x l (IH1 & IH2)]; cbn [setPart map]; [split; reflexivity|].
  destruct (String.eqb (_id x) partId); cbn [map _id sellerId].
  - split; reflexivity.
  - rewrite IH1, IH2. split; reflexivity.
Qed.

(** What one order request keeps. *)
Lemma apply_keeps (op : Op) (o : t) :
  let o' := snd (apply op o) in
  user o' = user o /\ orderItems o' = orderItems o
  /\ map _id (sellerWiseStatus o') = map _id (sellerWiseStatus o)
  /\ map sellerId (sellerWiseStatus o') = map sellerId (sellerWiseStatus o)
  /\ (isPaid o = true -> isPaid o' = true)
  /\ (isDelivered o = true -> isDelivered o' = true)
  /\ (deliveredFlagged o -> deliveredFlagged o').
Proof.
  unfold deliveredFlagged.
  destruct op as [now now' u b|now u|now u partId s]; cbn [apply].
  - unfold payOrder.
    destruct (negb (authorizeRole [Role.admin; Role.seller] u));
      [cbn [snd]; repeat split; exact (fun H => H)|].
    unfold payHandler. cbv zeta. cbn [snd user orderItems sellerWiseStatus isPaid
                                      isDelivered orderStatus].
    repeat split; try (intro H; exact H).
    intros Hf. destruct (orderStatus o); cbn; try discriminate; exact Hf.
  - unfold deliverOrder.
    destruct (negb (authorizeRole [Role.admin] u));
      [cbn [snd]; repeat split; exact (fun H => H)|].
    unfold deliverHandler. cbn. repeat split. exact (fun H => H).
  - unfold updatePartStatus.
    destruct (negb (authorizeRole [Role.seller; Role.admin] u));
      [cbn [snd]; repeat split; exact (fun H => H)|].
    unfold partStatusHandler.
    destruct s as [s|]; [|cbn [snd]; repeat split; exact (fun H => H)].
    destruct (find _ _) as [entry|]; [|cbn [snd]; repeat split; exact (fun H => H)].
    destruct (_ && _); [cbn [snd]; repeat split; exact (fun H => H)|].
    cbv zeta. destruct (setPart_keeps partId s (sellerWiseStatus o)) as (K1 & K2).
    repeat match goal with
    | |- context [if ?c then _ else _] => destruct c
    end; cbn [snd user orderItems sellerWiseStatus isPaid isDelivered orderStatus];
    repeat split; try assumption; try reflexivity; try (intro H; exact H);
    try discriminate.
Qed.

(** X23: whatever payments, deliveries and status updates an order goes
    through, accepted or refused, it keeps its buyer, its items and the ids
    and sellers of its parts; once paid it stays paid, once flagged delivered
    it stays flagged; and if its status never was Delivered without the flag,
    it never is. *)
Theorem order_requests_keep (ops : list Op) (o : t) :
  user (run ops o) = user o /\ orderItems (run ops o) = orderItems o
  /\ map _id (sellerWiseStatus (run ops o)) = map _id (sellerWiseStatus o)
  /\ map sellerId (sellerWiseStatus (run ops o)) = map sellerId (sellerWiseStatus o)
  /\ (isPaid o = true -> isPaid (run ops o) = true)
  /\ (isDelivered o = true -> isDelivered (run ops o) = true)
  /\ (deliveredFlagged o -> deliveredFlagged (run ops o)).
Proof.
  revert o. induction ops as [|op ops IH]; intro o.
  - cbn. repeat split; exact (fun H => H).
  - change (run (op :: ops) o) with (run ops (snd (apply op o))).
    destruct (IH (snd (apply op o))) as (A & B & C & D & E & F & G).
    destruct (apply_keeps op o) as (A' & B' & C' & D' & E' & F' & G').
    rewrite A, B, C, D. repeat split; auto.
Qed.


(** X24: the status route changes the status of an order only to one its
    parts have earned: to Delivered when every part is Delivered, to
    Cancelled when every part is Cancelled, to Shipped when every part is
    Shipped, and to Processing when some part is Processing, Shipped or
    Cancelled; and when every part is Delivered the order is Delivered and
    flagged so. *)
Theorem overall_status_is_earned
    (now : Date) (u : ReqUser) (partId : ObjectId) (s : PartStatus) (o : t) :
  httpStatus (fst (updatePartStatus now u partId (Some s) o)) = 200 ->
  let o' := snd (updatePartStatus now u partId (Some s) o) in
  let parts := sellerWiseStatus o' in
  parts = setPart partId s (sellerWiseStatus o)
  /\ (every PartDelivered parts = true ->
      orderStatus o' = Delivered /\ isDelivered o' = true)
  /\ (orderStatus o' <> orderStatus o ->
      match orderStatus o' with
      | Delivered => every PartDelivered parts = true
      | Cancelled => every PartCancelled parts = true
      | Shipped => every PartShipped parts = true
      | Processing =>
          some PartProcessing parts || some PartShipped parts
          || some PartCancelled parts = true
      | Pending | PaymentFailed => False
      end).
Proof.
  unfold updatePartStatus.
  destruct (negb (authorizeRole [Role.seller; Role.admin] u)); [discriminate|].
  unfold partStatusHandler.
  destruct (find _ _) as [entry|]; [|discriminate].
  destruct (_ && _); [discriminate|].
  cbv zeta. intros _.
  set (parts := setPart partId s (sellerWiseStatus o)).
  destruct (every PartDelivered parts) eqn:E1.
  { cbn [snd sellerWiseStatus orderStatus isDelivered]. fold parts.
    split; [reflexivity|]. split; [intros _; split; reflexivity|].
    intros _. exact E1. }
  destruct (some PartCancelled parts) eqn:E2.
  { destruct (every PartCancelled parts) eqn:E3; cbn [snd sellerWiseStatus orderStatus];
      rewrite ?E1, ?E2, ?E3; (split; [reflexivity|]); (split; [discriminate|]);
      intros _; rewrite ?orb_true_r; reflexivity. }
  destruct (every PartShipped parts) eqn:E4.
  { cbn [snd sellerWiseStatus orderStatus]. rewrite E1, E4.
    split; [reflexivity|]. split; [discriminate|]. intros _. reflexivity. }
  destruct (some PartProcessing parts || some PartShipped parts) eqn:E5.
  { cbn [snd sellerWiseStatus orderStatus]. rewrite E1, E2, E5.
    split; [reflexivity|]. split; [discriminate|]. intros _. reflexivity. }
  cbn [snd sellerWiseStatus orderStatus]. rewrite E1.
  split; [reflexivity|]. split; [discriminate|]. intro C. exfalso. apply C. reflexivity.
Qed.

Lemma overall_status_is_earned_witness :
  httpStatus (fst (updatePartStatus 5000 root (partIds 0) (Some PartDelivered) lampOrder))
  = 200
  /\ orderStatus
       (snd (updatePartStatus 5000 root (partIds 0) (Some PartDelivered) lampOrder))
     = Delivered.
Proof.
  split; [reflexivity|].
  destruct (overall_status_is_earned 5000 root (partIds 0) PartDelivered lampOrder eq_refl)
    as (_ & H & _).
  apply H. reflexivity.
Defined.

End OrderFacts.

